(** * Fortress Token Optimizer: cost prediction and provider intelligence

    A shallow embedding of [backend/cost_predictor.py] and
    [backend/provider_intelligence.py], and the properties of the usage
    ledger, the forecaster, the anomaly detector, the efficiency scorer and
    the provider recommender/calibrator that follow from the code.

    Conventions of the embedding.
    - Python [float] arithmetic is idealised as exact rational arithmetic
      ([Q], compared with [==]), [round] and the [.2f] format round the
      exact value half to even, and a standard deviation is the exact
      square root of a rational; Python [int] is [Z].
    - A Python exception is a value [Raise e] of the result type; every
      operation that can raise in the source returns [Result].
    - The wall clock ([datetime.now()]) is an explicit argument.
    - The engine-level stores ([user_usage], [provider_calibration],
      [user_history]) are finite maps; the dictionaries whose iteration
      order the code observes ([by_provider], [by_level], [PROVIDERS]) are
      insertion-ordered association lists. *)

From Stdlib Require Import Reals Qreals Lra.
From Stdlib Require Import QArith Qround Qminmax Lqa Lia ZArith String List.
From Stdlib Require Import Qpower Qabs.
From Stdlib Require DecimalString.
From stdpp Require Import gmap strings list fin_maps.

Local Open Scope string_scope.
Local Open Scope Z_scope.
Local Open Scope Q_scope.
Local Open Scope list_scope.

(* ================================================================== *)
(** * Python runtime fragments                                         *)
(* ================================================================== *)

Module Py.

(** The exceptions the two modules can raise. *)
Inductive Exc : Type :=
| ValueError (msg : string)
| KeyError (key : string)
| IndexError
| ZeroDivisionError
| StatisticsError
| UnboundLocalError (name : string).

Inductive Result (A : Type) : Type :=
| Ok (a : A)
| Raise (e : Exc).
Arguments Ok {A} a.
Arguments Raise {A} e.

Definition bind {A B} (m : Result A) (k : A -> Result B) : Result B :=
  match m with
  | Ok a => k a
  | Raise e => Raise e
  end.

Definition returns {A} (m : Result A) : Prop := exists a, m = Ok a.

(** [for x in l: acc = body(acc, x)] with a body that may raise. *)
Fixpoint for_each {A S} (body : S -> A -> Result S) (l : list A) (acc : S)
  : Result S :=
  match l with
  | [] => Ok acc
  | x :: rest => bind (body acc x) (for_each body rest)
  end.

(** [[f(x) for x in l]] with an [f] that may raise. *)
Fixpoint map_result {A B} (f : A -> Result B) (l : list A) : Result (list B) :=
  match l with
  | [] => Ok []
  | x :: rest =>
      bind (f x) (fun y => bind (map_result f rest) (fun ys => Ok (y :: ys)))
  end.

(** [[x for x in l if p(x)]] with a [p] that may raise. *)
Fixpoint filter_result {A} (p : A -> Result bool) (l : list A)
  : Result (list A) :=
  match l with
  | [] => Ok []
  | x :: rest =>
      bind (p x) (fun b =>
      bind (filter_result p rest) (fun ys => Ok (if b then x :: ys else ys)))
  end.

(** ** Comparisons on numbers *)

Definition Qltb (x y : Q) : bool :=
  match x ?= y with Lt => true | _ => false end.
Definition Qgtb (x y : Q) : bool := Qltb y x.
Definition Qleb (x y : Q) : bool := Qle_bool x y.
Definition Qeqb (x y : Q) : bool := Qeq_bool x y.

(** ** Arithmetic *)

(** [a / b] on floats: raises on a zero divisor. *)
Definition truediv (a b : Q) : Result Q :=
  if Qeqb b 0 then Raise ZeroDivisionError else Ok (a / b).

(** [int(x)]: truncation toward zero. *)
Definition int (x : Q) : Z := Z.quot (Qnum x) (Zpos (Qden x)).

(** Nearest integer, ties to even. *)
Definition round_half_even (x : Q) : Z :=
  let f := Qfloor x in
  let r := x - inject_Z f in
  if Qltb r (1 # 2) then f
  else if Qltb (1 # 2) r then (f + 1)%Z
  else if Z.even f then f else (f + 1)%Z.

(** [round(x, ndigits)]. *)
Definition round (x : Q) (ndigits : nat) : Q :=
  let scale := inject_Z (10 ^ Z.of_nat ndigits) in
  inject_Z (round_half_even (x * scale)) / scale.

Definition sum (l : list Q) : Q := fold_left Qplus l 0.
Definition sumZ (l : list Z) : Z := fold_left Z.add l 0%Z.
Definition len {A} (l : list A) : Z := Z.of_nat (length l).

(** [l[i]] for a non-negative index. *)
Definition index {A} (l : list A) (i : nat) : Result A :=
  match l !! i with
  | Some x => Ok x
  | None => Raise IndexError
  end.

(** [l[-n:]] and [l[:-n]] for [n > 0], and [l[-a:-b]] for [a >= b > 0]. *)
Definition last_n {A} (n : nat) (l : list A) : list A :=
  skipn (length l - n) l.
Definition but_last_n {A} (n : nat) (l : list A) : list A :=
  firstn (length l - n) l.
Definition slice_from_end {A} (a b : nat) (l : list A) : list A :=
  skipn (length l - a) (firstn (length l - b) l).

(** [l.index(x)]: position of the first element equal to [x]. *)
Fixpoint list_index {A} (eqb : A -> A -> bool) (x : A) (l : list A)
  : Result nat :=
  match l with
  | [] => Raise (ValueError "x not in list")
  | y :: rest =>
      if eqb y x then Ok O
      else bind (list_index eqb x rest) (fun i => Ok (S i))
  end.

(** [l.index(l[k])]: the search compares by identity before it compares
    by value, so it finds an earlier equal element or stops at [k]. *)
Definition index_of_member {A} (eqb : A -> A -> bool) (l : list A) (k : nat)
    (x : A) : nat :=
  match list_index eqb x (firstn k l) with
  | Ok j => j
  | Raise _ => k
  end.

(** [enumerate(l)] *)
Definition enumerate {A} (l : list A) : list (nat * A) :=
  combine (seq 0 (length l)) l.

(** ** Insertion-ordered dictionaries with string keys *)

Definition dict (V : Type) : Type := list (string * V).

Fixpoint dict_get {V} (k : string) (d : dict V) : option V :=
  match d with
  | [] => None
  | (k', v) :: rest => if String.eqb k' k then Some v else dict_get k rest
  end.

Definition dict_mem {V} (k : string) (d : dict V) : bool :=
  match dict_get k d with Some _ => true | None => false end.

(** [d[k] = v]: overwrite in place, or append a new key at the end. *)
Fixpoint dict_set {V} (k : string) (v : V) (d : dict V) : dict V :=
  match d with
  | [] => [(k, v)]
  | (k', v') :: rest =>
      if String.eqb k' k then (k', v) :: rest else (k', v') :: dict_set k v rest
  end.

Definition dict_keys {V} (d : dict V) : list string := List.map fst d.
Definition dict_values {V} (d : dict V) : list V := List.map snd d.

(** [d1 == d2]: same keys with equal values, whatever the order. *)
Definition dict_eqb {V} (veqb : V -> V -> bool) (d1 d2 : dict V) : bool :=
  Nat.eqb (length d1) (length d2)
  && forallb (fun kv =>
       match dict_get (fst kv) d2 with
       | Some v2 => veqb (snd kv) v2
       | None => false
       end) d1.

Fixpoint list_eqb {A} (eqb : A -> A -> bool) (l1 l2 : list A) : bool :=
  match l1, l2 with
  | [], [] => true
  | x :: r1, y :: r2 => eqb x y && list_eqb eqb r1 r2
  | _, _ => false
  end.

(** ** [statistics] *)

(** [statistics.mean]: raises on an empty sample. *)
Definition statistics_mean (data : list Q) : Result Q :=
  match data with
  | [] => Raise StatisticsError
  | _ => Ok (sum data / inject_Z (len data))
  end.

(** The non-negative real number [sqrt radicand], kept in exact form. *)
Record Surd : Type := { radicand : Q }.

Definition surd_zero : Surd := {| radicand := 0 |}.

(** [s > 0]. *)
Definition surd_pos (s : Surd) : bool := Qltb 0 (radicand s).

(** [x > a + 2 * s], decided on rationals by squaring. *)
Definition gt_plus_two_surd (x a : Q) (s : Surd) : bool :=
  Qltb a x && Qltb (4 * radicand s) ((x - a) * (x - a)).

(** Sample variance: sum of squared deviations over [n - 1]. *)
Definition statistics_variance (data : list Q) : Result Q :=
  if (len data <? 2)%Z then Raise StatisticsError
  else
    bind (statistics_mean data) (fun c =>
    let ss := sum (List.map (fun x => (x - c) * (x - c)) data) in
    Ok (ss / inject_Z (len data - 1))).

(** [statistics.stdev]: raises on fewer than two values. *)
Definition statistics_stdev (data : list Q) : Result Surd :=
  bind (statistics_variance data) (fun v => Ok {| radicand := v |}).

(** ** String formatting *)

Definition str_of_Z (n : Z) : string :=
  DecimalString.NilZero.string_of_int (Z.to_int n).

(** [f"{x:.2f}"]. *)
Definition format_2f (x : Q) : string :=
  let n := Z.abs (round_half_even (x * 100)) in
  let frac := (n mod 100)%Z in
  ((if Qltb x 0 then "-" else "")
   ++ str_of_Z (n / 100) ++ "."
   ++ (if (frac <? 10)%Z then "0" else "") ++ str_of_Z frac)%string.

End Py.

Notation "'let*' x ':=' e 'in' k" := (Py.bind e (fun x => k))
  (at level 10, x name, e at level 200, k at level 200).

Import Py.

(* ================================================================== *)
(** * [cost_predictor.py]                                              *)
(* ================================================================== *)

Module cost_predictor.

(** The wall clock as one call observes it: [datetime.now()] with its
    ISO date, its ISO timestamp, and the month and day of the month. *)
Record Clock : Type := {
  today : string;
  timestamp : string;
  month : Z;
  day : Z
}.

(** [{'cost': c, 'tokens': t}] *)
Record Stats : Type := { st_cost : Q; st_tokens : Z }.

(** One entry of [requests]. *)
Record Request : Type := {
  rq_timestamp : string;
  rq_provider : string;
  rq_tokens : Z;
  rq_cost : Q;
  rq_level : string
}.

(** One day's aggregate for one user. *)
Record DailyRecord : Type := {
  date : string;
  total_cost : Q;
  total_tokens : Z;
  requests : list Request;
  by_provider : dict Stats;
  by_level : dict Stats
}.

Inductive Trend : Type := up | down | stable.

Record CostPrediction : Type := {
  daily_average : Q;
  current_period_cost : Q;
  projected_period_end : Q;
  days_remaining : Z;
  confidence : Q;
  trend : Trend
}.

Inductive AnomalyType : Type := SPIKE | ANOMALY | UNUSUAL_PATTERN.
Inductive Severity : Type := LOW | MEDIUM | HIGH.

Record Anomaly : Type := {
  an_date : string;
  an_type : AnomalyType;
  normal_cost : Q;
  actual_cost : Q;
  severity : Severity;
  an_message : string
}.

(** The engine: [user_usage] maps a user to the list of daily records;
    [user_models] is never read or written after construction. *)
Record CostPredictionEngine : Type := {
  user_usage : gmap string (list DailyRecord);
  learning_enabled : bool
}.

(** [__init__] *)
Definition init : CostPredictionEngine :=
  {| user_usage := ∅; learning_enabled := true |}.

(** ** Equality of records, as [==] on the dictionaries computes it *)

Definition Stats_eqb (a b : Stats) : bool :=
  Qeqb (st_cost a) (st_cost b) && Z.eqb (st_tokens a) (st_tokens b).

Definition Request_eqb (a b : Request) : bool :=
  String.eqb (rq_timestamp a) (rq_timestamp b)
  && String.eqb (rq_provider a) (rq_provider b)
  && Z.eqb (rq_tokens a) (rq_tokens b)
  && Qeqb (rq_cost a) (rq_cost b)
  && String.eqb (rq_level a) (rq_level b).

Definition DailyRecord_eqb (a b : DailyRecord) : bool :=
  String.eqb (date a) (date b)
  && Qeqb (total_cost a) (total_cost b)
  && Z.eqb (total_tokens a) (total_tokens b)
  && list_eqb Request_eqb (requests a) (requests b)
  && dict_eqb Stats_eqb (by_provider a) (by_provider b)
  && dict_eqb Stats_eqb (by_level a) (by_level b).

(** ** [record_usage] *)

(** Position of the first record dated [d], if any (the [for ... break]). *)
Fixpoint find_today (d : string) (usage : list DailyRecord) : option nat :=
  match usage with
  | [] => None
  | r :: rest =>
      if String.eqb (date r) d then Some O
      else option_map S (find_today d rest)
  end.

Definition new_record (d : string) : DailyRecord :=
  {| date := d; total_cost := 0; total_tokens := 0; requests := [];
     by_provider := []; by_level := [] |}.

(** [if k not in d: d[k] = {'cost': 0, 'tokens': 0}]
    [d[k]['cost'] += cost; d[k]['tokens'] += tokens] *)
Definition track (k : string) (cost : Q) (tokens : Z) (d : dict Stats)
  : dict Stats :=
  let d1 := if dict_mem k d then d
            else dict_set k {| st_cost := 0; st_tokens := 0 |} d in
  match dict_get k d1 with
  | Some s =>
      dict_set k {| st_cost := st_cost s + cost;
                    st_tokens := (st_tokens s + tokens)%Z |} d1
  | None => d1
  end.

(** The in-place update of today's record. *)
Definition update_record (ts provider : string) (tokens_used : Z) (cost : Q)
    (optimization_level : string) (r : DailyRecord) : DailyRecord :=
  {| date := date r;
     total_cost := total_cost r + cost;
     total_tokens := (total_tokens r + tokens_used)%Z;
     requests := requests r ++
       [ {| rq_timestamp := ts; rq_provider := provider;
            rq_tokens := tokens_used; rq_cost := cost;
            rq_level := optimization_level |} ];
     by_provider := track provider cost tokens_used (by_provider r);
     by_level := track optimization_level cost tokens_used (by_level r) |}.

Definition record_usage (self : CostPredictionEngine) (now : Clock)
    (user_id provider : string) (tokens_used : Z) (cost : Q)
    (optimization_level : string) : CostPredictionEngine :=
  if negb (learning_enabled self) then self
  else
    let usage0 := default [] (user_usage self !! user_id) in
    let '(usage1, i) :=
      match find_today (today now) usage0 with
      | Some i => (usage0, i)
      | None => (usage0 ++ [new_record (today now)], length usage0)
      end in
    let usage2 :=
      alter (update_record (timestamp now) provider tokens_used cost
               optimization_level) i usage1 in
    {| user_usage := <[user_id := usage2]> (user_usage self);
       learning_enabled := learning_enabled self |}.

(** The ledger of a user, with [None] when
    [user_id not in self.user_usage or not self.user_usage[user_id]]. *)
Definition ledger (self : CostPredictionEngine) (user_id : string)
  : option (list DailyRecord) :=
  match user_usage self !! user_id with
  | None => None
  | Some [] => None
  | Some usage => Some usage
  end.

(** ** [predict_monthly_cost] *)

Definition days_in_month (m : Z) : Z :=
  if (m =? 2)%Z then 28%Z
  else if existsb (Z.eqb m) [4; 6; 9; 11]%Z then 30%Z
  else 31%Z.

(** Lines 184-196: the trend of a list of daily costs. *)
Definition detect_trend (daily_costs : list Q) : Result Trend :=
  if (3 <=? len daily_costs)%Z then
    let* recent_avg := statistics_mean (last_n 3 daily_costs) in
    let* older_avg := statistics_mean (but_last_n 3 daily_costs) in
    if Qgtb recent_avg (older_avg * 1.1) then Ok up
    else if Qltb recent_avg (older_avg * 0.9) then Ok down
    else Ok stable
  else Ok stable.

Definition predict_monthly_cost (self : CostPredictionEngine) (now : Clock)
    (user_id : string) : Result CostPrediction :=
  match ledger self user_id with
  | None =>
      Ok {| daily_average := 0; current_period_cost := 0;
            projected_period_end := 0; days_remaining := 0;
            confidence := 0; trend := stable |}
  | Some usage =>
      let daily_costs := List.map total_cost usage in
      let* avg_conf :=
        match daily_costs with
        | [] => Ok (0, 0)
        | _ =>
            let* daily_average := statistics_mean daily_costs in
            let data_points := len daily_costs in
            Ok (daily_average,
                Qmin 0.95 (0.5 + inject_Z data_points * 0.05))
        end in
      let '(daily_average, confidence) := avg_conf in
      let current_period_cost :=
        fold_left (fun acc record =>
                     if String.leb (date record) (today now)
                     then acc + total_cost record else acc) usage 0 in
      let days_remaining := (days_in_month (month now) - day now)%Z in
      let projected_additional := daily_average * inject_Z days_remaining in
      let projected_period_end := current_period_cost + projected_additional in
      let* trend := detect_trend daily_costs in
      Ok {| daily_average := round daily_average 2;
            current_period_cost := round current_period_cost 2;
            projected_period_end := round projected_period_end 2;
            days_remaining := days_remaining;
            confidence := confidence;
            trend := trend |}
  end.

(** ** [detect_anomalies] *)

(** [[r for r in usage if len(usage) - usage.index(r) <= lookback_days]] *)
Definition recent_window (usage : list DailyRecord) (lookback_days : Z)
  : list DailyRecord :=
  List.map snd
    (List.filter
       (fun kr =>
          let i := index_of_member DailyRecord_eqb usage (fst kr) (snd kr) in
          (len usage - Z.of_nat i <=? lookback_days)%Z)
       (enumerate usage)).

(** [try: stdev = statistics.stdev(daily_costs) except: stdev = 0], under
    the guard [len(daily_costs) >= 2]. *)
Definition window_stdev (daily_costs : list Q) : Surd :=
  if (2 <=? len daily_costs)%Z then
    match statistics_stdev daily_costs with
    | Ok s => s
    | Raise _ => surd_zero
    end
  else surd_zero.

(** The spike test of line 249. *)
Definition is_spike (avg_cost : Q) (stdev : Surd) (cost : Q) : bool :=
  Qgtb cost (avg_cost * 2)
  || (surd_pos stdev && gt_plus_two_surd cost avg_cost stdev).

Definition spike_anomaly (avg_cost : Q) (record : DailyRecord) : Anomaly :=
  let cost := total_cost record in
  {| an_date := date record;
     an_type := SPIKE;
     normal_cost := round avg_cost 2;
     actual_cost := round cost 2;
     severity := if Qgtb cost (avg_cost * 3) then HIGH else MEDIUM;
     an_message := ("Cost spike: $" ++ format_2f cost ++ " vs average $"
                    ++ format_2f avg_cost)%string |}.

Definition pattern_anomaly (avg_cost : Q) (record : DailyRecord) : Anomaly :=
  {| an_date := date record;
     an_type := UNUSUAL_PATTERN;
     normal_cost := round avg_cost 2;
     actual_cost := round (total_cost record) 2;
     severity := MEDIUM;
     an_message := "Consistent high usage pattern detected" |}.

(** [i >= 1 and daily_costs[i] > avg_cost * 1.5
           and daily_costs[i-1] > avg_cost * 1.5] *)
Definition is_pattern (avg_cost : Q) (daily_costs : list Q) (i : nat)
  : Result bool :=
  if (1 <=? i)%nat then
    let* ci := index daily_costs i in
    if Qgtb ci (avg_cost * 1.5) then
      let* cp := index daily_costs (i - 1) in
      Ok (Qgtb cp (avg_cost * 1.5))
    else Ok false
  else Ok false.

(** One iteration of [for i, record in enumerate(recent)]. *)
Definition detect_step (avg_cost : Q) (stdev : Surd) (daily_costs : list Q)
    (anomalies : list Anomaly) (item : nat * DailyRecord)
  : Result (list Anomaly) :=
  let '(i, record) := item in
  let cost := total_cost record in
  let anomalies1 :=
    if is_spike avg_cost stdev cost
    then anomalies ++ [spike_anomaly avg_cost record]
    else anomalies in
  let* p := is_pattern avg_cost daily_costs i in
  Ok (if p then anomalies1 ++ [pattern_anomaly avg_cost record]
      else anomalies1).

Definition detect_anomalies (self : CostPredictionEngine) (user_id : string)
    (lookback_days : Z) : Result (list Anomaly) :=
  match ledger self user_id with
  | None => Ok []
  | Some usage =>
      let recent := recent_window usage lookback_days in
      if (len recent <? 2)%Z then Ok []
      else
        let daily_costs := List.map total_cost recent in
        let* avg_cost := statistics_mean daily_costs in
        let stdev := window_stdev daily_costs in
        for_each (detect_step avg_cost stdev daily_costs)
                 (enumerate recent) []
  end.

(** The default [lookback_days=7]. *)
Definition default_lookback_days : Z := 7%Z.

(** ** [recommend_cost_reduction] *)

Inductive Recommendation : Type :=
| DIVERSIFY_PROVIDERS (provider : string) (current_percentage : Q)
    (message : string) (potential_savings : Q)
| SWITCH_OPTIMIZATION_LEVEL (current_level recommended_level : string)
    (current_percentage : Q) (message : string) (potential_savings : Q)
| INCREASE_OPTIMIZATION (current_level recommended_level : string)
    (message : string) (potential_savings : Q)
| BUDGET_ALERT (daily_average monthly_projection : Q) (message : string)
    (potential_savings : Q).

(** [max(items, key=lambda x: x[1])]: the first item with the largest
    value. *)
Fixpoint max_by_value (best : string * Q) (items : list (string * Q))
  : string * Q :=
  match items with
  | [] => best
  | x :: rest =>
      max_by_value (if Qgtb (snd x) (snd best) then x else best) rest
  end.

(** The [if by_provider:] block. *)
Definition diversify (by_provider : option (dict Stats))
    (recommendations : list Recommendation) : Result (list Recommendation) :=
  match by_provider with
  | None | Some [] => Ok recommendations
  | Some ((p0, s0) :: rest) =>
      let provider_costs :=
        fold_left (fun d kv => dict_set (fst kv) (st_cost (snd kv)) d)
                  ((p0, s0) :: rest) [] in
      match provider_costs with
      | [] => Raise (ValueError "max() arg is an empty sequence")
      | first :: others =>
          let most_expensive := max_by_value first others in
          let total_cost := sum (dict_values provider_costs) in
          let* share := truediv (snd most_expensive) total_cost in
          if Qgtb share 0.5 then
            let* share' := truediv (snd most_expensive) total_cost in
            Ok (recommendations ++
                [DIVERSIFY_PROVIDERS (fst most_expensive)
                   (round (share' * 100) 1)
                   ("Reduce " ++ fst most_expensive
                    ++ " usage to under 50% of total")%string
                   (round (snd most_expensive * 0.1) 2)])
          else Ok recommendations
      end
  end.

(** [for level, stats in record['by_level'].items(): ...] accumulating
    into [level_stats]. *)
Definition add_level_stats (level_stats : dict Stats) (kv : string * Stats)
  : dict Stats :=
  track (fst kv) (st_cost (snd kv)) (st_tokens (snd kv)) level_stats.

Definition recommend_cost_reduction (self : CostPredictionEngine)
    (user_id : string) (by_provider : option (dict Stats))
  : Result (list Recommendation) :=
  match ledger self user_id with
  | None => Ok []
  | Some usage =>
      let* recs1 := diversify by_provider [] in
      let total_cost := fold_left (fun acc r => acc + total_cost r) usage 0 in
      let level_stats :=
        fold_left (fun ls r => fold_left add_level_stats (by_level r) ls)
                  usage [] in
      let* recs2 :=
        match dict_get "aggressive" level_stats with
        | Some agg =>
            let* aggressive_pct :=
              if Qgtb total_cost 0 then
                let* q := truediv (st_cost agg) total_cost in Ok (q * 100)
              else Ok 0 in
            Ok (if Qgtb aggressive_pct 30 then
                  recs1 ++
                  [SWITCH_OPTIMIZATION_LEVEL "aggressive" "balanced"
                     (round aggressive_pct 1)
                     "Switch some aggressive optimizations to balanced (28% vs 42% savings)"
                     (round (total_cost * 0.05) 2)]
                else recs1)
        | None => Ok recs1
        end in
      let* recs3 :=
        match dict_get "balanced" level_stats,
              dict_get "aggressive" level_stats with
        | Some bal, Some _ =>
            let* balanced_pct :=
              if Qgtb total_cost 0 then
                let* q := truediv (st_cost bal) total_cost in Ok (q * 100)
              else Ok 0 in
            Ok (if Qgtb balanced_pct 70 then
                  recs2 ++
                  [INCREASE_OPTIMIZATION "balanced" "aggressive"
                     "You're being conservative. Try aggressive mode to save more."
                     (round (total_cost * 0.14) 2)]
                else recs2)
        | _, _ => Ok recs2
        end in
      if (7 <=? len usage)%Z then
        let daily_costs := List.map cost_predictor.total_cost (last_n 7 usage) in
        let* daily_avg := statistics_mean daily_costs in
        Ok (if Qgtb daily_avg 10 then
              recs3 ++
              [BUDGET_ALERT (round daily_avg 2) (round (daily_avg * 30) 2)
                 ("Your daily spending is $" ++ format_2f daily_avg
                  ++ ". Projected monthly: $" ++ format_2f (daily_avg * 30))%string
                 (round (daily_avg * 30 * 0.1) 2)]
            else recs3)
      else Ok recs3
  end.

(** ** [get_efficiency_score] *)

(** The returned dictionary; the keys ['cost_per_token'] and
    ['total_tokens_analyzed'] are absent ([None]) in the no-data answer,
    where ['breakdown'] is the empty dictionary. *)
Record EfficiencyScore : Type := {
  score : Z;
  message : string;
  breakdown : dict Z;
  cost_per_token : option Q;
  total_tokens_analyzed : option Z
}.

Definition _get_efficiency_message (score : Z) : string :=
  if (90 <=? score)%Z then "Excellent cost efficiency! Keep it up."
  else if (75 <=? score)%Z then
    "Good cost efficiency. Some minor optimizations possible."
  else if (50 <=? score)%Z then
    "Average cost efficiency. Review recommendations."
  else "Low cost efficiency. Consider optimization strategies.".

(** Assumed optimal cost per token. *)
Definition optimal_cost_per_token : Q := 0.00003.

(** Lines 391-403. The second component is the local variable
    [cost_per_token], which the branch [total_tokens == 0] leaves
    unbound ([None]). *)
Definition cost_per_token_stage (total_cost : Q) (total_tokens : Z)
  : Result (Q * option Q) :=
  if (total_tokens =? 0)%Z then Ok (50, None)
  else
    let* cost_per_token := truediv total_cost (inject_Z total_tokens) in
    if Qleb cost_per_token (optimal_cost_per_token * 1.5) then
      Ok (100, Some cost_per_token)
    else if Qleb cost_per_token (optimal_cost_per_token * 2) then
      Ok (80, Some cost_per_token)
    else
      let* ratio := truediv cost_per_token optimal_cost_per_token in
      Ok (Qmax 0 (100 - ratio * 10), Some cost_per_token).

(** [if level not in level_usage: level_usage[level] = 0]
    [level_usage[level] += stats['cost']] *)
Definition add_level_usage (level_usage : dict Q) (kv : string * Stats)
  : dict Q :=
  let d1 := if dict_mem (fst kv) level_usage then level_usage
            else dict_set (fst kv) 0 level_usage in
  match dict_get (fst kv) d1 with
  | Some c => dict_set (fst kv) (c + st_cost (snd kv)) d1
  | None => d1
  end.

(** Lines 413-417. *)
Definition optimization_stage (level_usage : dict Q) (total_cost : Q)
  : Result Z :=
  match dict_get "aggressive" level_usage with
  | Some agg =>
      let* aggressive_pct :=
        if Qgtb total_cost 0 then truediv agg total_cost else Ok 0 in
      Ok (int (aggressive_pct * 100))
  | None => Ok 50%Z
  end.

(** Lines 420-431. *)
Definition trend_stage (usage : list DailyRecord) : Z :=
  if (7 <=? len usage)%Z then
    let recent := sum (List.map total_cost (last_n 7 usage)) / 7 in
    let older :=
      if (14 <=? len usage)%Z
      then sum (List.map total_cost (slice_from_end 14 7 usage)) / 7
      else recent in
    if Qltb recent (older * 0.9) then 100%Z
    else if Qltb recent (older * 1.1) then 75%Z
    else 50%Z
  else 75%Z.

(** Reading a local variable: unbound names raise. *)
Definition read_local {A} (name : string) (v : option A) : Result A :=
  match v with
  | Some a => Ok a
  | None => Raise (UnboundLocalError name)
  end.

Definition get_efficiency_score (self : CostPredictionEngine)
    (user_id : string) : Result EfficiencyScore :=
  match ledger self user_id with
  | None =>
      Ok {| score := 0; message := "Not enough data"; breakdown := [];
            cost_per_token := None; total_tokens_analyzed := None |}
  | Some usage =>
      let total_cost := sum (List.map total_cost usage) in
      let total_tokens := sumZ (List.map total_tokens usage) in
      let* cpt := cost_per_token_stage total_cost total_tokens in
      let '(cost_per_token_score, cost_per_token_var) := cpt in
      let level_usage :=
        fold_left (fun lu r => fold_left add_level_usage (by_level r) lu)
                  usage [] in
      let* optimization_score := optimization_stage level_usage total_cost in
      let trend_score := trend_stage usage in
      let overall_score :=
        int (cost_per_token_score * 0.4
             + inject_Z optimization_score * 0.3
             + inject_Z trend_score * 0.3) in
      let* cost_per_token_value :=
        read_local "cost_per_token" cost_per_token_var in
      Ok {| score := Z.min 100 overall_score;
            message := _get_efficiency_message overall_score;
            breakdown :=
              [("cost_per_token", int cost_per_token_score);
               ("optimization_usage", optimization_score);
               ("trend", trend_score)];
            cost_per_token := Some cost_per_token_value;
            total_tokens_analyzed := Some total_tokens |}
  end.

End cost_predictor.

(* ================================================================== *)
(** * [provider_intelligence.py]                                       *)
(* ================================================================== *)

Module provider_intelligence.

Record ModelLimits : Type := { input_tokens : Z; output_tokens : Z }.

Record ProviderConfig : Type := {
  models : dict ModelLimits;
  cost_per_1k_input : Q;
  cost_per_1k_output : Q;
  speed : Z;
  quality : Z
}.

Definition PROVIDERS : dict ProviderConfig :=
  [ ("openai",
     {| models :=
          [ ("gpt-4-turbo", {| input_tokens := 4096; output_tokens := 8192 |});
            ("gpt-4", {| input_tokens := 8192; output_tokens := 32768 |});
            ("gpt-3.5-turbo", {| input_tokens := 4096; output_tokens := 4096 |}) ];
        cost_per_1k_input := 0.03; cost_per_1k_output := 0.06;
        speed := 1; quality := 1 |});
    ("anthropic",
     {| models :=
          [ ("claude-3-opus", {| input_tokens := 200000; output_tokens := 4096 |});
            ("claude-3-sonnet", {| input_tokens := 200000; output_tokens := 4096 |});
            ("claude-3-haiku", {| input_tokens := 200000; output_tokens := 4096 |}) ];
        cost_per_1k_input := 0.015; cost_per_1k_output := 0.075;
        speed := 2; quality := 2 |});
    ("google",
     {| models :=
          [ ("gemini-pro", {| input_tokens := 32768; output_tokens := 8192 |});
            ("gemini-1.5-pro", {| input_tokens := 1000000; output_tokens := 4096 |}) ];
        cost_per_1k_input := 0.000125; cost_per_1k_output := 0.000375;
        speed := 2; quality := 2 |});
    ("azure",
     {| models :=
          [ ("gpt-4-deployment", {| input_tokens := 8192; output_tokens := 32768 |});
            ("gpt-35-turbo", {| input_tokens := 4096; output_tokens := 4096 |}) ];
        cost_per_1k_input := 0.03; cost_per_1k_output := 0.06;
        speed := 1; quality := 1 |});
    ("groq",
     {| models :=
          [ ("mixtral-8x7b", {| input_tokens := 32768; output_tokens := 8192 |});
            ("llama2-70b", {| input_tokens := 4096; output_tokens := 1024 |}) ];
        cost_per_1k_input := 0.0005; cost_per_1k_output := 0.0015;
        speed := 3; quality := 3 |}) ].

Record LevelConfig : Type := {
  tokens_saved_pct : Q;
  description : string;
  use_case : string
}.

Definition OPTIMIZATION_LEVELS : dict LevelConfig :=
  [ ("conservative",
     {| tokens_saved_pct := 0.15; description := "Minimal risk, 15% savings";
        use_case := "Critical tasks" |});
    ("balanced",
     {| tokens_saved_pct := 0.28; description := "Recommended, 28% savings";
        use_case := "General use" |});
    ("aggressive",
     {| tokens_saved_pct := 0.42; description := "Fast results, 42% savings";
        use_case := "Performance critical" |}) ].

(** One entry of a user's optimization history. *)
Record HistoryRecord : Type := {
  h_timestamp : string;
  h_provider : string;
  h_tokens_estimated : Z;
  h_tokens_actual : Z;
  h_cost : Q;
  h_optimization_level : string;
  h_text_length : Z
}.

(** The calibration record of one provider. *)
Record Calibration : Type := {
  token_ratio : Q;
  sample_count : Z;
  cost_per_token : Q
}.

Record ProviderIntelligence : Type := {
  user_history : gmap string (list HistoryRecord);
  provider_calibration : gmap string Calibration;
  learning_enabled : bool
}.

(** [__init__] *)
Definition init : ProviderIntelligence :=
  {| user_history := ∅; provider_calibration := ∅; learning_enabled := true |}.

(** ** [estimate_provider_tokens] *)

Record Estimate : Type := {
  e_provider : string;
  e_model : string;
  estimated_input_tokens : Z;
  estimated_output_tokens : Z;
  total_tokens : Z;
  e_cost_usd : Q;
  e_cost_per_1k_tokens : Q;
  e_tokens_per_dollar : Q
}.

Definition text_len (text : string) : Z := Z.of_nat (String.length text).

Definition estimate_provider_tokens (self : ProviderIntelligence)
    (text provider : string) (model : option string) : Result Estimate :=
  match dict_get provider PROVIDERS with
  | None => Raise (ValueError ("Unknown provider: " ++ provider)%string)
  | Some provider_config =>
      let* model :=
        match model with
        | None => index (dict_keys (models provider_config)) 0
        | Some m => Ok m
        end in
      if negb (dict_mem model (models provider_config)) then
        Raise (ValueError ("Unknown model: " ++ model)%string)
      else
        let estimated_input_tokens0 := (text_len text / 4)%Z in
        let estimated_input_tokens :=
          match provider_calibration self !! provider with
          | Some calib =>
              int (inject_Z estimated_input_tokens0 * token_ratio calib)
          | None => estimated_input_tokens0
          end in
        let estimated_output_tokens :=
          int (inject_Z estimated_input_tokens * 0.2) in
        let input_cost :=
          inject_Z estimated_input_tokens / 1000
          * cost_per_1k_input provider_config in
        let output_cost :=
          inject_Z estimated_output_tokens / 1000
          * cost_per_1k_output provider_config in
        let total_cost := input_cost + output_cost in
        let total := (estimated_input_tokens + estimated_output_tokens)%Z in
        let* per_1k := truediv (total_cost * 1000) (inject_Z total) in
        let* per_dollar :=
          if Qgtb total_cost 0 then truediv (inject_Z total) total_cost
          else Ok 0 in
        Ok {| e_provider := provider;
              e_model := model;
              estimated_input_tokens := estimated_input_tokens;
              estimated_output_tokens := estimated_output_tokens;
              total_tokens := total;
              e_cost_usd := round total_cost 4;
              e_cost_per_1k_tokens := round per_1k 4;
              e_tokens_per_dollar := round per_dollar 2 |}
  end.

(** ** [get_provider_recommendations] *)

(** The [user_preferences] dictionary; a missing key is [None]. *)
Record Preferences : Type := {
  priority : option string;
  budget_limit : option Q
}.

Definition default_preferences : Preferences :=
  {| priority := Some "cost"; budget_limit := Some 1 |}.

Definition get_priority (preferences : Preferences) : string :=
  default "cost" (priority preferences).
Definition get_budget_limit (preferences : Preferences) : Q :=
  default 1 (budget_limit preferences).

(** [self.PROVIDERS[name]] *)
Definition provider_config_of (name : string) : Result ProviderConfig :=
  match dict_get name PROVIDERS with
  | Some c => Ok c
  | None => Raise (KeyError name)
  end.

Definition _get_recommendation_badge (estimate : Estimate)
    (preferences : Preferences) : Result string :=
  let priority := get_priority preferences in
  let fallback :=
    if Qgtb (e_tokens_per_dollar estimate) 50000 then "BEST_VALUE"
    else "GOOD_CHOICE" in
  if String.eqb priority "cost" && Qltb (e_cost_usd estimate) 0.01 then
    Ok "LOWEST_COST"
  else if String.eqb priority "speed" then
    let* c := provider_config_of (e_provider estimate) in
    if (speed c =? 1)%Z then Ok "FASTEST" else Ok fallback
  else if String.eqb priority "quality" then
    let* c := provider_config_of (e_provider estimate) in
    if (quality c =? 1)%Z then Ok "BEST_QUALITY" else Ok fallback
  else Ok fallback.

Record Potential : Type := {
  tokens_saved : Z;
  p_tokens_saved_pct : Z;
  cost_saved : Q;
  cost_saved_pct : Z;
  p_description : string
}.

Definition _calculate_optimization_potential (estimate : Estimate)
  : dict Potential :=
  fold_left (fun potential kv =>
      let '(level, config) := kv in
      let tokens_saved :=
        int (inject_Z (total_tokens estimate) * tokens_saved_pct config) in
      let cost_saved :=
        inject_Z tokens_saved / 1000 * e_cost_per_1k_tokens estimate in
      dict_set level
        {| tokens_saved := tokens_saved;
           p_tokens_saved_pct := int (tokens_saved_pct config * 100);
           cost_saved := round cost_saved 4;
           cost_saved_pct := int (tokens_saved_pct config * 100);
           p_description := description config |} potential)
    OPTIMIZATION_LEVELS [].

Definition _calculate_rank (estimate : Estimate) (preferences : Preferences)
  : Result Q :=
  let priority := get_priority preferences in
  let budget_limit := get_budget_limit preferences in
  if Qgtb (e_cost_usd estimate) budget_limit then Ok 0
  else if String.eqb priority "cost" then
    let* q := truediv (e_cost_usd estimate) budget_limit in Ok (1 - q)
  else if String.eqb priority "speed" then
    let* c := provider_config_of (e_provider estimate) in
    truediv 1 (inject_Z (speed c))
  else if String.eqb priority "quality" then
    let* c := provider_config_of (e_provider estimate) in
    truediv 1 (inject_Z (quality c))
  else Ok (e_tokens_per_dollar estimate / 100000).

(** One entry of the returned list. *)
Record ProviderRecommendation : Type := {
  provider : string;
  model : string;
  estimated_tokens : Z;
  cost_usd : Q;
  tokens_per_dollar : Q;
  cost_per_1k_tokens : Q;
  optimization_potential : dict Potential;
  recommendation : string;
  rank : Q
}.

(** [list.sort(key=...)]: the stable ascending sort, as an insertion sort
    over the keyed items. *)
Fixpoint insert_asc {A} (x : Q * A) (l : list (Q * A)) : list (Q * A) :=
  match l with
  | [] => [x]
  | y :: rest =>
      if Qleb (fst x) (fst y) then x :: y :: rest
      else y :: insert_asc x rest
  end.

(** The same with [reverse=True]: descending, ties in their first order. *)
Fixpoint insert_desc {A} (x : Q * A) (l : list (Q * A)) : list (Q * A) :=
  match l with
  | [] => [x]
  | y :: rest =>
      if Qleb (fst y) (fst x) then x :: y :: rest
      else y :: insert_desc x rest
  end.

Definition sort_by {A} (reverse : bool) (key : A -> Result Q) (l : list A)
  : Result (list A) :=
  let* keyed := map_result (fun x => let* k := key x in Ok (k, x)) l in
  Ok (List.map snd
        (fold_right (if reverse then insert_desc else insert_asc) [] keyed)).

(** The body of [for provider in self.PROVIDERS.keys()]. *)
Definition recommend_one (self : ProviderIntelligence) (text : string)
    (user_preferences : Preferences) (name : string)
  : Result ProviderRecommendation :=
  let* estimate := estimate_provider_tokens self text name None in
  let* badge := _get_recommendation_badge estimate user_preferences in
  let optimization_potential := _calculate_optimization_potential estimate in
  let* rank := _calculate_rank estimate user_preferences in
  Ok {| provider := e_provider estimate;
        model := e_model estimate;
        estimated_tokens := total_tokens estimate;
        cost_usd := e_cost_usd estimate;
        tokens_per_dollar := e_tokens_per_dollar estimate;
        cost_per_1k_tokens := e_cost_per_1k_tokens estimate;
        optimization_potential := optimization_potential;
        recommendation := badge;
        rank := rank |}.

Definition get_provider_recommendations (self : ProviderIntelligence)
    (text : string) (user_preferences : option Preferences)
  : Result (list ProviderRecommendation) :=
  let user_preferences := default default_preferences user_preferences in
  let* recommendations :=
    map_result (recommend_one self text user_preferences)
               (dict_keys PROVIDERS) in
  let priority := get_priority user_preferences in
  let* sorted :=
    if String.eqb priority "cost" then
      sort_by false (fun x => Ok (cost_usd x)) recommendations
    else if String.eqb priority "speed" then
      sort_by false (fun x =>
        let* c := provider_config_of (provider x) in Ok (inject_Z (speed c)))
        recommendations
    else if String.eqb priority "quality" then
      sort_by false (fun x =>
        let* c := provider_config_of (provider x) in Ok (inject_Z (quality c)))
        recommendations
    else
      sort_by true (fun x => Ok (tokens_per_dollar x)) recommendations in
  Ok (firstn 3 sorted).

(** ** [learn_from_optimization] *)

Definition initial_calibration : Calibration :=
  {| token_ratio := 1; sample_count := 0; cost_per_token := 0 |}.

(** Exponential moving average weight. *)
Definition alpha : Q := 0.3.

(** Lines 374-389: the update of the provider's calibration record. *)
Definition update_calibration (tokens_estimated tokens_actual : Z) (cost : Q)
    (calib : Calibration) : Result Calibration :=
  let* ratio :=
    if (0 <? tokens_estimated)%Z then
      let* new_ratio :=
        truediv (inject_Z tokens_actual) (inject_Z tokens_estimated) in
      let old_ratio := token_ratio calib in
      Ok (alpha * new_ratio + (1 - alpha) * old_ratio)
    else Ok (token_ratio calib) in
  let count := (sample_count calib + 1)%Z in
  let* cost_per_token :=
    if (0 <? tokens_actual)%Z then truediv cost (inject_Z tokens_actual)
    else Ok 0 in
  Ok {| token_ratio := ratio; sample_count := count;
        cost_per_token := cost_per_token |}.

Definition learn_from_optimization (self : ProviderIntelligence)
    (now : string) (user_id provider text : string)
    (tokens_estimated tokens_actual : Z) (cost : Q)
    (optimization_level : string) : Result ProviderIntelligence :=
  if negb (learning_enabled self) then Ok self
  else
    let history0 := default [] (user_history self !! user_id) in
    let record :=
      {| h_timestamp := now; h_provider := provider;
         h_tokens_estimated := tokens_estimated;
         h_tokens_actual := tokens_actual; h_cost := cost;
         h_optimization_level := optimization_level;
         h_text_length := text_len text |} in
    let history := <[user_id := history0 ++ [record]]> (user_history self) in
    let calib0 :=
      default initial_calibration (provider_calibration self !! provider) in
    let* calib :=
      update_calibration tokens_estimated tokens_actual cost calib0 in
    Ok {| user_history := history;
          provider_calibration :=
            <[provider := calib]> (provider_calibration self);
          learning_enabled := learning_enabled self |}.

End provider_intelligence.


(* ================================================================== *)
(** * Vocabulary of the statements                                     *)
(* ================================================================== *)

Module Vocabulary.
Import cost_predictor.

(** The user has no ledger entry, or an empty one. *)
Definition no_history (self : CostPredictionEngine) (user_id : string) : Prop :=
  user_usage self !! user_id = None \/ user_usage self !! user_id = Some [].

(** The sample standard deviation as a real number: the square root of
    the sample variance. *)
Definition real_stdev (variance : Q) : R := sqrt (Q2R variance).

(** The spike rule: the cost exceeds twice the window average, or the
    standard deviation is positive and the cost exceeds the average by
    more than two standard deviations. *)
Definition spike_rule (avg_cost variance cost : Q) : Prop :=
  2 * avg_cost < cost
  \/ ((0 < real_stdev variance)%R
      /\ (Q2R avg_cost + 2 * real_stdev variance < Q2R cost)%R).

Definition is_spike_anomaly (a : Anomaly) : bool :=
  match an_type a with SPIKE => true | _ => false end.

(** ** The ledger *)

(** One call of [record_usage], with the clock it observes. *)
Record Call : Type := {
  c_user : string;
  c_now : Clock;
  c_provider : string;
  c_tokens : Z;
  c_cost : Q;
  c_level : string
}.

Definition apply_call (self : CostPredictionEngine) (c : Call)
  : CostPredictionEngine :=
  record_usage self (c_now c) (c_user c) (c_provider c) (c_tokens c)
               (c_cost c) (c_level c).

(** A sequence of calls, in order. *)
Definition replay (self : CostPredictionEngine) (calls : list Call)
  : CostPredictionEngine :=
  fold_left apply_call calls self.

(** The calls of one user on one day. *)
Definition calls_on (user_id d : string) (calls : list Call) : list Call :=
  List.filter
    (fun c => String.eqb (c_user c) user_id && String.eqb (today (c_now c)) d)
    calls.

(** The record of a day in a ledger: the first one with that date. *)
Definition find_record (d : string) (usage : list DailyRecord)
  : option DailyRecord :=
  List.find (fun r => String.eqb (date r) d) usage.

Definition day_record (self : CostPredictionEngine) (user_id d : string)
  : option DailyRecord :=
  find_record d (default [] (user_usage self !! user_id)).

(** Sums of the sub-totals of a [by_provider] or [by_level] dictionary. *)
Definition dict_cost (d : dict Stats) : Q :=
  sum (List.map (fun kv => st_cost (snd kv)) d).
Definition dict_tokens (d : dict Stats) : Z :=
  sumZ (List.map (fun kv => st_tokens (snd kv)) d).

(** The additivity invariant of a daily record. *)
Record record_inv (r : DailyRecord) : Prop := {
  inv_cost : total_cost r == sum (List.map rq_cost (requests r));
  inv_tokens : total_tokens r = sumZ (List.map rq_tokens (requests r));
  inv_provider_cost : dict_cost (by_provider r) == total_cost r;
  inv_provider_tokens : dict_tokens (by_provider r) = total_tokens r;
  inv_level_cost : dict_cost (by_level r) == total_cost r;
  inv_level_tokens : dict_tokens (by_level r) = total_tokens r
}.

(** Every stored record satisfies the invariant. *)
Definition ledger_inv (self : CostPredictionEngine) : Prop :=
  forall user_id usage r,
    user_usage self !! user_id = Some usage -> In r usage -> record_inv r.

(** What [record_usage] does to the list of one user. *)
Definition ledger_step (d : string) (upd : DailyRecord -> DailyRecord)
    (usage : list DailyRecord) : list DailyRecord :=
  match find_today d usage with
  | Some i => alter upd i usage
  | None => alter upd (length usage) (usage ++ [new_record d])
  end.

Definition update_of (c : Call) : DailyRecord -> DailyRecord :=
  update_record (timestamp (c_now c)) (c_provider c) (c_tokens c) (c_cost c)
                (c_level c).

(** The record of a day as a run of updates. *)
Definition run_updates (d : string) (calls : list Call)
    (o : option DailyRecord) : option DailyRecord :=
  fold_left (fun o c => Some (update_of c (default (new_record d) o))) calls o.

End Vocabulary.

Module ProviderVocabulary.
Import provider_intelligence.

(** The calibration record the next update starts from: the provider's
    stored one, or the initial one. *)
Definition calibration_of (self : ProviderIntelligence) (provider : string)
  : Calibration :=
  default initial_calibration (provider_calibration self !! provider).

(** The preferences in force: the default ones when none are passed. *)
Definition effective (user_preferences : option Preferences) : Preferences :=
  default default_preferences user_preferences.

(** A returned entry without its [rank] field. *)
Definition without_rank (x : ProviderRecommendation)
  : string * string * Z * Q * Q * Q * dict Potential * string :=
  (provider x, model x, estimated_tokens x, cost_usd x, tokens_per_dollar x,
   cost_per_1k_tokens x, optimization_potential x, recommendation x).

(** Either insertion, chosen as [sort_by] chooses it. *)
Definition insertion {A} (reverse : bool)
  : Q * A -> list (Q * A) -> list (Q * A) :=
  if reverse then insert_desc else insert_asc.

(** Two keyed items with the same key and related payloads. *)
Definition keyed_alike {A} (R : A -> A -> Prop) (p q : Q * A) : Prop :=
  fst p = fst q /\ R (snd p) (snd q).

End ProviderVocabulary.

(* ================================================================== *)
(** * Sample clocks, ledgers and inputs                                *)
(* ================================================================== *)

Module Samples.
Import cost_predictor Vocabulary.

(** Noon of the [k]-th of October 2026, for [1 <= k <= 9]. *)
Definition october (k : Z) : Clock :=
  let d := ("2026-10-0" ++ str_of_Z k)%string in
  {| today := d; timestamp := (d ++ "T12:00:00")%string;
     month := 10; day := k |}.

(** One request of 1000 tokens per day, on consecutive days from the
    first of October, with the given costs. *)
Definition one_request_per_day (costs : list Q) : CostPredictionEngine :=
  fold_left
    (fun self kc =>
       record_usage self (october (Z.of_nat (fst kc))) "alice" "openai"
                    1000 (snd kc) "balanced")
    (combine (seq 1 (length costs)) costs) init.

(** The stored ledger of a user ([[]] when there is none). *)
Definition ledger_of (self : CostPredictionEngine) (user_id : string)
  : list DailyRecord :=
  default [] (user_usage self !! user_id).

Definition three_days : CostPredictionEngine :=
  one_request_per_day [5; 5; 5].

Definition eight_days : CostPredictionEngine :=
  one_request_per_day [5; 5; 5; 5; 5; 15; 15; 15].

Definition five_days : CostPredictionEngine :=
  one_request_per_day [5; 5; 5; 5; 30].

(** A single recorded request that used no tokens. *)
Definition zero_tokens : CostPredictionEngine :=
  record_usage init (october 1) "alice" "openai" 0 0 "balanced".

(** Three requests of one user on the same day, and one of another
    user in between. *)
Definition at_time (d t : string) : Clock :=
  {| today := d; timestamp := (d ++ "T" ++ t)%string; month := 10; day := 1 |}.

Definition same_day_calls : list Call :=
  [ {| c_user := "alice"; c_now := at_time "2026-10-01" "09:00:00";
       c_provider := "openai"; c_tokens := 1200; c_cost := 0.036;
       c_level := "balanced" |};
    {| c_user := "bob"; c_now := at_time "2026-10-01" "09:30:00";
       c_provider := "groq"; c_tokens := 300; c_cost := 0.0002;
       c_level := "balanced" |};
    {| c_user := "alice"; c_now := at_time "2026-10-01" "10:00:00";
       c_provider := "groq"; c_tokens := 800; c_cost := 0.0004;
       c_level := "aggressive" |};
    {| c_user := "alice"; c_now := at_time "2026-10-01" "11:00:00";
       c_provider := "openai"; c_tokens := 500; c_cost := 0.015;
       c_level := "aggressive" |} ].

End Samples.

Module ProviderSamples.
Import provider_intelligence.

(** A text of 4000 characters. *)
Definition long_text : string :=
  String.concat "" (repeat "0123456789" 400).

(** Speed first, with a budget of a hundredth of a cent. *)
Definition tight_budget : Preferences :=
  {| priority := Some "speed"; budget_limit := Some 0.0001 |}.

End ProviderSamples.

(* ================================================================== *)
(** * Further vocabulary                                               *)
(* ================================================================== *)

Module LedgerVocabulary.
Import cost_predictor Vocabulary Samples.

(** No two records of a ledger carry the same date. *)
Definition dates_unique (self : CostPredictionEngine) : Prop :=
  forall user_id usage,
    user_usage self !! user_id = Some usage ->
    NoDup (List.map date usage).

(** The entry of [requests] that a call appends. *)
Definition request_of (c : Call) : Request :=
  {| rq_timestamp := timestamp (c_now c); rq_provider := c_provider c;
     rq_tokens := c_tokens c; rq_cost := c_cost c; rq_level := c_level c |}.

(** A user's engine-level ledger entry after one call. *)
Definition after_call (self : CostPredictionEngine) (c : Call)
  : list DailyRecord :=
  ledger_of (apply_call self c) (c_user c).

End LedgerVocabulary.

Module ForecastVocabulary.
Import cost_predictor.

(** The length of a month of the calendar. *)
Definition calendar_days (leap : bool) (m : Z) : Z :=
  if (m =? 2)%Z then (if leap then 29 else 28)%Z
  else if existsb (Z.eqb m) [4; 6; 9; 11]%Z then 30%Z
  else 31%Z.

(** A day of a month of the calendar. *)
Definition valid_date (leap : bool) (m d : Z) : Prop :=
  (1 <= m <= 12)%Z /\ (1 <= d <= calendar_days leap m)%Z.

(** The records dated up to a day, by the comparison of the ISO
    strings. *)
Definition dated_up_to (d : string) (usage : list DailyRecord)
  : list DailyRecord :=
  List.filter (fun r => String.leb (date r) d) usage.

Definition costs_nonneg (usage : list DailyRecord) : Prop :=
  Forall (fun r => 0 <= total_cost r) usage.

End ForecastVocabulary.

Module AnomalyVocabulary.
Import cost_predictor.

Definition is_pattern_anomaly (a : Anomaly) : bool :=
  match an_type a with UNUSUAL_PATTERN => true | _ => false end.

(** The record at position [i] and the one before it both cost more
    than one and a half times the average. *)
Definition high_pair (avg_cost : Q) (daily_costs : list Q) (i : nat) : Prop :=
  (1 <= i)%nat
  /\ exists c p,
       daily_costs !! i = Some c /\ daily_costs !! (i - 1)%nat = Some p
       /\ avg_cost * 1.5 < c /\ avg_cost * 1.5 < p.

(** The outcome of the pattern test, [false] where it would raise. *)
Definition pattern_flag (avg_cost : Q) (daily_costs : list Q) (i : nat) : bool :=
  match is_pattern avg_cost daily_costs i with
  | Ok b => b
  | Raise _ => false
  end.

(** What an anomaly can be: a spike of severity HIGH or MEDIUM, or a
    pattern of severity MEDIUM. *)
Definition anomaly_kind_ok (a : Anomaly) : Prop :=
  (an_type a = SPIKE /\ (severity a = HIGH \/ severity a = MEDIUM))
  \/ (an_type a = UNUSUAL_PATTERN /\ severity a = MEDIUM).

End AnomalyVocabulary.

Module ScorerVocabulary.
Import cost_predictor.

(** No record books a negative cost under any optimization level. *)
Definition level_costs_nonneg (usage : list DailyRecord) : Prop :=
  forall r level stats,
    In r usage -> In (level, stats) (by_level r) -> 0 <= st_cost stats.

(** All the values of a dictionary of numbers are non-negative. *)
Definition values_nonneg (d : dict Q) : Prop :=
  forall k v, In (k, v) d -> 0 <= v.

(** The per-level totals that the scorer accumulates. *)
Definition level_usage_of (usage : list DailyRecord) : dict Q :=
  fold_left (fun lu r => fold_left add_level_usage (by_level r) lu) usage [].

End ScorerVocabulary.

Module AdvisorVocabulary.
Import cost_predictor.

(** The per-level statistics and the total cost that the advisor
    accumulates over a ledger. *)
Definition level_stats_of (usage : list DailyRecord) : dict Stats :=
  fold_left (fun ls r => fold_left add_level_stats (by_level r) ls) usage [].

Definition total_of (usage : list DailyRecord) : Q :=
  fold_left (fun acc r => acc + total_cost r) usage 0.

(** The share of a level in the total, in percent, as the advisor
    computes it: 0 when the total is not positive. *)
Definition level_pct (usage : list DailyRecord) (s : Stats) : Q :=
  if Qgtb (total_of usage) 0 then st_cost s / total_of usage * 100 else 0.

(** The three rules that look at the ledger only. *)
Definition switch_rule (usage : list DailyRecord) : Prop :=
  exists agg, dict_get "aggressive" (level_stats_of usage) = Some agg
              /\ 30 < level_pct usage agg.

Definition increase_rule (usage : list DailyRecord) : Prop :=
  exists bal agg,
    dict_get "balanced" (level_stats_of usage) = Some bal
    /\ dict_get "aggressive" (level_stats_of usage) = Some agg
    /\ 70 < level_pct usage bal.

Definition budget_rule (usage : list DailyRecord) : Prop :=
  (7 <= length usage)%nat
  /\ 10 < sum (List.map total_cost (last_n 7 usage)) / 7.

Definition is_diversify (x : Recommendation) : bool :=
  match x with DIVERSIFY_PROVIDERS _ _ _ _ => true | _ => false end.
Definition is_switch (x : Recommendation) : bool :=
  match x with SWITCH_OPTIMIZATION_LEVEL _ _ _ _ _ => true | _ => false end.
Definition is_increase (x : Recommendation) : bool :=
  match x with INCREASE_OPTIMIZATION _ _ _ _ => true | _ => false end.
Definition is_budget_alert (x : Recommendation) : bool :=
  match x with BUDGET_ALERT _ _ _ _ => true | _ => false end.

(** Every cost of a [by_provider] argument is zero. *)
Definition costs_all_zero (by_provider : dict Stats) : Prop :=
  forall k s, In (k, s) by_provider -> st_cost s == 0.

End AdvisorVocabulary.

Module AdvisorInvariants.
Import cost_predictor Vocabulary.

(** Every sub-total of a dictionary is non-negative. *)
Definition stats_nonneg (d : dict Stats) : Prop :=
  forall k s, In (k, s) d -> 0 <= st_cost s.

(** A ledger as [record_usage] builds it from non-negative costs: in
    every record the [by_level] sub-totals are non-negative and sum to
    the total cost. *)
Definition levels_consistent (usage : list DailyRecord) : Prop :=
  forall r, In r usage ->
    stats_nonneg (by_level r) /\ dict_cost (by_level r) == total_cost r.

(** A property of every stored record. *)
Definition all_records (P : DailyRecord -> Prop) (self : CostPredictionEngine)
  : Prop :=
  forall user_id usage r,
    user_usage self !! user_id = Some usage -> In r usage -> P r.

Definition level_consistent (r : DailyRecord) : Prop :=
  stats_nonneg (by_level r) /\ dict_cost (by_level r) == total_cost r.

Definition calls_nonneg (calls : list Call) : Prop :=
  Forall (fun c => 0 <= c_cost c) calls.

End AdvisorInvariants.

Module EstimateVocabulary.
Import provider_intelligence ProviderVocabulary.

(** The input token estimate after calibration: a quarter of the text
    length, scaled by the provider's token ratio when it has one. *)
Definition calibrated_tokens (self : ProviderIntelligence)
    (text provider : string) : Z :=
  match provider_calibration self !! provider with
  | Some calib => int (inject_Z (text_len text / 4) * token_ratio calib)
  | None => (text_len text / 4)%Z
  end.

(** The model the estimate is made for: the given one, or the first of
    the provider. *)
Definition chosen_model (config : ProviderConfig) (model : option string)
    (m : string) : Prop :=
  model = Some m
  \/ (model = None /\ index (dict_keys (models config)) 0 = Ok m).

(** The cost of [n] input tokens before rounding. *)
Definition raw_cost (config : ProviderConfig) (n : Z) : Q :=
  inject_Z n / 1000 * cost_per_1k_input config
  + inject_Z (int (inject_Z n * 0.2)) / 1000 * cost_per_1k_output config.

(** The provider has no calibration record, or one with a non-negative
    token ratio. *)
Definition ratio_nonneg (self : ProviderIntelligence) (provider : string)
  : Prop :=
  0 <= token_ratio (calibration_of self provider).

End EstimateVocabulary.

Module CalibratorVocabulary.
Import provider_intelligence ProviderVocabulary.

(** The same observation learned once per timestamp, in order. *)
Fixpoint learn_times (stamps : list string) (self : ProviderIntelligence)
    (user_id provider text : string) (tokens_estimated tokens_actual : Z)
    (cost : Q) (level : string) : Result ProviderIntelligence :=
  match stamps with
  | [] => Ok self
  | now :: rest =>
      let* self1 :=
        learn_from_optimization self now user_id provider text
                                tokens_estimated tokens_actual cost level in
      learn_times rest self1 user_id provider text tokens_estimated
                  tokens_actual cost level
  end.

(** The history entry that a call appends. *)
Definition history_record (now provider text : string)
    (tokens_estimated tokens_actual : Z) (cost : Q) (level : string)
  : HistoryRecord :=
  {| h_timestamp := now; h_provider := provider;
     h_tokens_estimated := tokens_estimated;
     h_tokens_actual := tokens_actual; h_cost := cost;
     h_optimization_level := level; h_text_length := text_len text |}.

Definition history_of (self : ProviderIntelligence) (user_id : string)
  : list HistoryRecord :=
  default [] (user_history self !! user_id).

End CalibratorVocabulary.

Module RecommenderVocabulary.
Import provider_intelligence ProviderVocabulary EstimateVocabulary.

(** Every provider of the table gets a non-zero input token estimate. *)
Definition estimable (self : ProviderIntelligence) (text : string) : Prop :=
  forall name, In name (dict_keys PROVIDERS) ->
    calibrated_tokens self text name <> 0%Z.

(** The [cost_usd] of the estimate of a provider of the table. *)
Definition rounded_cost (self : ProviderIntelligence) (text name : string)
  : Q :=
  match dict_get name PROVIDERS with
  | Some config => round (raw_cost config (calibrated_tokens self text name)) 4
  | None => 0
  end.

(** The division of [_calculate_rank] by the budget limit is defined for
    every provider: the priority is not cost, the limit is not 0, or
    every cost exceeds it. *)
Definition rank_defined (self : ProviderIntelligence) (text : string)
    (preferences : Preferences) : Prop :=
  get_priority preferences = "cost" -> get_budget_limit preferences == 0 ->
  forall name, In name (dict_keys PROVIDERS) ->
    0 < rounded_cost self text name.

(** A list of keys in the order [le], every key against all later ones. *)
Fixpoint sorted_keys (le : Q -> Q -> Prop) (l : list Q) : Prop :=
  match l with
  | [] => True
  | k :: rest => List.Forall (le k) rest /\ sorted_keys le rest
  end.

(** The order [list.sort] leaves the keys in. *)
Definition key_order (reverse : bool) (a b : Q) : Prop :=
  if reverse then b <= a else a <= b.

(** The entry of one optimization level. *)
Definition potential_of (level : string) (estimate : Estimate)
  : option Potential :=
  dict_get level (_calculate_optimization_potential estimate).

End RecommenderVocabulary.
(* ================================================================== *)
(** * Facts about the runtime fragments                                *)
(* ================================================================== *)

Section Runtime.

Lemma Qltb_lt (x y : Q) : Qltb x y = true <-> x < y.
Proof.
  unfold Qltb. rewrite Qlt_alt. destruct (x ?= y)%Q; split; congruence.
Qed.

Lemma Qltb_ge (x y : Q) : Qltb x y = false <-> y <= x.
Proof.
  split; intros H.
  - apply Qnot_lt_le. intros Hlt. apply Qltb_lt in Hlt. congruence.
  - destruct (Qltb x y) eqn:E; [|reflexivity].
    apply Qltb_lt in E. exfalso. apply (Qlt_not_le _ _ E H).
Qed.

Lemma Qgtb_gt (x y : Q) : Qgtb x y = true <-> y < x.
Proof. apply Qltb_lt. Qed.

Lemma Qgtb_le (x y : Q) : Qgtb x y = false <-> x <= y.
Proof. apply Qltb_ge. Qed.

Lemma Qleb_le (x y : Q) : Qleb x y = true <-> x <= y.
Proof. apply Qle_bool_iff. Qed.

Lemma Qeqb_eq (x y : Q) : Qeqb x y = true <-> x == y.
Proof. apply Qeq_bool_iff. Qed.

Lemma Qeqb_neq (x y : Q) : Qeqb x y = false <-> ~ x == y.
Proof.
  split; intros H.
  - intros E. apply Qeqb_eq in E. congruence.
  - destruct (Qeqb x y) eqn:E; [|reflexivity].
    apply Qeqb_eq in E. contradiction.
Qed.

Lemma truediv_ok (a b : Q) : ~ b == 0 -> truediv a b = Ok (a / b).
Proof. intros H. unfold truediv. apply Qeqb_neq in H. now rewrite H. Qed.

Lemma truediv_zero (a b : Q) : b == 0 -> truediv a b = Raise ZeroDivisionError.
Proof. intros H. unfold truediv. apply Qeqb_eq in H. now rewrite H. Qed.

Lemma bind_ok {A B} (m : Result A) (k : A -> Result B) (b : B) :
  bind m k = Ok b -> exists a, m = Ok a /\ k a = Ok b.
Proof. destruct m as [a|e]; simpl; [eauto | discriminate]. Qed.

Lemma fold_left_Qplus (l : list Q) (a : Q) :
  fold_left Qplus l a == a + sum l.
Proof.
  unfold sum. revert a. induction l as [|x l IH]; intros a; simpl.
  - lra.
  - rewrite (IH (a + x)), (IH (0 + x)). lra.
Qed.

Lemma sum_cons (x : Q) (l : list Q) : sum (x :: l) == x + sum l.
Proof. unfold sum at 1. simpl. rewrite fold_left_Qplus. lra. Qed.

Lemma sum_app (l1 l2 : list Q) : sum (l1 ++ l2) == sum l1 + sum l2.
Proof.
  induction l1 as [|x l1 IH]; simpl.
  - unfold sum at 2. simpl. lra.
  - rewrite !sum_cons, IH. lra.
Qed.

Lemma fold_left_Zadd (l : list Z) (a : Z) :
  fold_left Z.add l a = (a + sumZ l)%Z.
Proof.
  unfold sumZ. revert a. induction l as [|x l IH]; intros a; simpl.
  - lia.
  - rewrite (IH (a + x)%Z), (IH (0 + x)%Z). lia.
Qed.

Lemma sumZ_cons (x : Z) (l : list Z) : sumZ (x :: l) = (x + sumZ l)%Z.
Proof. unfold sumZ at 1. simpl. rewrite fold_left_Zadd. lia. Qed.

Lemma sumZ_app (l1 l2 : list Z) : sumZ (l1 ++ l2) = (sumZ l1 + sumZ l2)%Z.
Proof.
  induction l1 as [|x l1 IH]; simpl; [reflexivity|].
  rewrite !sumZ_cons, IH. lia.
Qed.

Lemma statistics_mean_nonempty (data : list Q) :
  data <> [] -> statistics_mean data = Ok (sum data / inject_Z (len data)).
Proof. destruct data; [congruence | reflexivity]. Qed.

Lemma last_n_length {A} (n : nat) (l : list A) :
  (n <= length l)%nat -> length (last_n n l) = n.
Proof. intros H. unfold last_n. rewrite length_skipn. lia. Qed.

Lemma but_last_n_length {A} (n : nat) (l : list A) :
  length (but_last_n n l) = (length l - n)%nat.
Proof. unfold but_last_n. rewrite length_firstn. lia. Qed.

Lemma in_firstn {A} (n : nat) (l : list A) (x : A) :
  In x (firstn n l) -> In x l.
Proof.
  intros H. rewrite <- (firstn_skipn n l). apply in_or_app. now left.
Qed.

End Runtime.

(* ================================================================== *)
(** * The usage ledger                                                 *)
(* ================================================================== *)

Section Dictionaries.
Import cost_predictor Vocabulary.

Lemma dict_cost_cons (k : string) (s : Stats) (d : dict Stats) :
  dict_cost ((k, s) :: d) == st_cost s + dict_cost d.
Proof. unfold dict_cost. cbn [List.map snd]. apply sum_cons. Qed.

Lemma dict_tokens_cons (k : string) (s : Stats) (d : dict Stats) :
  dict_tokens ((k, s) :: d) = (st_tokens s + dict_tokens d)%Z.
Proof. unfold dict_tokens. cbn [List.map snd]. apply sumZ_cons. Qed.

Lemma dict_cost_nil : dict_cost [] == 0.
Proof. reflexivity. Qed.

(** Overwriting an existing key replaces its share of the sum; a new key
    adds its share. *)
Lemma dict_set_cost (k : string) (v : Stats) (d : dict Stats) :
  dict_cost (dict_set k v d)
  == dict_cost d + st_cost v
     - match dict_get k d with Some s => st_cost s | None => 0 end.
Proof.
  induction d as [|[k' s] d IH]; cbn [dict_set dict_get].
  - rewrite dict_cost_cons, dict_cost_nil. lra.
  - destruct (String.eqb k' k).
    + rewrite !dict_cost_cons. lra.
    + rewrite !dict_cost_cons, IH. lra.
Qed.

Lemma dict_set_tokens (k : string) (v : Stats) (d : dict Stats) :
  dict_tokens (dict_set k v d)
  = (dict_tokens d + st_tokens v
     - match dict_get k d with Some s => st_tokens s | None => 0 end)%Z.
Proof.
  induction d as [|[k' s] d IH]; cbn [dict_set dict_get].
  - rewrite dict_tokens_cons. unfold dict_tokens, sumZ. simpl. lia.
  - destruct (String.eqb k' k).
    + rewrite !dict_tokens_cons. lia.
    + rewrite !dict_tokens_cons, IH. lia.
Qed.

Lemma dict_get_set {V} (k : string) (v : V) (d : dict V) :
  dict_get k (dict_set k v d) = Some v.
Proof.
  induction d as [|[k' s] d IH]; cbn [dict_set dict_get].
  - now rewrite String.eqb_refl.
  - destruct (String.eqb k' k) eqn:E; cbn [dict_get]; now rewrite E.
Qed.

(** [track] adds the cost and the tokens of one request to the sums. *)
Lemma track_sums (k : string) (cost : Q) (tokens : Z) (d : dict Stats) :
  dict_cost (track k cost tokens d) == dict_cost d + cost
  /\ dict_tokens (track k cost tokens d) = (dict_tokens d + tokens)%Z.
Proof.
  unfold track, dict_mem.
  destruct (dict_get k d) as [s|] eqn:E.
  - rewrite E. rewrite dict_set_cost, dict_set_tokens, E.
    cbn [st_cost st_tokens]. split; [lra | lia].
  - rewrite dict_get_set, !dict_set_cost, !dict_set_tokens, dict_get_set, E.
    cbn [st_cost st_tokens]. split; [lra | lia].
Qed.

End Dictionaries.

Section Records.
Import cost_predictor Vocabulary.

Lemma new_record_inv (d : string) : record_inv (new_record d).
Proof. split; reflexivity. Qed.

Lemma update_record_inv (ts p : string) (t : Z) (c : Q) (l : string)
    (r : DailyRecord) :
  record_inv r -> record_inv (update_record ts p t c l r).
Proof.
  intros [Hc Ht Hpc Hpt Hlc Hlt].
  destruct (track_sums p c t (by_provider r)) as [Hp1 Hp2].
  destruct (track_sums l c t (by_level r)) as [Hl1 Hl2].
  split; cbn [update_record total_cost total_tokens requests by_provider
                by_level].
  - rewrite List.map_app, sum_app. cbn [List.map rq_cost].
    rewrite sum_cons. change (sum []) with 0. lra.
  - rewrite List.map_app, sumZ_app. cbn [List.map rq_tokens].
    rewrite sumZ_cons. change (sumZ []) with 0%Z. lia.
  - lra.
  - lia.
  - lra.
  - lia.
Qed.

Lemma update_record_date (ts p : string) (t : Z) (c : Q) (l : string)
    (r : DailyRecord) :
  date (update_record ts p t c l r) = date r.
Proof. reflexivity. Qed.

(** The totals after a run of updates of one record. *)
Lemma fold_update_totals (calls : list Call) (r : DailyRecord) :
  let r' := fold_left (fun r c => update_of c r) calls r in
  total_cost r' == total_cost r + sum (List.map c_cost calls)
  /\ total_tokens r' = (total_tokens r + sumZ (List.map c_tokens calls))%Z
  /\ (record_inv r -> record_inv r').
Proof.
  revert r. induction calls as [|c calls IH]; intros r; cbn [fold_left List.map].
  - split; [unfold sum; simpl; lra|]. split; [unfold sumZ; simpl; lia|]. auto.
  - destruct (IH (update_of c r)) as (H1 & H2 & H3).
    rewrite sum_cons, sumZ_cons. split; [|split].
    + rewrite H1. unfold update_of. cbn [update_record total_cost]. lra.
    + rewrite H2. unfold update_of. cbn [update_record total_tokens]. lia.
    + intros Hr. apply H3. now apply update_record_inv.
Qed.

End Records.

Section LedgerSteps.
Import cost_predictor Vocabulary.

Variable d : string.
Variable upd : DailyRecord -> DailyRecord.
Hypothesis upd_date : forall r, date (upd r) = date r.

Lemma ledger_step_nil : ledger_step d upd [] = [upd (new_record d)].
Proof. reflexivity. Qed.

Lemma ledger_step_cons (r : DailyRecord) (usage : list DailyRecord) :
  ledger_step d upd (r :: usage)
  = if String.eqb (date r) d then upd r :: usage
    else r :: ledger_step d upd usage.
Proof.
  unfold ledger_step. cbn [find_today].
  destruct (String.eqb (date r) d); [reflexivity|].
  destruct (find_today d usage); reflexivity.
Qed.

(** The day's record after the step is the update of the one before, or
    of a new record. *)
Lemma find_record_step_same (usage : list DailyRecord) :
  find_record d (ledger_step d upd usage)
  = Some (upd (default (new_record d) (find_record d usage))).
Proof.
  unfold find_record.
  induction usage as [|r usage IH].
  - rewrite ledger_step_nil. cbn [find]. rewrite upd_date.
    cbn [new_record date]. now rewrite String.eqb_refl.
  - rewrite ledger_step_cons. cbn [find].
    destruct (String.eqb (date r) d) eqn:E; cbn [find].
    + now rewrite upd_date, E.
    + now rewrite E.
Qed.

(** The records of the other days are untouched. *)
Lemma find_record_step_other (d' : string) (usage : list DailyRecord) :
  d <> d' ->
  find_record d' (ledger_step d upd usage) = find_record d' usage.
Proof.
  intros Hne. unfold find_record.
  assert (Hd : String.eqb d d' = false) by now apply String.eqb_neq.
  induction usage as [|r usage IH].
  - rewrite ledger_step_nil. cbn [find]. rewrite upd_date.
    cbn [new_record date]. now rewrite Hd.
  - rewrite ledger_step_cons.
    destruct (String.eqb (date r) d) eqn:E; cbn [find].
    + apply String.eqb_eq in E. rewrite upd_date, E. now rewrite Hd.
    + now rewrite IH.
Qed.

Lemma ledger_step_in (usage : list DailyRecord) (r' : DailyRecord) :
  In r' (ledger_step d upd usage) ->
  In r' usage \/ exists r, (In r usage \/ r = new_record d) /\ r' = upd r.
Proof.
  induction usage as [|r usage IH].
  - rewrite ledger_step_nil. intros [<-|[]]. right. eauto.
  - rewrite ledger_step_cons.
    destruct (String.eqb (date r) d).
    + intros [<-|H].
      * right. exists r. split; [left; now left | reflexivity].
      * left. now right.
    + intros [<-|H]; [left; now left|].
      destruct (IH H) as [H'|(r0 & [H0|H0] & ->)].
      * left. now right.
      * right. exists r0. split; [left; now right | reflexivity].
      * right. exists r0. split; [now right | reflexivity].
Qed.

End LedgerSteps.

Section Engine.
Import cost_predictor Vocabulary.

Lemma record_usage_disabled (self : CostPredictionEngine) (now : Clock)
    (user_id provider : string) (tokens_used : Z) (cost : Q) (level : string) :
  learning_enabled self = false ->
  record_usage self now user_id provider tokens_used cost level = self.
Proof. intros H. unfold record_usage. now rewrite H. Qed.

Lemma record_usage_enabled (self : CostPredictionEngine) (now : Clock)
    (user_id provider : string) (tokens_used : Z) (cost : Q) (level : string) :
  learning_enabled self = true ->
  user_usage (record_usage self now user_id provider tokens_used cost level)
  = <[user_id :=
        ledger_step (today now)
          (update_record (timestamp now) provider tokens_used cost level)
          (default [] (user_usage self !! user_id))]> (user_usage self).
Proof.
  intros H. unfold record_usage, ledger_step. rewrite H. cbn [negb].
  destruct (find_today (today now) (default [] (user_usage self !! user_id)));
    reflexivity.
Qed.

Lemma record_usage_flag (self : CostPredictionEngine) (now : Clock)
    (user_id provider : string) (tokens_used : Z) (cost : Q) (level : string) :
  learning_enabled (record_usage self now user_id provider tokens_used cost level)
  = learning_enabled self.
Proof.
  unfold record_usage. destruct (learning_enabled self) eqn:E; cbn [negb].
  - destruct (find_today (today now) (default [] (user_usage self !! user_id)));
      reflexivity.
  - exact E.
Qed.

Lemma replay_flag (calls : list Call) (self : CostPredictionEngine) :
  learning_enabled (replay self calls) = learning_enabled self.
Proof.
  revert self. induction calls as [|c calls IH]; intros self; [reflexivity|].
  unfold replay in *. cbn [fold_left]. rewrite IH. apply record_usage_flag.
Qed.

(** [record_usage] keeps the additivity invariant of every stored
    record. *)
Lemma record_usage_inv (self : CostPredictionEngine) (now : Clock)
    (user_id provider : string) (tokens_used : Z) (cost : Q) (level : string) :
  ledger_inv self ->
  ledger_inv (record_usage self now user_id provider tokens_used cost level).
Proof.
  intros Hinv. destruct (learning_enabled self) eqn:E.
  2: { now rewrite record_usage_disabled. }
  intros u usage r Hu Hr. rewrite record_usage_enabled in Hu by exact E.
  destruct (decide (user_id = u)) as [->|Hne].
  - rewrite lookup_insert_eq in Hu. injection Hu as <-.
    assert (Hold : forall r0, In r0 (default [] (user_usage self !! u)) ->
                              record_inv r0).
    { intros r0 H0. destruct (user_usage self !! u) as [l|] eqn:El.
      - exact (Hinv u l r0 El H0).
      - destruct H0. }
    apply ledger_step_in in Hr as [Hr|(r0 & [H0|H0] & ->)].
    + now apply Hold.
    + apply update_record_inv. now apply Hold.
    + apply update_record_inv. subst r0. apply new_record_inv.
  - rewrite lookup_insert_ne in Hu by exact Hne. exact (Hinv u usage r Hu Hr).
Qed.

Lemma replay_inv (calls : list Call) (self : CostPredictionEngine) :
  ledger_inv self -> ledger_inv (replay self calls).
Proof.
  revert self. induction calls as [|c calls IH]; intros self H; [exact H|].
  unfold replay in *. cbn [fold_left]. apply IH. now apply record_usage_inv.
Qed.

Lemma init_inv : ledger_inv init.
Proof. intros u usage r Hu. cbn in Hu. now rewrite lookup_empty in Hu. Qed.

(** One call: the record of a (user, day) is updated by the calls of
    that user on that day, and by no other call. *)
Lemma day_record_apply_call (self : CostPredictionEngine) (c : Call)
    (user_id d : string) :
  learning_enabled self = true ->
  day_record (apply_call self c) user_id d
  = if String.eqb (c_user c) user_id && String.eqb (today (c_now c)) d
    then Some (update_of c (default (new_record d) (day_record self user_id d)))
    else day_record self user_id d.
Proof.
  intros E. unfold day_record, apply_call.
  rewrite record_usage_enabled by exact E.
  destruct (String.eqb (c_user c) user_id) eqn:Eu; cbn [andb].
  - apply String.eqb_eq in Eu. subst user_id. rewrite lookup_insert_eq.
    cbn [default from_option]. unfold Datatypes.id.
    destruct (String.eqb (today (c_now c)) d) eqn:Ed.
    + apply String.eqb_eq in Ed. subst d.
      now rewrite find_record_step_same by auto using update_record_date.
    + apply String.eqb_neq in Ed.
      now rewrite find_record_step_other by auto using update_record_date.
  - apply String.eqb_neq in Eu. now rewrite lookup_insert_ne.
Qed.

Lemma run_updates_some (d : string) (calls : list Call) (r : DailyRecord) :
  run_updates d calls (Some r)
  = Some (fold_left (fun r c => update_of c r) calls r).
Proof.
  revert r. induction calls as [|c calls IH]; intros r; [reflexivity|].
  unfold run_updates in *. cbn [fold_left default]. apply IH.
Qed.

Lemma day_record_replay (calls : list Call) (self : CostPredictionEngine)
    (user_id d : string) :
  learning_enabled self = true ->
  day_record (replay self calls) user_id d
  = run_updates d (calls_on user_id d calls) (day_record self user_id d).
Proof.
  revert self. induction calls as [|c calls IH]; intros self E; [reflexivity|].
  unfold replay in *. cbn [fold_left calls_on List.filter].
  rewrite IH by (unfold apply_call; now rewrite record_usage_flag).
  rewrite day_record_apply_call by exact E.
  unfold calls_on.
  destruct (String.eqb (c_user c) user_id && String.eqb (today (c_now c)) d);
    reflexivity.
Qed.

End Engine.

Section Additivity.
Import cost_predictor Vocabulary Samples.



End Additivity.

(* ================================================================== *)
(** * The ledger lookup and the forecaster                             *)
(* ================================================================== *)

Section Forecaster.
Import cost_predictor Vocabulary Samples.

Lemma ledger_none (self : CostPredictionEngine) (user_id : string) :
  no_history self user_id -> ledger self user_id = None.
Proof. intros [H|H]; unfold ledger; now rewrite H. Qed.

Lemma ledger_some (self : CostPredictionEngine) (user_id : string)
    (usage : list DailyRecord) :
  user_usage self !! user_id = Some usage -> usage <> [] ->
  ledger self user_id = Some usage.
Proof.
  intros H Hne. unfold ledger. rewrite H. destruct usage; congruence.
Qed.

Lemma len_map {A B} (f : A -> B) (l : list A) : len (List.map f l) = len l.
Proof. unfold len. now rewrite length_map. Qed.

(** With exactly three daily costs the older slice is empty and its mean
    raises. *)
Lemma detect_trend_three (daily_costs : list Q) :
  length daily_costs = 3%nat -> detect_trend daily_costs = Raise StatisticsError.
Proof.
  intros H.
  destruct daily_costs as [|a [|b [|c [|d l]]]]; try discriminate.
  reflexivity.
Qed.

Lemma detect_trend_short (daily_costs : list Q) :
  (length daily_costs < 3)%nat -> detect_trend daily_costs = Ok stable.
Proof.
  intros H. unfold detect_trend.
  destruct (3 <=? len daily_costs)%Z eqn:E; [|reflexivity].
  apply Z.leb_le in E. unfold len in E. lia.
Qed.

(** With four or more daily costs both means exist and the trend follows
    the two thresholds, the test for [up] first. *)
Lemma detect_trend_long (daily_costs : list Q) :
  (4 <= length daily_costs)%nat ->
  exists recent_avg older_avg,
    statistics_mean (last_n 3 daily_costs) = Ok recent_avg
    /\ statistics_mean (but_last_n 3 daily_costs) = Ok older_avg
    /\ detect_trend daily_costs =
       Ok (if Qgtb recent_avg (older_avg * 1.1) then up
           else if Qltb recent_avg (older_avg * 0.9) then down
           else stable).
Proof.
  intros H.
  assert (Hr : last_n 3 daily_costs <> []).
  { intros E. apply (f_equal (@length Q)) in E.
    rewrite last_n_length in E by lia. discriminate. }
  assert (Ho : but_last_n 3 daily_costs <> []).
  { intros E. apply (f_equal (@length Q)) in E.
    rewrite but_last_n_length in E. simpl in E. lia. }
  eexists _, _. split; [apply statistics_mean_nonempty, Hr|].
  split; [apply statistics_mean_nonempty, Ho|].
  unfold detect_trend.
  replace (3 <=? len daily_costs)%Z with true
    by (symmetry; apply Z.leb_le; unfold len; lia).
  rewrite (statistics_mean_nonempty _ Hr), (statistics_mean_nonempty _ Ho).
  simpl.
  repeat match goal with |- context [if ?b then _ else _] => destruct b end;
    reflexivity.
Qed.

Lemma detect_trend_returns (daily_costs : list Q) :
  length daily_costs <> 3%nat -> returns (detect_trend daily_costs).
Proof.
  intros H.
  destruct (Nat.lt_ge_cases (length daily_costs) 3) as [Hlt|Hge].
  - exists stable. now apply detect_trend_short.
  - destruct (detect_trend_long daily_costs) as (r & o & _ & _ & E); [lia|].
    eexists. exact E.
Qed.

(** What a returned prediction is made of. *)
Lemma predict_monthly_cost_ok (self : CostPredictionEngine) (now : Clock)
    (user_id : string) (usage : list DailyRecord) (p : CostPrediction) :
  ledger self user_id = Some usage -> usage <> [] ->
  predict_monthly_cost self now user_id = Ok p ->
  detect_trend (List.map total_cost usage) = Ok (trend p)
  /\ confidence p = Qmin 0.95 (0.5 + inject_Z (len usage) * 0.05)
  /\ days_remaining p = (days_in_month (month now) - day now)%Z.
Proof.
  intros Hl Hne H. unfold predict_monthly_cost in H. rewrite Hl in H.
  rewrite <- (len_map total_cost usage).
  assert (Hc : List.map total_cost usage <> [])
    by (destruct usage; simpl; congruence).
  destruct (List.map total_cost usage) as [|c cs]; [congruence|].
  cbn [statistics_mean bind] in H.
  apply bind_ok in H as (t & Ht & H).
  injection H as <-. cbn [trend confidence days_remaining].
  split; [exact Ht|]. split; reflexivity.
Qed.

Lemma predict_monthly_cost_returns (self : CostPredictionEngine) (now : Clock)
    (user_id : string) (usage : list DailyRecord) :
  ledger self user_id = Some usage -> length usage <> 3%nat ->
  returns (predict_monthly_cost self now user_id).
Proof.
  intros Hl Hn. unfold predict_monthly_cost. rewrite Hl.
  destruct (detect_trend_returns (List.map total_cost usage)) as [t Ht].
  { now rewrite length_map. }
  destruct usage as [|r usage].
  - cbn [List.map bind] in *. rewrite Ht. cbn [bind]. eexists; reflexivity.
  - cbn [List.map statistics_mean bind] in *. rewrite Ht. cbn [bind].
    eexists; reflexivity.
Qed.

(** Every ledger of exactly three records makes the forecast raise. *)
Lemma predict_monthly_cost_three (self : CostPredictionEngine) (now : Clock)
    (user_id : string) (usage : list DailyRecord) :
  user_usage self !! user_id = Some usage -> length usage = 3%nat ->
  predict_monthly_cost self now user_id = Raise StatisticsError.
Proof.
  intros Hu Hn.
  assert (Hl : ledger self user_id = Some usage).
  { apply ledger_some; [exact Hu|]. intros ->. discriminate. }
  unfold predict_monthly_cost. rewrite Hl.
  rewrite (detect_trend_three (List.map total_cost usage))
    by now rewrite length_map.
  destruct usage; [discriminate|]. reflexivity.
Qed.

(** The trend rule on every ledger of four or more records. *)
Lemma predict_monthly_cost_trend (self : CostPredictionEngine) (now : Clock)
    (user_id : string) (usage : list DailyRecord) :
  user_usage self !! user_id = Some usage -> (4 <= length usage)%nat ->
  exists p recent_avg older_avg,
    predict_monthly_cost self now user_id = Ok p
    /\ statistics_mean (last_n 3 (List.map total_cost usage)) = Ok recent_avg
    /\ statistics_mean (but_last_n 3 (List.map total_cost usage)) = Ok older_avg
    /\ (older_avg * 1.1 < recent_avg -> trend p = up)
    /\ (recent_avg <= older_avg * 1.1 -> recent_avg < older_avg * 0.9 ->
        trend p = down)
    /\ (recent_avg <= older_avg * 1.1 -> older_avg * 0.9 <= recent_avg ->
        trend p = stable).
Proof.
  intros Hu Hn.
  assert (Hne : usage <> []) by (intros ->; simpl in Hn; lia).
  assert (Hl := ledger_some _ _ _ Hu Hne).
  destruct (predict_monthly_cost_returns self now user_id usage Hl) as [p Hp];
    [lia|].
  destruct (detect_trend_long (List.map total_cost usage))
    as (r & o & Hr & Ho & Ht); [rewrite length_map; lia|].
  destruct (predict_monthly_cost_ok _ _ _ _ _ Hl Hne Hp) as (Ht' & _).
  rewrite Ht in Ht'. injection Ht' as Ht'.
  exists p, r, o. repeat split; try assumption.
  - intros H. apply Qgtb_gt in H. now rewrite H in Ht'.
  - intros H1 H2. apply Qgtb_le in H1. apply Qltb_lt in H2.
    now rewrite H1, H2 in Ht'.
  - intros H1 H2. apply Qgtb_le in H1. apply Qltb_ge in H2.
    now rewrite H1, H2 in Ht'.
Qed.

(** Fewer than three records: the trend is [stable]. *)
Lemma predict_monthly_cost_few (self : CostPredictionEngine) (now : Clock)
    (user_id : string) (usage : list DailyRecord) :
  user_usage self !! user_id = Some usage -> usage <> [] ->
  (length usage < 3)%nat ->
  exists p, predict_monthly_cost self now user_id = Ok p /\ trend p = stable.
Proof.
  intros Hu Hne Hn.
  assert (Hl := ledger_some _ _ _ Hu Hne).
  destruct (predict_monthly_cost_returns self now user_id usage Hl) as [p Hp];
    [lia|].
  exists p. split; [exact Hp|].
  destruct (predict_monthly_cost_ok _ _ _ _ _ Hl Hne Hp) as (Ht & _).
  rewrite detect_trend_short in Ht by (rewrite length_map; lia).
  now injection Ht.
Qed.

(** Daily costs [5,5,5,5,5,15,15,15]: the trend is [up]. *)
Lemma predict_monthly_cost_eight_days :
  exists p, predict_monthly_cost eight_days (october 9) "alice" = Ok p
            /\ trend p = up.
Proof. eexists. split; vm_compute; reflexivity. Qed.

(** C1. With exactly three daily records (costs 5, 5, 5 on three
    consecutive days) [predict_monthly_cost] does not return: the mean of
    the records preceding the last three is taken over an empty list and
    raises [StatisticsError], where the specification promises a normal
    return for every record count. *)
Theorem predict_monthly_cost_three_days_raises :
  predict_monthly_cost three_days (october 4) "alice" = Raise StatisticsError.
Proof. vm_compute. reflexivity. Qed.

End Forecaster.

Section Confidence.
Import cost_predictor Vocabulary Samples.

Lemma confidence_formula_mono (m n : Z) :
  (m <= n)%Z ->
  Qmin 0.95 (0.5 + 0.05 * inject_Z m) <= Qmin 0.95 (0.5 + 0.05 * inject_Z n).
Proof.
  intros H. rewrite Zle_Qle in H.
  destruct (Q.min_spec 0.95 (0.5 + 0.05 * inject_Z m)) as [[? ->]|[? ->]];
  destruct (Q.min_spec 0.95 (0.5 + 0.05 * inject_Z n)) as [[? ->]|[? ->]];
  lra.
Qed.

Lemma confidence_formula_cap (n : Z) :
  (9 <= n)%Z -> Qmin 0.95 (0.5 + 0.05 * inject_Z n) == 0.95.
Proof.
  intros H. rewrite Zle_Qle in H. change (9 <= inject_Z n) in H.
  destruct (Q.min_spec 0.95 (0.5 + 0.05 * inject_Z n)) as [[? ->]|[? ->]];
  lra.
Qed.

Lemma predict_confidence (self : CostPredictionEngine) (now : Clock)
    (user_id : string) (usage : list DailyRecord) (p : CostPrediction) :
  user_usage self !! user_id = Some usage -> usage <> [] ->
  predict_monthly_cost self now user_id = Ok p ->
  confidence p == Qmin 0.95 (0.5 + 0.05 * inject_Z (len usage)).
Proof.
  intros Hu Hne Hp.
  destruct (predict_monthly_cost_ok self now user_id usage p) as (_ & -> & _);
    auto using ledger_some.
  destruct (Q.min_spec 0.95 (0.5 + inject_Z (len usage) * 0.05)) as [[? ->]|[? ->]];
  destruct (Q.min_spec 0.95 (0.5 + 0.05 * inject_Z (len usage))) as [[? ->]|[? ->]];
  lra.
Qed.

(** C8. On a non-empty ledger of [N] records every prediction that
    [predict_monthly_cost] returns has confidence
    [min(0.95, 0.5 + 0.05 * N)]: it is 0.55 at [N = 1], it is 0.95 from
    [N = 9] on, and a ledger with at least as many records never gets a
    lower confidence. The call returns for every [N] other than 3. *)
Theorem forecast_confidence (self : CostPredictionEngine) (now : Clock)
    (user_id : string) (usage : list DailyRecord) :
  user_usage self !! user_id = Some usage -> usage <> [] ->
  let N := len usage in
  (forall p, predict_monthly_cost self now user_id = Ok p ->
     confidence p == Qmin 0.95 (0.5 + 0.05 * inject_Z N)
     /\ (N = 1%Z -> confidence p == 0.55)
     /\ ((9 <= N)%Z -> confidence p == 0.95)
     /\ forall self' now' user_id' usage' p',
          user_usage self' !! user_id' = Some usage' ->
          predict_monthly_cost self' now' user_id' = Ok p' ->
          (N <= len usage')%Z -> confidence p <= confidence p')
  /\ (length usage <> 3%nat -> returns (predict_monthly_cost self now user_id)).
Proof.
  intros Hu Hne N. split.
  - intros p Hp.
    assert (Hc := predict_confidence _ _ _ _ _ Hu Hne Hp). fold N in Hc.
    split; [exact Hc|]. split; [|split].
    + intros E. rewrite Hc, E. reflexivity.
    + intros H9. rewrite Hc. now apply confidence_formula_cap.
    + intros self' now' user_id' usage' p' Hu' Hp' Hle.
      assert (Hne' : usage' <> []).
      { intros ->. unfold N, len in Hle. destruct usage; [congruence|].
        simpl in Hle. lia. }
      rewrite Hc, (predict_confidence _ _ _ _ _ Hu' Hne' Hp').
      now apply confidence_formula_mono.
  - intros H3. apply predict_monthly_cost_returns with usage; [|exact H3].
    now apply ledger_some.
Qed.

Lemma forecast_confidence_witness :
  exists p, predict_monthly_cost eight_days (october 9) "alice" = Ok p
            /\ confidence p
               == Qmin 0.95 (0.5 + 0.05 * inject_Z (len (ledger_of eight_days "alice"))).
Proof.
  eexists. split; [vm_compute; reflexivity|].
  refine (proj1 (proj1 (forecast_confidence eight_days (october 9) "alice"
                          (ledger_of eight_days "alice") _ _) _ _)).
  - vm_compute. reflexivity.
  - vm_compute. discriminate.
  - vm_compute. reflexivity.
Defined.

End Confidence.

(* ================================================================== *)
(** * The anomaly detector                                             *)
(* ================================================================== *)

Section SquareRoots.

Lemma surd_pos_real (s : Surd) :
  surd_pos s = true <-> (0 < sqrt (Q2R (radicand s)))%R.
Proof.
  unfold surd_pos. rewrite Qltb_lt. split.
  - intros H. apply sqrt_lt_R0. apply Qlt_Rlt in H.
    now rewrite RMicromega.Q2R_0 in H.
  - intros H. apply Qnot_le_lt. intros Hle. apply Qle_Rle in Hle.
    rewrite RMicromega.Q2R_0 in Hle.
    rewrite (sqrt_neg_0 _ Hle) in H. now apply Rlt_irrefl in H.
Qed.

Lemma gt_plus_two_surd_real (x a : Q) (s : Surd) :
  0 <= radicand s ->
  gt_plus_two_surd x a s = true
  <-> (Q2R a + 2 * sqrt (Q2R (radicand s)) < Q2R x)%R.
Proof.
  intros Hv. apply Qle_Rle in Hv. rewrite RMicromega.Q2R_0 in Hv.
  assert (Hs := sqrt_pos (Q2R (radicand s))).
  assert (Hss := sqrt_sqrt _ Hv).
  unfold gt_plus_two_surd. rewrite andb_true_iff, !Qltb_lt.
  set (r := sqrt (Q2R (radicand s))) in *.
  split.
  - intros [H1 H2]. apply Qlt_Rlt in H1, H2.
    rewrite Q2R_mult in H2. rewrite Q2R_mult, !Q2R_minus in H2.
    replace (Q2R 4) with 4%R in H2 by (unfold Q2R; simpl; Lra.lra).
    rewrite <- Hss in H2.
    Lra.nra.
  - intros H. split; apply Rlt_Qlt.
    + Lra.lra.
    + rewrite Q2R_mult. rewrite Q2R_mult, !Q2R_minus.
      replace (Q2R 4) with 4%R by (unfold Q2R; simpl; Lra.lra).
      rewrite <- Hss. Lra.nra.
Qed.

End SquareRoots.

Section Statistics.

Lemma sum_nonneg (l : list Q) : Forall (fun x => 0 <= x) l -> 0 <= sum l.
Proof.
  induction 1 as [|x l Hx _ IH].
  - unfold sum. simpl. lra.
  - rewrite sum_cons. lra.
Qed.

Lemma statistics_variance_ok (data : list Q) :
  (2 <= length data)%nat ->
  exists c v, statistics_mean data = Ok c
              /\ statistics_variance data = Ok v /\ 0 <= v.
Proof.
  intros H.
  assert (Hne : data <> []) by (intros ->; simpl in H; lia).
  unfold statistics_variance.
  replace (len data <? 2)%Z with false
    by (symmetry; apply Z.ltb_ge; unfold len; lia).
  rewrite (statistics_mean_nonempty _ Hne). cbn [bind].
  eexists _, _. split; [reflexivity|]. split; [reflexivity|].
  apply Qle_shift_div_l.
  - change 0 with (inject_Z 0). rewrite <- Zlt_Qlt. unfold len. lia.
  - rewrite Qmult_0_l. apply sum_nonneg.
    apply List.Forall_forall. intros y Hy. apply in_map_iff in Hy as (x & <- & _).
    generalize (x - sum data / inject_Z (len data)). intros d. nra.
Qed.

End Statistics.

Section Detector.
Import cost_predictor Vocabulary Samples.

Lemma index_in_range {A} (l : list A) (i : nat) :
  (i < length l)%nat -> exists x, index l i = Ok x.
Proof.
  intros H. unfold index.
  destruct (lookup_lt_is_Some_2 l i H) as [x ->]. now exists x.
Qed.

Lemma is_pattern_returns (avg_cost : Q) (daily_costs : list Q) (i : nat) :
  (i < length daily_costs)%nat ->
  returns (is_pattern avg_cost daily_costs i).
Proof.
  intros H. unfold is_pattern, returns.
  destruct (1 <=? i)%nat eqn:E; [|eauto].
  destruct (index_in_range daily_costs i H) as [ci ->]. cbn [bind].
  destruct (Qgtb ci (avg_cost * 1.5)); [|eauto].
  destruct (index_in_range daily_costs (i - 1)) as [cp ->]; [lia|].
  cbn [bind]. eauto.
Qed.

Lemma enumerate_in_range {A} (l : list A) (i : nat) (x : A) :
  In (i, x) (enumerate l) -> (i < length l)%nat.
Proof.
  intros H. apply in_combine_l in H. apply in_seq in H. lia.
Qed.

Lemma enumerate_snd {A} (l : list A) : List.map snd (enumerate l) = l.
Proof.
  unfold enumerate. generalize 0%nat.
  induction l as [|x l IH]; intros n; simpl; [reflexivity|].
  now rewrite IH.
Qed.

Lemma filter_spikes_app (l1 l2 : list Anomaly) :
  List.filter is_spike_anomaly (l1 ++ l2)
  = List.filter is_spike_anomaly l1 ++ List.filter is_spike_anomaly l2.
Proof. apply List.filter_app. Qed.

(** The loop keeps the spikes emitted so far and adds one per flagged
    record, in order. *)
Lemma detect_loop_spikes (avg_cost : Q) (stdev : Surd) (daily_costs : list Q)
    (items : list (nat * DailyRecord)) (anomalies : list Anomaly) :
  (forall i r, In (i, r) items -> (i < length daily_costs)%nat) ->
  exists out,
    for_each (detect_step avg_cost stdev daily_costs) items anomalies = Ok out
    /\ List.filter is_spike_anomaly out
       = List.filter is_spike_anomaly anomalies
         ++ List.map (spike_anomaly avg_cost)
              (List.filter (fun r => is_spike avg_cost stdev (total_cost r))
                           (List.map snd items)).
Proof.
  revert anomalies.
  induction items as [|[i r] items IH]; intros anomalies Hr.
  - exists anomalies. split; [reflexivity|]. simpl. now rewrite app_nil_r.
  - destruct (is_pattern_returns avg_cost daily_costs i) as [p Hp].
    { apply (Hr i r). now left. }
    cbn [for_each detect_step]. rewrite Hp. cbn [bind].
    match goal with
    | |- context [for_each _ items ?acc] =>
        destruct (IH acc) as (out & Hout & Hf)
    end.
    { intros j r' Hj. apply (Hr j r'). now right. }
    exists out. split; [exact Hout|]. rewrite Hf.
    cbn [List.map snd List.filter].
    destruct (is_spike avg_cost stdev (total_cost r)), p;
      rewrite ?filter_spikes_app; cbn [List.filter is_spike_anomaly an_type
        spike_anomaly pattern_anomaly List.map];
      rewrite <- ?app_assoc, ?app_nil_r; reflexivity.
Qed.

Lemma is_spike_rule (avg_cost variance cost : Q) :
  0 <= variance ->
  is_spike avg_cost {| radicand := variance |} cost = true
  <-> spike_rule avg_cost variance cost.
Proof.
  intros Hv. unfold is_spike, spike_rule, real_stdev.
  rewrite orb_true_iff, andb_true_iff, Qgtb_gt, surd_pos_real.
  rewrite (gt_plus_two_surd_real cost avg_cost {| radicand := variance |} Hv).
  cbn [radicand]. split; (intros [H|H]; [left; lra | right; exact H]).
Qed.

Lemma recent_window_nil (lookback_days : Z) : recent_window [] lookback_days = [].
Proof. reflexivity. Qed.

(** A ledger no longer than the lookback is its own window. *)
Lemma recent_window_all (usage : list DailyRecord) (lookback_days : Z) :
  (len usage <= lookback_days)%Z -> recent_window usage lookback_days = usage.
Proof.
  intros H. unfold recent_window.
  rewrite forallb_filter_id; [apply enumerate_snd|].
  apply forallb_forall. intros [i r] _. apply Z.leb_le. lia.
Qed.

Lemma detect_anomalies_window (self : CostPredictionEngine)
    (user_id : string) (lookback_days : Z) (usage : list DailyRecord) :
  user_usage self !! user_id = Some usage ->
  (2 <= length (recent_window usage lookback_days))%nat ->
  let recent := recent_window usage lookback_days in
  exists avg_cost variance anomalies,
    statistics_mean (List.map total_cost recent) = Ok avg_cost
    /\ statistics_variance (List.map total_cost recent) = Ok variance
    /\ 0 <= variance
    /\ detect_anomalies self user_id lookback_days = Ok anomalies
    /\ List.filter is_spike_anomaly anomalies
       = List.map (spike_anomaly avg_cost)
           (List.filter
              (fun r => is_spike avg_cost {| radicand := variance |} (total_cost r))
              recent).
Proof.
  intros Hu Hlen recent.
  assert (Hne : usage <> []).
  { intros ->. rewrite recent_window_nil in Hlen. simpl in Hlen. lia. }
  destruct (statistics_variance_ok (List.map total_cost recent))
    as (c & v & Hc & Hvar & Hv).
  { now rewrite length_map. }
  exists c, v.
  destruct (detect_loop_spikes c {| radicand := v |}
              (List.map total_cost recent) (enumerate recent) [])
    as (out & Hout & Hf).
  { intros i r Hi. rewrite length_map. now apply enumerate_in_range in Hi. }
  exists out. repeat split; try assumption.
  - unfold detect_anomalies. rewrite (ledger_some _ _ _ Hu Hne).
    fold recent.
    replace (len recent <? 2)%Z with false
      by (symmetry; apply Z.ltb_ge; unfold len, recent; lia).
    rewrite Hc. cbn [bind].
    unfold window_stdev, statistics_stdev.
    replace (2 <=? len (List.map total_cost recent))%Z with true
      by (symmetry; apply Z.leb_le; rewrite len_map; unfold len, recent; lia).
    rewrite Hvar. cbn [bind]. exact Hout.
  - rewrite Hf, enumerate_snd. reflexivity.
Qed.

End Detector.

Section SpikeDetection.
Import cost_predictor Vocabulary Samples.

Lemma spike_severity (avg_cost : Q) (r : DailyRecord) :
  an_type (spike_anomaly avg_cost r) = SPIKE
  /\ an_date (spike_anomaly avg_cost r) = date r
  /\ (severity (spike_anomaly avg_cost r) = HIGH
      <-> 3 * avg_cost < total_cost r)
  /\ (severity (spike_anomaly avg_cost r) = MEDIUM
      <-> total_cost r <= 3 * avg_cost).
Proof.
  split; [reflexivity|]. split; [reflexivity|].
  cbn [severity spike_anomaly].
  destruct (Qgtb (total_cost r) (avg_cost * 3)) eqn:E.
  - apply Qgtb_gt in E. split; split; intros H; try reflexivity;
      try discriminate; lra.
  - apply Qgtb_le in E. split; split; intros H; try reflexivity;
      try discriminate; lra.
Qed.



End SpikeDetection.

(* ================================================================== *)
(** * The efficiency scorer and the users without history              *)
(* ================================================================== *)

Section Scorer.
Import cost_predictor Vocabulary Samples.

(** The division of the optimization sub-score is guarded by
    [total_cost > 0]: the stage always returns. *)
Lemma optimization_stage_returns (level_usage : dict Q) (total_cost : Q) :
  returns (optimization_stage level_usage total_cost).
Proof.
  unfold optimization_stage, returns.
  destruct (dict_get "aggressive" level_usage) as [agg|]; [|eauto].
  destruct (Qgtb total_cost 0) eqn:E; cbn [bind]; [|eauto].
  apply Qgtb_gt in E. rewrite truediv_ok by lra. cbn [bind]. eauto.
Qed.

(** With no token recorded the sub-score is 50 and the local variable
    [cost_per_token] stays unbound. *)
Lemma cost_per_token_stage_zero (total_cost : Q) :
  cost_per_token_stage total_cost 0 = Ok (50, None).
Proof. reflexivity. Qed.

(** Every non-empty ledger without tokens makes the scorer raise at the
    read of [cost_per_token]. *)
Lemma get_efficiency_score_zero_tokens (self : CostPredictionEngine)
    (user_id : string) (usage : list DailyRecord) :
  user_usage self !! user_id = Some usage -> usage <> [] ->
  sumZ (List.map total_tokens usage) = 0%Z ->
  get_efficiency_score self user_id = Raise (UnboundLocalError "cost_per_token").
Proof.
  intros Hu Hne Hz. unfold get_efficiency_score.
  rewrite (ledger_some _ _ _ Hu Hne), Hz, cost_per_token_stage_zero.
  cbn [bind].
  match goal with
  | |- context [optimization_stage ?lu ?tc] =>
      destruct (optimization_stage_returns lu tc) as [o ->]
  end.
  reflexivity.
Qed.

(** With tokens recorded the scorer returns a record with all five
    fields. *)
Lemma get_efficiency_score_with_tokens (self : CostPredictionEngine)
    (user_id : string) (usage : list DailyRecord) :
  user_usage self !! user_id = Some usage -> usage <> [] ->
  sumZ (List.map total_tokens usage) <> 0%Z ->
  exists r c,
    get_efficiency_score self user_id = Ok r
    /\ cost_per_token r = Some c
    /\ c = sum (List.map total_cost usage)
           / inject_Z (sumZ (List.map total_tokens usage))
    /\ total_tokens_analyzed r = Some (sumZ (List.map total_tokens usage))
    /\ List.map fst (breakdown r)
       = ["cost_per_token"; "optimization_usage"; "trend"].
Proof.
  intros Hu Hne Hz. unfold get_efficiency_score.
  rewrite (ledger_some _ _ _ Hu Hne).
  set (tc := sum (List.map total_cost usage)).
  set (tt := sumZ (List.map total_tokens usage)) in *.
  assert (Hq : ~ inject_Z tt == 0).
  { intros E. apply Hz. unfold Qeq in E. simpl in E. lia. }
  assert (Hs : exists s, cost_per_token_stage tc tt = Ok (s, Some (tc / inject_Z tt))).
  { unfold cost_per_token_stage.
    replace (tt =? 0)%Z with false by (symmetry; now apply Z.eqb_neq).
    rewrite (truediv_ok _ _ Hq). cbn [bind].
    destruct (Qleb (tc / inject_Z tt) (optimal_cost_per_token * 1.5)); [eauto|].
    destruct (Qleb (tc / inject_Z tt) (optimal_cost_per_token * 2)); [eauto|].
    rewrite truediv_ok by (unfold optimal_cost_per_token; lra).
    cbn [bind]. eauto. }
  destruct Hs as [s ->]. cbn [bind].
  match goal with
  | |- context [optimization_stage ?lu ?t] =>
      destruct (optimization_stage_returns lu t) as [o ->]
  end.
  cbn [bind read_local]. eexists _, _. split; [reflexivity|].
  cbn. repeat split; reflexivity.
Qed.

(** C3. A user with one daily record and no recorded token:
    [get_efficiency_score] does not return. The branch
    [total_tokens == 0] sets the sub-score to 50 but leaves the local
    variable [cost_per_token] unbound, and building the returned
    dictionary reads it: the call raises [UnboundLocalError], where the
    specification promises a normal return with the five fields. *)
Theorem get_efficiency_score_zero_tokens_raises :
  get_efficiency_score zero_tokens "alice"
  = Raise (UnboundLocalError "cost_per_token").
Proof. vm_compute. reflexivity. Qed.

(** C7. For a user with no ledger entry, or an empty one,
    [predict_monthly_cost] returns the prediction with every numeric
    field 0 and trend [stable], [detect_anomalies] and
    [recommend_cost_reduction] return the empty list, and
    [get_efficiency_score] returns score 0 with the message
    "Not enough data"; none of them raises. *)
Theorem unknown_user_degrades (self : CostPredictionEngine) (now : Clock)
    (user_id : string) (lookback_days : Z) (by_provider : option (dict Stats)) :
  no_history self user_id ->
  predict_monthly_cost self now user_id
  = Ok {| daily_average := 0; current_period_cost := 0;
          projected_period_end := 0; days_remaining := 0;
          confidence := 0; trend := stable |}
  /\ detect_anomalies self user_id lookback_days = Ok []
  /\ recommend_cost_reduction self user_id by_provider = Ok []
  /\ get_efficiency_score self user_id
     = Ok {| score := 0; message := "Not enough data"; breakdown := [];
             cost_per_token := None; total_tokens_analyzed := None |}.
Proof.
  intros H. apply ledger_none in H.
  unfold predict_monthly_cost, detect_anomalies, recommend_cost_reduction,
    get_efficiency_score.
  rewrite H. repeat split; reflexivity.
Qed.

Lemma unknown_user_degrades_witness :
  detect_anomalies init "nobody" default_lookback_days = Ok []
  /\ recommend_cost_reduction init "nobody" None = Ok [].
Proof.
  destruct (unknown_user_degrades init (october 1) "nobody"
              default_lookback_days None) as (_ & Hd & Hr & _).
  - left. apply lookup_empty.
  - split; assumption.
Defined.

End Scorer.

(* ================================================================== *)
(** * The calibrator                                                   *)
(* ================================================================== *)

Section Calibrator.
Import provider_intelligence ProviderVocabulary ProviderSamples.

Lemma inject_Z_pos_nonzero (n : Z) : (0 < n)%Z -> ~ inject_Z n == 0.
Proof. intros H E. unfold Qeq in E. simpl in E. lia. Qed.

(** Both divisions of the update are guarded: it always returns, and
    this is what it returns. *)
Lemma update_calibration_spec (tokens_estimated tokens_actual : Z) (cost : Q)
    (calib : Calibration) :
  exists c,
    update_calibration tokens_estimated tokens_actual cost calib = Ok c
    /\ sample_count c = (sample_count calib + 1)%Z
    /\ ((0 < tokens_estimated)%Z ->
        token_ratio c
        = alpha * (inject_Z tokens_actual / inject_Z tokens_estimated)
          + (1 - alpha) * token_ratio calib)
    /\ ((tokens_estimated <= 0)%Z -> token_ratio c = token_ratio calib)
    /\ ((0 < tokens_actual)%Z ->
        cost_per_token c = cost / inject_Z tokens_actual)
    /\ ((tokens_actual <= 0)%Z -> cost_per_token c = 0).
Proof.
  unfold update_calibration.
  destruct (0 <? tokens_estimated)%Z eqn:Ee;
    [apply Z.ltb_lt in Ee | apply Z.ltb_ge in Ee];
    (destruct (0 <? tokens_actual)%Z eqn:Ea;
     [apply Z.ltb_lt in Ea | apply Z.ltb_ge in Ea]).
  - rewrite (truediv_ok _ (inject_Z tokens_estimated))
      by now apply inject_Z_pos_nonzero.
    rewrite (truediv_ok _ (inject_Z tokens_actual))
      by now apply inject_Z_pos_nonzero.
    cbn [bind]. eexists. split; [reflexivity|].
    cbn [sample_count token_ratio cost_per_token].
    repeat split; intros; solve [reflexivity | lia].
  - rewrite (truediv_ok _ (inject_Z tokens_estimated))
      by now apply inject_Z_pos_nonzero.
    cbn [bind]. eexists. split; [reflexivity|].
    cbn [sample_count token_ratio cost_per_token].
    repeat split; intros; solve [reflexivity | lia].
  - rewrite (truediv_ok _ (inject_Z tokens_actual))
      by now apply inject_Z_pos_nonzero.
    cbn [bind]. eexists. split; [reflexivity|].
    cbn [sample_count token_ratio cost_per_token].
    repeat split; intros; solve [reflexivity | lia].
  - cbn [bind]. eexists. split; [reflexivity|].
    cbn [sample_count token_ratio cost_per_token].
    repeat split; intros; solve [reflexivity | lia].
Qed.

(** What one enabled call does to the engine. *)
Lemma learn_from_optimization_enabled (self : ProviderIntelligence)
    (now user_id provider text : string) (tokens_estimated tokens_actual : Z)
    (cost : Q) (level : string) :
  learning_enabled self = true ->
  exists self' c,
    learn_from_optimization self now user_id provider text tokens_estimated
                            tokens_actual cost level = Ok self'
    /\ update_calibration tokens_estimated tokens_actual cost
                          (calibration_of self provider) = Ok c
    /\ provider_calibration self' !! provider = Some c
    /\ (forall other, other <> provider ->
          provider_calibration self' !! other
          = provider_calibration self !! other)
    /\ learning_enabled self' = true.
Proof.
  intros E. unfold learn_from_optimization. rewrite E. cbn [negb].
  destruct (update_calibration_spec tokens_estimated tokens_actual cost
              (calibration_of self provider)) as (c & Hc & _).
  unfold calibration_of in Hc. rewrite Hc. cbn [bind].
  eexists _, c. split; [reflexivity|]. split; [exact Hc|].
  cbn [provider_calibration learning_enabled].
  split; [apply lookup_insert_eq|]. split; [|reflexivity].
  intros other Hne. now apply lookup_insert_ne.
Qed.

(** With learning disabled the call changes nothing. *)
Lemma learn_from_optimization_disabled (self : ProviderIntelligence)
    (now user_id provider text : string) (tokens_estimated tokens_actual : Z)
    (cost : Q) (level : string) :
  learning_enabled self = false ->
  learn_from_optimization self now user_id provider text tokens_estimated
                          tokens_actual cost level = Ok self.
Proof. intros E. unfold learn_from_optimization. now rewrite E. Qed.

(** C5. With learning enabled and [tokens_estimated > 0],
    [learn_from_optimization] returns, and the provider's [token_ratio]
    becomes [0.3 * (tokens_actual / tokens_estimated) + 0.7 * old], where
    [old] is its previous value (1.0 for a provider that had no
    calibration record); [cost_per_token] becomes [cost / tokens_actual]
    for a positive [tokens_actual] and 0 when [tokens_actual] is 0. In
    particular the first call for a provider with observed ratio [r]
    gives [0.3 r + 0.7 * 1.0]. Arithmetic is exact. *)
Theorem calibration_update (self : ProviderIntelligence)
    (now user_id provider text : string) (tokens_estimated tokens_actual : Z)
    (cost : Q) (level : string) :
  learning_enabled self = true ->
  (0 < tokens_estimated)%Z ->
  exists self' c,
    learn_from_optimization self now user_id provider text tokens_estimated
                            tokens_actual cost level = Ok self'
    /\ provider_calibration self' !! provider = Some c
    /\ token_ratio c
       == 0.3 * (inject_Z tokens_actual / inject_Z tokens_estimated)
          + 0.7 * token_ratio (calibration_of self provider)
    /\ ((0 < tokens_actual)%Z ->
        cost_per_token c == cost / inject_Z tokens_actual)
    /\ (tokens_actual = 0%Z -> cost_per_token c == 0)
    /\ (provider_calibration self !! provider = None ->
        forall r, r == inject_Z tokens_actual / inject_Z tokens_estimated ->
                  token_ratio c == 0.3 * r + 0.7 * 1.0).
Proof.
  intros E Hpos.
  destruct (learn_from_optimization_enabled self now user_id provider text
              tokens_estimated tokens_actual cost level E)
    as (self' & c & Hl & Hu & Hc & _).
  destruct (update_calibration_spec tokens_estimated tokens_actual cost
              (calibration_of self provider))
    as (c' & Hu' & _ & Hr & _ & Hp & Hz).
  rewrite Hu in Hu'. injection Hu' as <-.
  exists self', c. split; [exact Hl|]. split; [exact Hc|].
  specialize (Hr Hpos).
  split; [|split; [|split]].
  - rewrite Hr. unfold alpha. lra.
  - intros Ha. now rewrite (Hp Ha).
  - intros Ha. rewrite Hz by lia. reflexivity.
  - intros Hnone r Hrr. rewrite Hr. unfold calibration_of. rewrite Hnone.
    cbn [default from_option initial_calibration token_ratio].
    unfold Datatypes.id. rewrite Hrr. unfold alpha. lra.
Qed.

Lemma calibration_update_witness :
  exists self' c,
    learn_from_optimization init "2026-10-01T09:00:00" "alice" "openai"
                            "hello world, hello" 4 6 0.0003 "balanced"
    = Ok self'
    /\ provider_calibration self' !! "openai" = Some c
    /\ token_ratio c == 1.15.
Proof.
  destruct (calibration_update init "2026-10-01T09:00:00" "alice" "openai"
              "hello world, hello" 4 6 0.0003 "balanced")
    as (self' & c & Hl & Hc & Hr & _).
  - reflexivity.
  - lia.
  - exists self', c. split; [exact Hl|]. split; [exact Hc|].
    rewrite Hr. vm_compute. reflexivity.
Defined.

(** C10. With learning enabled and [tokens_estimated = 0],
    [learn_from_optimization] returns and leaves the provider's
    [token_ratio] as it was (1.0 for a provider that had no calibration
    record), while [sample_count] grows by exactly 1 and
    [cost_per_token] is overwritten with [cost / tokens_actual] for a
    positive [tokens_actual] and with 0 when [tokens_actual] is 0; the
    records of the other providers are untouched. *)
Theorem calibration_skips_ratio_only (self : ProviderIntelligence)
    (now user_id provider text : string) (tokens_actual : Z)
    (cost : Q) (level : string) :
  learning_enabled self = true ->
  exists self' c,
    learn_from_optimization self now user_id provider text 0
                            tokens_actual cost level = Ok self'
    /\ provider_calibration self' !! provider = Some c
    /\ token_ratio c = token_ratio (calibration_of self provider)
    /\ sample_count c = (sample_count (calibration_of self provider) + 1)%Z
    /\ ((0 < tokens_actual)%Z ->
        cost_per_token c = cost / inject_Z tokens_actual)
    /\ (tokens_actual = 0%Z -> cost_per_token c = 0)
    /\ (forall other, other <> provider ->
          provider_calibration self' !! other
          = provider_calibration self !! other).
Proof.
  intros E.
  destruct (learn_from_optimization_enabled self now user_id provider text
              0 tokens_actual cost level E)
    as (self' & c & Hl & Hu & Hc & Hframe & _).
  destruct (update_calibration_spec 0 tokens_actual cost
              (calibration_of self provider))
    as (c' & Hu' & Hn & _ & Hr & Hp & Hz).
  rewrite Hu in Hu'. injection Hu' as <-.
  exists self', c. split; [exact Hl|]. split; [exact Hc|].
  split; [apply Hr; lia|]. split; [exact Hn|].
  split; [exact Hp|]. split; [|exact Hframe].
  intros ->. now apply Hz.
Qed.

Lemma calibration_skips_ratio_only_witness :
  exists self' c,
    learn_from_optimization init "2026-10-01T09:00:00" "alice" "openai"
                            "" 0 6 0.0003 "balanced" = Ok self'
    /\ provider_calibration self' !! "openai" = Some c
    /\ token_ratio c = 1 /\ sample_count c = 1%Z.
Proof.
  destruct (calibration_skips_ratio_only init "2026-10-01T09:00:00" "alice"
              "openai" "" 6 0.0003 "balanced")
    as (self' & c & Hl & Hc & Hr & Hn & _).
  - reflexivity.
  - exists self', c. repeat split; assumption.
Defined.

End Calibrator.

(* ================================================================== *)
(** * The provider cost model and the recommender                      *)
(* ================================================================== *)

Section Estimates.
Import provider_intelligence ProviderVocabulary ProviderSamples.

(** Every provider of the table has a default model, and it is one of
    its models. *)
Lemma PROVIDERS_default_model (name : string) (config : ProviderConfig) :
  dict_get name PROVIDERS = Some config ->
  exists m, index (dict_keys (models config)) 0 = Ok m
            /\ dict_mem m (models config) = true.
Proof.
  unfold PROVIDERS. cbn [dict_get]. intros H.
  repeat match type of H with
         | (if ?b then _ else _) = _ =>
             destruct b; [injection H as <-; eexists; split; reflexivity|]
         end.
  discriminate.
Qed.

Lemma text_len_short (text : string) :
  (String.length text < 4)%nat -> (text_len text / 4 = 0)%Z.
Proof. intros H. apply Z.div_small. unfold text_len. lia. Qed.

(** Without calibration, every text shorter than four characters makes
    the estimate raise, for every provider of the table and every model
    of that provider: the estimated token count is 0 and the division
    for [cost_per_1k_tokens] is not guarded. *)
Lemma estimate_provider_tokens_short (self : ProviderIntelligence)
    (text name : string) (config : ProviderConfig) (model : option string) :
  dict_get name PROVIDERS = Some config ->
  (model = None
   \/ exists m, model = Some m /\ dict_mem m (models config) = true) ->
  provider_calibration self !! name = None ->
  (String.length text < 4)%nat ->
  estimate_provider_tokens self text name model = Raise ZeroDivisionError.
Proof.
  intros Hc Hm Hcal Hlen. unfold estimate_provider_tokens.
  rewrite Hc, Hcal, (text_len_short _ Hlen).
  destruct Hm as [->|(m & -> & Hm)].
  - destruct (PROVIDERS_default_model _ _ Hc) as (m & -> & Hm).
    cbn [bind]. rewrite Hm. reflexivity.
  - cbn [bind]. rewrite Hm. reflexivity.
Qed.

(** C2. On the empty text, for the provider [openai] of the static table
    with its default model and no calibration, [estimate_provider_tokens]
    does not return: the estimated token count is 0 and
    [(total_cost * 1000) / (estimated_input_tokens +
    estimated_output_tokens)] divides by it, raising
    [ZeroDivisionError], where the specification says that every
    division is guarded. *)
Theorem estimate_provider_tokens_empty_text_raises :
  estimate_provider_tokens init "" "openai" None = Raise ZeroDivisionError.
Proof. vm_compute. reflexivity. Qed.

End Estimates.

Section Sorting.
Import provider_intelligence ProviderVocabulary.

Lemma map_result_in {A B} (f : A -> Result B) (l : list A) (ys : list B) :
  map_result f l = Ok ys ->
  forall y, In y ys -> exists x, In x l /\ f x = Ok y.
Proof.
  revert ys. induction l as [|a l IH]; intros ys H y Hy.
  - injection H as <-. destruct Hy.
  - cbn [map_result] in H.
    apply bind_ok in H as (b & Hb & H).
    apply bind_ok in H as (bs & Hbs & H). injection H as <-.
    destruct Hy as [<-|Hy].
    + exists a. split; [now left | exact Hb].
    + destruct (IH bs Hbs y Hy) as (x & Hx & Hfx).
      exists x. split; [now right | exact Hfx].
Qed.

Lemma map_result_length {A B} (f : A -> Result B) (l : list A) (ys : list B) :
  map_result f l = Ok ys -> length ys = length l.
Proof.
  revert ys. induction l as [|a l IH]; intros ys H.
  - now injection H as <-.
  - cbn [map_result] in H.
    apply bind_ok in H as (b & Hb & H).
    apply bind_ok in H as (bs & Hbs & H). injection H as <-.
    cbn [length]. now rewrite (IH bs Hbs).
Qed.

Lemma map_result_Forall2 {A B} (R : B -> B -> Prop) (f g : A -> Result B)
    (l : list A) (l1 l2 : list B) :
  (forall a y1 y2, f a = Ok y1 -> g a = Ok y2 -> R y1 y2) ->
  map_result f l = Ok l1 -> map_result g l = Ok l2 -> Forall2 R l1 l2.
Proof.
  intros HR. revert l1 l2.
  induction l as [|a l IH]; intros l1 l2 H1 H2.
  - injection H1 as <-. injection H2 as <-. constructor.
  - cbn [map_result] in H1, H2.
    apply bind_ok in H1 as (b1 & Hb1 & H1).
    apply bind_ok in H1 as (bs1 & Hbs1 & H1). injection H1 as <-.
    apply bind_ok in H2 as (b2 & Hb2 & H2).
    apply bind_ok in H2 as (bs2 & Hbs2 & H2). injection H2 as <-.
    constructor; eauto.
Qed.

Section Insertion.
Context {A : Type}.

Lemma insertion_in (reverse : bool) (x y : Q * A) (l : list (Q * A)) :
  In y (insertion reverse x l) <-> y = x \/ In y l.
Proof.
  destruct reverse; cbn [insertion];
    (induction l as [|z l IH]; cbn [insert_asc insert_desc];
     [ cbn [In]; intuition congruence
     | match goal with |- context [if ?b then _ else _] => destruct b end;
       cbn [In] in *; rewrite ?IH; intuition congruence ]).
Qed.

Lemma insertion_length (reverse : bool) (x : Q * A) (l : list (Q * A)) :
  length (insertion reverse x l) = S (length l).
Proof.
  destruct reverse; cbn [insertion];
    (induction l as [|z l IH]; cbn [insert_asc insert_desc];
     [ reflexivity
     | match goal with |- context [if ?b then _ else _] => destruct b end;
       cbn [length]; rewrite ?IH; reflexivity ]).
Qed.

Lemma insertion_sort_in (reverse : bool) (keyed : list (Q * A)) (y : Q * A) :
  In y (fold_right (insertion reverse) [] keyed) <-> In y keyed.
Proof.
  induction keyed as [|x keyed IH]; cbn [fold_right In]; [tauto|].
  rewrite insertion_in, IH. intuition congruence.
Qed.

Lemma insertion_sort_length (reverse : bool) (keyed : list (Q * A)) :
  length (fold_right (insertion reverse) [] keyed) = length keyed.
Proof.
  induction keyed as [|x keyed IH]; cbn [fold_right length]; [reflexivity|].
  now rewrite insertion_length, IH.
Qed.

(** Two lists with equal keys and related items, position by position,
    are sorted alike. *)
Variable R : A -> A -> Prop.

Lemma insertion_alike (reverse : bool) (x y : Q * A) (l1 l2 : list (Q * A)) :
  keyed_alike R x y -> Forall2 (keyed_alike R) l1 l2 ->
  Forall2 (keyed_alike R) (insertion reverse x l1) (insertion reverse y l2).
Proof.
  intros Hxy H. induction H as [|a b l1 l2 Hab H IH].
  - destruct reverse; cbn; constructor; auto.
  - destruct Hxy as [Hk Hr], Hab as [Hk' Hr'].
    destruct reverse; cbn [insertion insert_asc insert_desc] in *;
      rewrite Hk, Hk';
      match goal with |- context [if ?b then _ else _] => destruct b end;
      repeat constructor; auto.
Qed.

Lemma insertion_sort_alike (reverse : bool) (l1 l2 : list (Q * A)) :
  Forall2 (keyed_alike R) l1 l2 ->
  Forall2 (keyed_alike R) (fold_right (insertion reverse) [] l1)
                      (fold_right (insertion reverse) [] l2).
Proof.
  induction 1; cbn [fold_right]; [constructor|].
  now apply insertion_alike.
Qed.

Lemma sort_by_unfold (reverse : bool) (key : A -> Result Q) (l : list A) :
  sort_by reverse key l
  = (let* keyed := map_result (fun x => let* k := key x in Ok (k, x)) l in
     Ok (List.map snd (fold_right (insertion reverse) [] keyed))).
Proof. unfold sort_by, insertion. destruct reverse; reflexivity. Qed.

Lemma sort_by_in (reverse : bool) (key : A -> Result Q) (l l' : list A) :
  sort_by reverse key l = Ok l' ->
  length l' = length l /\ forall x, In x l' -> In x l.
Proof.
  rewrite sort_by_unfold. intros H.
  apply bind_ok in H as (keyed & Hk & H). injection H as <-. split.
  - rewrite length_map, insertion_sort_length.
    now apply map_result_length in Hk.
  - intros x Hx. apply in_map_iff in Hx as ([k x'] & <- & Hx).
    apply insertion_sort_in in Hx.
    destruct (map_result_in _ _ _ Hk _ Hx) as (a & Ha & Hfa).
    apply bind_ok in Hfa as (k' & _ & Hfa). injection Hfa as _ <-.
    exact Ha.
Qed.

Lemma sort_by_alike (reverse : bool) (key : A -> Result Q)
    (l1 l2 s1 s2 : list A) :
  (forall x y, R x y -> key x = key y) ->
  Forall2 R l1 l2 ->
  sort_by reverse key l1 = Ok s1 -> sort_by reverse key l2 = Ok s2 ->
  Forall2 R s1 s2.
Proof.
  intros Hkey HR. rewrite !sort_by_unfold. intros H1 H2.
  apply bind_ok in H1 as (k1 & Hk1 & H1). injection H1 as <-.
  apply bind_ok in H2 as (k2 & Hk2 & H2). injection H2 as <-.
  assert (Hal : Forall2 (keyed_alike R) k1 k2).
  { clear - Hkey HR Hk1 Hk2. revert k1 k2 Hk1 Hk2.
    induction HR as [|x y l1 l2 Hxy HR IH]; intros k1 k2 Hk1 Hk2.
    - injection Hk1 as <-. injection Hk2 as <-. constructor.
    - cbn [map_result] in Hk1, Hk2.
      apply bind_ok in Hk1 as (p1 & Hp1 & Hk1).
      apply bind_ok in Hk1 as (r1 & Hr1 & Hk1). injection Hk1 as <-.
      apply bind_ok in Hk2 as (p2 & Hp2 & Hk2).
      apply bind_ok in Hk2 as (r2 & Hr2 & Hk2). injection Hk2 as <-.
      constructor; [|now apply IH].
      apply bind_ok in Hp1 as (q1 & Hq1 & Hp1). injection Hp1 as <-.
      apply bind_ok in Hp2 as (q2 & Hq2 & Hp2). injection Hp2 as <-.
      rewrite (Hkey x y Hxy) in Hq1. rewrite Hq1 in Hq2. injection Hq2 as <-.
      split; [reflexivity | exact Hxy]. }
  apply insertion_sort_alike with (reverse := reverse) in Hal.
  clear - Hal. induction Hal as [|p q l1 l2 [_ Hr] _ IH]; cbn [List.map];
    constructor; auto.
Qed.

End Insertion.
End Sorting.

Section Recommender.
Import provider_intelligence ProviderVocabulary ProviderSamples.

(** The affordability gate of [_calculate_rank]. *)
Lemma _calculate_rank_over_budget (estimate : Estimate)
    (preferences : Preferences) (r : Q) :
  _calculate_rank estimate preferences = Ok r ->
  get_budget_limit preferences < e_cost_usd estimate -> r = 0.
Proof.
  unfold _calculate_rank. intros H Hb. apply Qgtb_gt in Hb.
  rewrite Hb in H. now injection H.
Qed.

(** The badge looks at the priority only. *)
Lemma _get_recommendation_badge_priority (estimate : Estimate)
    (p1 p2 : Preferences) :
  get_priority p1 = get_priority p2 ->
  _get_recommendation_badge estimate p1 = _get_recommendation_badge estimate p2.
Proof. intros H. unfold _get_recommendation_badge. now rewrite H. Qed.

(** What one entry is made of. *)
Lemma recommend_one_ok (self : ProviderIntelligence) (text : string)
    (preferences : Preferences) (name : string) (x : ProviderRecommendation) :
  recommend_one self text preferences name = Ok x ->
  exists estimate badge,
    estimate_provider_tokens self text name None = Ok estimate
    /\ _get_recommendation_badge estimate preferences = Ok badge
    /\ _calculate_rank estimate preferences = Ok (rank x)
    /\ cost_usd x = e_cost_usd estimate
    /\ without_rank x
       = (e_provider estimate, e_model estimate, total_tokens estimate,
          e_cost_usd estimate, e_tokens_per_dollar estimate,
          e_cost_per_1k_tokens estimate,
          _calculate_optimization_potential estimate, badge).
Proof.
  unfold recommend_one. intros H.
  apply bind_ok in H as (estimate & He & H).
  apply bind_ok in H as (badge & Hb & H).
  apply bind_ok in H as (r & Hr & H). injection H as <-.
  exists estimate, badge. repeat split; assumption.
Qed.

Lemma recommend_one_alike (self : ProviderIntelligence) (text : string)
    (p1 p2 : Preferences) (name : string) (x1 x2 : ProviderRecommendation) :
  get_priority p1 = get_priority p2 ->
  recommend_one self text p1 name = Ok x1 ->
  recommend_one self text p2 name = Ok x2 ->
  without_rank x1 = without_rank x2.
Proof.
  intros Hp H1 H2.
  apply recommend_one_ok in H1 as (e1 & b1 & He1 & Hb1 & _ & _ & ->).
  apply recommend_one_ok in H2 as (e2 & b2 & He2 & Hb2 & _ & _ & ->).
  rewrite He1 in He2. injection He2 as <-.
  rewrite (_get_recommendation_badge_priority e1 p1 p2 Hp), Hb2 in Hb1.
  now injection Hb1 as <-.
Qed.

(** The three stages of [get_provider_recommendations]. *)
Lemma get_provider_recommendations_ok (self : ProviderIntelligence)
    (text : string) (user_preferences : option Preferences)
    (recs : list ProviderRecommendation) :
  get_provider_recommendations self text user_preferences = Ok recs ->
  exists recommendations reverse key sorted,
    map_result (recommend_one self text (effective user_preferences))
               (dict_keys PROVIDERS) = Ok recommendations
    /\ sort_by reverse key recommendations = Ok sorted
    /\ recs = firstn 3 sorted
    /\ (forall x y, without_rank x = without_rank y -> key x = key y)
    /\ (forall other,
          get_priority (effective other)
          = get_priority (effective user_preferences) ->
          get_provider_recommendations self text other
          = (let* recommendations' :=
               map_result (recommend_one self text (effective other))
                          (dict_keys PROVIDERS) in
             let* sorted' := sort_by reverse key recommendations' in
             Ok (firstn 3 sorted'))).
Proof.
  unfold get_provider_recommendations. fold (effective user_preferences).
  intros H. apply bind_ok in H as (recommendations & Hm & H).
  apply bind_ok in H as (sorted & Hs & H). injection H as <-.
  exists recommendations.
  destruct (String.eqb (get_priority (effective user_preferences)) "cost")
    eqn:E1;
  [|destruct (String.eqb (get_priority (effective user_preferences)) "speed")
      eqn:E2;
    [|destruct (String.eqb (get_priority (effective user_preferences)) "quality")
        eqn:E3]];
  eexists _, _, sorted;
  (split; [exact Hm|]); (split; [exact Hs|]); (split; [reflexivity|]);
  (split;
   [ intros x y Hxy; unfold without_rank in Hxy; injection Hxy as;
     congruence
   | intros other Ho; unfold get_provider_recommendations;
     fold (effective other); rewrite Ho, ?E1, ?E2, ?E3; reflexivity ]).
Qed.

Lemma Forall2_without_rank (l1 l2 : list ProviderRecommendation) :
  Forall2 (fun x y => without_rank x = without_rank y) l1 l2 ->
  List.map without_rank l1 = List.map without_rank l2.
Proof. induction 1; cbn [List.map]; congruence. Qed.

(** C6. Whenever [get_provider_recommendations] returns, it returns
    three entries, and every returned entry whose [cost_usd] exceeds the
    budget limit in force has [rank] 0. The gate does not remove
    entries: two calls that differ in the budget limit only return the
    same entries in the same order, up to the [rank] field; and an
    over-budget entry does occur in a returned list (a text of 4000
    characters, priority speed, budget 0.0001). *)
Theorem affordability_gate :
  (forall (self : ProviderIntelligence) (text : string)
          (user_preferences : option Preferences)
          (recs : list ProviderRecommendation),
     get_provider_recommendations self text user_preferences = Ok recs ->
     length recs = 3%nat
     /\ forall x, In x recs ->
          get_budget_limit (effective user_preferences) < cost_usd x ->
          rank x = 0)
  /\ (forall (self : ProviderIntelligence) (text : string)
             (p1 p2 : option Preferences)
             (recs1 recs2 : list ProviderRecommendation),
        get_priority (effective p1) = get_priority (effective p2) ->
        get_provider_recommendations self text p1 = Ok recs1 ->
        get_provider_recommendations self text p2 = Ok recs2 ->
        List.map without_rank recs1 = List.map without_rank recs2)
  /\ (exists recs x,
        get_provider_recommendations init long_text (Some tight_budget)
        = Ok recs
        /\ In x recs
        /\ get_budget_limit tight_budget < cost_usd x
        /\ rank x = 0).
Proof.
  split; [|split].
  - intros self text user_preferences recs H.
    apply get_provider_recommendations_ok in H
      as (recommendations & reverse & key & sorted & Hm & Hs & -> & _).
    destruct (sort_by_in reverse key recommendations sorted Hs) as [Hlen Hin].
    split.
    + rewrite length_firstn, Hlen, (map_result_length _ _ _ Hm). reflexivity.
    + intros x Hx Hb.
      apply in_firstn, Hin in Hx.
      destruct (map_result_in _ _ _ Hm x Hx) as (name & _ & Hone).
      apply recommend_one_ok in Hone as (e & b & _ & _ & Hr & Hc & _).
      rewrite Hc in Hb. exact (_calculate_rank_over_budget _ _ _ Hr Hb).
  - intros self text p1 p2 recs1 recs2 Hp H1 H2.
    apply get_provider_recommendations_ok in H1
      as (l1 & reverse & key & s1 & Hm1 & Hs1 & -> & Hkey & Hother).
    rewrite (Hother p2 (eq_sym Hp)) in H2.
    apply bind_ok in H2 as (l2 & Hm2 & H2).
    apply bind_ok in H2 as (s2 & Hs2 & H2). injection H2 as <-.
    rewrite <- !firstn_map. f_equal. apply Forall2_without_rank.
    apply (sort_by_alike _ reverse key l1 l2 s1 s2 Hkey); [|exact Hs1|exact Hs2].
    apply (map_result_Forall2 _ _ _ _ _ _
             (fun name x1 x2 => recommend_one_alike self text _ _ name x1 x2 Hp)
             Hm1 Hm2).
  - eexists _, _. split; [vm_compute; reflexivity|].
    split; [left; reflexivity|]. split; vm_compute; reflexivity.
Qed.

Lemma affordability_gate_witness :
  exists recs,
    get_provider_recommendations init long_text (Some tight_budget) = Ok recs
    /\ length recs = 3%nat
    /\ forall x, In x recs -> get_budget_limit tight_budget < cost_usd x ->
                 rank x = 0.
Proof.
  eexists. split; [vm_compute; reflexivity|].
  apply (proj1 affordability_gate init long_text (Some tight_budget)).
  vm_compute. reflexivity.
Defined.

End Recommender.

(* ================================================================== *)
(** * More on the usage ledger                                         *)
(* ================================================================== *)

Section LedgerShape.
Import cost_predictor Vocabulary Samples LedgerVocabulary.

Lemma find_record_none_dates (d : string) (usage : list DailyRecord) :
  find_record d usage = None -> ~ In d (List.map date usage).
Proof.
  unfold find_record. induction usage as [|r usage IH]; cbn [find List.map In].
  - tauto.
  - destruct (String.eqb (date r) d) eqn:E; [discriminate|].
    apply String.eqb_neq in E. intros H [H'|H']; [congruence|].
    now apply IH.
Qed.

Lemma find_record_some_date (d : string) (usage : list DailyRecord)
    (r : DailyRecord) :
  find_record d usage = Some r -> In r usage /\ date r = d.
Proof.
  unfold find_record. intros H. apply find_some in H as [H1 H2].
  split; [exact H1 | now apply String.eqb_eq].
Qed.

(** The dates of a ledger after a step: the same ones, in the same
    places, with the new day appended when it had no record. *)
Lemma ledger_step_dates (d : string) (upd : DailyRecord -> DailyRecord)
    (usage : list DailyRecord) :
  (forall r, date (upd r) = date r) ->
  List.map date (ledger_step d upd usage)
  = List.map date usage
    ++ match find_record d usage with Some _ => [] | None => [d] end.
Proof.
  intros Hupd. unfold find_record.
  induction usage as [|r usage IH].
  - rewrite ledger_step_nil. cbn [List.map find app]. now rewrite Hupd.
  - rewrite ledger_step_cons. cbn [find].
    destruct (String.eqb (date r) d); cbn [List.map].
    + now rewrite Hupd, app_nil_r.
    + now rewrite IH.
Qed.

Lemma record_usage_dates_unique (self : CostPredictionEngine) (c : Call) :
  dates_unique self -> dates_unique (apply_call self c).
Proof.
  intros Hinv. unfold apply_call.
  destruct (learning_enabled self) eqn:E.
  2: { now rewrite record_usage_disabled. }
  intros u usage Hu. rewrite record_usage_enabled in Hu by exact E.
  destruct (decide (c_user c = u)) as [<-|Hne].
  - rewrite lookup_insert_eq in Hu. injection Hu as <-.
    rewrite ledger_step_dates by auto using update_record_date.
    assert (Hold : NoDup (List.map date (default [] (user_usage self !! c_user c)))).
    { destruct (user_usage self !! c_user c) as [l|] eqn:El.
      - exact (Hinv _ l El).
      - constructor. }
    destruct (find_record _ _) eqn:Ef.
    + now rewrite app_nil_r.
    + apply NoDup_app. split; [exact Hold|]. split.
      * intros x Hx Hx'. apply list_elem_of_In in Hx, Hx'.
        destruct Hx' as [<-|[]].
        now apply find_record_none_dates in Ef.
      * repeat constructor. intros H. apply list_elem_of_In in H. destruct H.
  - rewrite lookup_insert_ne in Hu by exact Hne. exact (Hinv u usage Hu).
Qed.

(** X1. Starting from a new engine, whatever calls of [record_usage]
    are made, in whatever order and on whatever dates the clock shows,
    no user's ledger ever holds two records with the same date. *)
Theorem one_record_per_day (calls : list Call) :
  dates_unique (replay init calls).
Proof.
  assert (H : forall self, dates_unique self -> dates_unique (replay self calls)).
  { induction calls as [|c calls IH]; intros self Hs; [exact Hs|].
    unfold replay in *. cbn [fold_left]. apply IH.
    now apply record_usage_dates_unique. }
  apply H. intros u usage Hu. cbn in Hu. now rewrite lookup_empty in Hu.
Qed.

End LedgerShape.

Section LedgerFrame.
Import cost_predictor Vocabulary Samples LedgerVocabulary.

(** X2. One enabled call of [record_usage] touches one record only: the
    ledgers of the other users and the records of the same user for
    other days are unchanged, the dates already in the user's ledger
    keep their places, and the day of the call is appended at the end
    exactly when it had no record yet. *)
Theorem record_usage_touches_one_day (self : CostPredictionEngine) (c : Call) :
  learning_enabled self = true ->
  (forall u, u <> c_user c ->
     user_usage (apply_call self c) !! u = user_usage self !! u)
  /\ (forall d, d <> today (c_now c) ->
        day_record (apply_call self c) (c_user c) d
        = day_record self (c_user c) d)
  /\ List.map date (after_call self c)
     = List.map date (ledger_of self (c_user c))
       ++ match day_record self (c_user c) (today (c_now c)) with
          | Some _ => []
          | None => [today (c_now c)]
          end.
Proof.
  intros E. split; [|split].
  - intros u Hu. unfold apply_call. rewrite record_usage_enabled by exact E.
    now rewrite lookup_insert_ne.
  - intros d Hd. rewrite day_record_apply_call by exact E.
    rewrite String.eqb_refl. cbn [andb].
    replace (String.eqb (today (c_now c)) d) with false; [reflexivity|].
    symmetry. apply String.eqb_neq. congruence.
  - unfold after_call, ledger_of, apply_call, day_record.
    rewrite record_usage_enabled by exact E. rewrite lookup_insert_eq.
    cbn [default from_option]. unfold Datatypes.id.
    apply ledger_step_dates. auto using update_record_date.
Qed.

Lemma record_usage_touches_one_day_witness :
  List.map date (after_call three_days
                   {| c_user := "alice"; c_now := october 2;
                      c_provider := "groq"; c_tokens := 10; c_cost := 1;
                      c_level := "aggressive" |})
  = List.map date (ledger_of three_days "alice") ++ [].
Proof.
  refine (proj2 (proj2 (record_usage_touches_one_day three_days
            {| c_user := "alice"; c_now := october 2;
               c_provider := "groq"; c_tokens := 10; c_cost := 1;
               c_level := "aggressive" |} _))).
  reflexivity.
Defined.

Lemma fold_update_requests (calls : list Call) (r : DailyRecord) :
  let r' := fold_left (fun r c => update_of c r) calls r in
  requests r' = requests r ++ List.map request_of calls /\ date r' = date r.
Proof.
  revert r. induction calls as [|c calls IH]; intros r; cbn [fold_left List.map].
  - now rewrite app_nil_r.
  - destruct (IH (update_of c r)) as [H1 H2]. split.
    + rewrite H1. unfold update_of at 1. cbn [update_record requests].
      now rewrite <- app_assoc.
    + now rewrite H2.
Qed.

(** X3. The record of a day lists the requests of that user and day in
    the order of their arrival, each with the timestamp, provider, token
    count, cost and level of its call; calls of other users or days,
    interleaved at will, leave no trace in it. *)
Theorem requests_in_arrival_order (self : CostPredictionEngine)
    (calls : list Call) (user_id d : string) :
  learning_enabled self = true ->
  day_record self user_id d = None ->
  calls_on user_id d calls <> [] ->
  exists r,
    day_record (replay self calls) user_id d = Some r
    /\ date r = d
    /\ requests r = List.map request_of (calls_on user_id d calls).
Proof.
  intros E Hnone Hne.
  rewrite (day_record_replay calls self user_id d E), Hnone.
  destruct (calls_on user_id d calls) as [|c cs]; [congruence|].
  unfold run_updates. cbn [fold_left default from_option].
  fold (run_updates d cs (Some (update_of c (new_record d)))).
  rewrite run_updates_some.
  change (fold_left (fun r c0 => update_of c0 r) cs (update_of c (new_record d)))
    with (fold_left (fun r c0 => update_of c0 r) (c :: cs) (new_record d)).
  destruct (fold_update_requests (c :: cs) (new_record d)) as [H1 H2].
  eexists. split; [reflexivity|]. split; [exact H2 | exact H1].
Qed.

Lemma requests_in_arrival_order_witness :
  exists r,
    day_record (replay init same_day_calls) "alice" "2026-10-01" = Some r
    /\ date r = "2026-10-01"
    /\ requests r
       = List.map request_of (calls_on "alice" "2026-10-01" same_day_calls).
Proof.
  apply (requests_in_arrival_order init same_day_calls "alice" "2026-10-01").
  - reflexivity.
  - vm_compute. reflexivity.
  - vm_compute. discriminate.
Defined.

(** X4. With learning disabled, no sequence of [record_usage] calls
    changes the engine: nothing is recorded and nothing is created. *)
Theorem replay_disabled (self : CostPredictionEngine) (calls : list Call) :
  learning_enabled self = false -> replay self calls = self.
Proof.
  intros E. induction calls as [|c calls IH]; [reflexivity|].
  unfold replay in *. cbn [fold_left]. unfold apply_call at 2.
  now rewrite record_usage_disabled.
Qed.

Lemma replay_disabled_witness :
  replay {| user_usage := ∅; learning_enabled := false |} same_day_calls
  = {| user_usage := ∅; learning_enabled := false |}.
Proof.
  apply (replay_disabled {| user_usage := ∅; learning_enabled := false |}).
  reflexivity.
Defined.

End LedgerFrame.

(* ================================================================== *)
(** * Rounding and truncation                                          *)
(* ================================================================== *)

Section Rounding.

Lemma floor_bounds (x : Q) :
  inject_Z (Qfloor x) <= x /\ x < inject_Z (Qfloor x) + 1.
Proof.
  split; [apply Qfloor_le|].
  assert (H := Qlt_floor x). rewrite inject_Z_plus in H. exact H.
Qed.

(** The rounded value is the floor or the next integer. *)
Lemma round_half_even_cases (x : Q) :
  (round_half_even x = Qfloor x /\ x - inject_Z (Qfloor x) <= 1 # 2)
  \/ (round_half_even x = (Qfloor x + 1)%Z /\ 1 # 2 <= x - inject_Z (Qfloor x)).
Proof.
  unfold round_half_even.
  destruct (Qltb (x - inject_Z (Qfloor x)) (1 # 2)) eqn:E1.
  - left. apply Qltb_lt in E1. split; [reflexivity | lra].
  - apply Qltb_ge in E1.
    destruct (Qltb (1 # 2) (x - inject_Z (Qfloor x))) eqn:E2.
    + right. split; [reflexivity | exact E1].
    + apply Qltb_ge in E2. destruct (Z.even (Qfloor x)).
      * left. split; [reflexivity | exact E2].
      * right. split; [reflexivity | exact E1].
Qed.

Lemma round_half_even_mono (x y : Q) :
  x <= y -> (round_half_even x <= round_half_even y)%Z.
Proof.
  intros Hxy.
  assert (Hf := Qfloor_resp_le _ _ Hxy).
  destruct (floor_bounds x) as [Hx1 Hx2], (floor_bounds y) as [Hy1 Hy2].
  destruct (Z.eq_dec (Qfloor x) (Qfloor y)) as [Heq|Hne].
  - unfold round_half_even. rewrite <- Heq in *.
    set (a := Qfloor x) in *.
    destruct (Qltb (x - inject_Z a) (1 # 2)) eqn:Ex1;
      destruct (Qltb (y - inject_Z a) (1 # 2)) eqn:Ey1;
      destruct (Qltb (1 # 2) (x - inject_Z a)) eqn:Ex2;
      destruct (Qltb (1 # 2) (y - inject_Z a)) eqn:Ey2;
      destruct (Z.even a);
      try lia;
      repeat match goal with
             | H : Qltb _ _ = true |- _ => apply Qltb_lt in H
             | H : Qltb _ _ = false |- _ => apply Qltb_ge in H
             end; exfalso; lra.
  - destruct (round_half_even_cases x) as [[-> _]|[-> _]],
             (round_half_even_cases y) as [[-> _]|[-> _]]; lia.
Qed.

Lemma pow10_pos (n : nat) : 0 < inject_Z (10 ^ Z.of_nat n).
Proof.
  change 0 with (inject_Z 0). rewrite <- Zlt_Qlt.
  apply Z.pow_pos_nonneg; lia.
Qed.

(** [round] is monotone. *)
Lemma round_mono (x y : Q) (ndigits : nat) :
  x <= y -> round x ndigits <= round y ndigits.
Proof.
  intros H. unfold round.
  assert (Hs := pow10_pos ndigits).
  set (s := inject_Z (10 ^ Z.of_nat ndigits)) in *.
  assert (Hm : (round_half_even (x * s) <= round_half_even (y * s))%Z).
  { apply round_half_even_mono. nra. }
  rewrite Zle_Qle in Hm.
  apply Qle_shift_div_l; [exact Hs|].
  unfold Qdiv. rewrite <- Qmult_assoc, (Qmult_comm (/ s)), Qmult_inv_r by lra.
  lra.
Qed.

Lemma round_zero (ndigits : nat) : round 0 ndigits == 0.
Proof.
  unfold round.
  change (0 * inject_Z (10 ^ Z.of_nat ndigits)) with (0 # 1).
  change (round_half_even 0) with 0%Z. unfold Qdiv. apply Qmult_0_l.
Qed.

Lemma round_nonneg (x : Q) (ndigits : nat) : 0 <= x -> 0 <= round x ndigits.
Proof. intros H. rewrite <- (round_zero ndigits). now apply round_mono. Qed.

(** [round] respects equality of numbers. *)
Lemma round_comp (x y : Q) (ndigits : nat) :
  x == y -> round x ndigits == round y ndigits.
Proof.
  intros H. apply Qle_antisym; apply round_mono; rewrite H; apply Qle_refl.
Qed.

(** On non-negative numbers [int] is the floor. *)
Lemma int_nonneg_floor (x : Q) : 0 <= x -> int x = Qfloor x.
Proof.
  intros H. destruct x as [n d]. unfold int, Qfloor. cbn [Qnum Qden].
  apply Z.quot_div_nonneg; [|lia].
  unfold Qle in H. simpl in H. lia.
Qed.

Lemma int_mono_nonneg (x y : Q) : 0 <= x -> x <= y -> (int x <= int y)%Z.
Proof.
  intros Hx Hxy. rewrite !int_nonneg_floor by lra.
  now apply Qfloor_resp_le.
Qed.

Lemma int_nonneg (x : Q) : 0 <= x -> (0 <= int x)%Z.
Proof.
  intros H. rewrite int_nonneg_floor by exact H.
  change 0%Z with (Qfloor 0). now apply Qfloor_resp_le.
Qed.

Lemma int_le_self (x : Q) : 0 <= x -> inject_Z (int x) <= x.
Proof. intros H. rewrite int_nonneg_floor by exact H. apply Qfloor_le. Qed.

Lemma int_nonpos (x : Q) : x <= 0 -> (int x <= 0)%Z.
Proof.
  intros H. destruct x as [n d]. unfold int. cbn [Qnum Qden].
  unfold Qle in H. simpl in H.
  assert (Hn : (n <= 0)%Z) by lia.
  rewrite <- (Z.opp_involutive n), Z.quot_opp_l by lia.
  assert (0 <= Z.quot (- n) (Z.pos d))%Z by (apply Z.quot_pos; lia).
  lia.
Qed.

(** An integer below a number is below its truncation. *)
Lemma int_lower (x : Q) (n : Z) : inject_Z n <= x -> 0 <= x -> (n <= int x)%Z.
Proof.
  intros H Hx. rewrite int_nonneg_floor by exact Hx.
  rewrite <- (Qfloor_Z n). now apply Qfloor_resp_le.
Qed.

End Rounding.

(* ================================================================== *)
(** * More on the forecaster                                           *)
(* ================================================================== *)

Section ForecastAmounts.
Import cost_predictor Vocabulary Samples ForecastVocabulary.

Lemma period_cost_sum (d : string) (usage : list DailyRecord) (acc : Q) :
  fold_left (fun acc record =>
               if String.leb (date record) d
               then acc + total_cost record else acc) usage acc
  == acc + sum (List.map total_cost (dated_up_to d usage)).
Proof.
  revert acc. unfold dated_up_to.
  induction usage as [|r usage IH]; intros acc; cbn [fold_left List.filter].
  - change (sum (List.map total_cost [])) with 0. lra.
  - rewrite IH. destruct (String.leb (date r) d); cbn [List.map].
    + rewrite sum_cons. lra.
    + lra.
Qed.

(** The three amounts of a returned prediction, before rounding. *)
Lemma predict_monthly_cost_amounts (self : CostPredictionEngine) (now : Clock)
    (user_id : string) (usage : list DailyRecord) (p : CostPrediction) :
  user_usage self !! user_id = Some usage -> usage <> [] ->
  predict_monthly_cost self now user_id = Ok p ->
  exists avg cur,
    avg = sum (List.map total_cost usage) / inject_Z (len usage)
    /\ cur == sum (List.map total_cost (dated_up_to (today now) usage))
    /\ daily_average p = round avg 2
    /\ current_period_cost p = round cur 2
    /\ projected_period_end p
       = round (cur + avg * inject_Z (days_in_month (month now) - day now)) 2
    /\ days_remaining p = (days_in_month (month now) - day now)%Z.
Proof.
  intros Hu Hne H. unfold predict_monthly_cost in H.
  rewrite (ledger_some _ _ _ Hu Hne) in H.
  rewrite <- (len_map total_cost usage).
  assert (Hc : List.map total_cost usage <> [])
    by (destruct usage; simpl; congruence).
  destruct (List.map total_cost usage) as [|c cs] eqn:Ec; [congruence|].
  cbn [statistics_mean bind] in H.
  apply bind_ok in H as (t & Ht & H). injection H as <-.
  eexists _, _. split; [reflexivity|].
  split; [|repeat split; reflexivity].
  rewrite period_cost_sum. lra.
Qed.

Lemma mean_nonneg (usage : list DailyRecord) :
  costs_nonneg usage -> usage <> [] ->
  0 <= sum (List.map total_cost usage) / inject_Z (len usage).
Proof.
  intros Hn Hne. apply Qle_shift_div_l.
  - change 0 with (inject_Z 0). rewrite <- Zlt_Qlt. unfold len.
    destruct usage; [congruence | simpl; lia].
  - rewrite Qmult_0_l. apply sum_nonneg.
    apply List.Forall_forall. intros y Hy.
    apply in_map_iff in Hy as (r & <- & Hr).
    unfold costs_nonneg in Hn. rewrite List.Forall_forall in Hn. now apply Hn.
Qed.

Lemma dated_up_to_nonneg (d : string) (usage : list DailyRecord) :
  costs_nonneg usage ->
  0 <= sum (List.map total_cost (dated_up_to d usage)).
Proof.
  intros Hn. apply sum_nonneg. apply List.Forall_forall. intros y Hy.
  apply in_map_iff in Hy as (r & <- & Hr).
  unfold dated_up_to in Hr. apply filter_In in Hr as [Hr _].
  unfold costs_nonneg in Hn. rewrite List.Forall_forall in Hn. now apply Hn.
Qed.

(** X5. The amounts of a returned prediction: [daily_average] is the
    mean of the costs of all records, rounded to cents, whereas
    [current_period_cost] is the rounded sum over the records dated up
    to today only (ISO dates compared as strings): a record dated after
    today counts in the average and not in the cost so far. *)
Theorem prediction_amounts (self : CostPredictionEngine) (now : Clock)
    (user_id : string) (usage : list DailyRecord) (p : CostPrediction) :
  user_usage self !! user_id = Some usage -> usage <> [] ->
  predict_monthly_cost self now user_id = Ok p ->
  daily_average p
  == round (sum (List.map total_cost usage) / inject_Z (len usage)) 2
  /\ current_period_cost p
     == round (sum (List.map total_cost (dated_up_to (today now) usage))) 2.
Proof.
  intros Hu Hne Hp.
  destruct (predict_monthly_cost_amounts _ _ _ _ _ Hu Hne Hp)
    as (avg & cur & -> & Hcur & -> & -> & _).
  split; [reflexivity | now apply round_comp].
Qed.

Lemma prediction_amounts_witness :
  exists p,
    predict_monthly_cost eight_days (october 4) "alice" = Ok p
    /\ daily_average p == 8.75 /\ current_period_cost p == 20.
Proof.
  eexists. split; [vm_compute; reflexivity|].
  match goal with
  | |- daily_average ?p == _ /\ _ =>
      destruct (prediction_amounts eight_days (october 4) "alice"
                  (ledger_of eight_days "alice") p) as [H1 H2]
  end.
  - vm_compute. reflexivity.
  - vm_compute. discriminate.
  - vm_compute. reflexivity.
  - split; [rewrite H1 | rewrite H2]; vm_compute; reflexivity.
Defined.

End ForecastAmounts.

Section Calendar.
Import cost_predictor Vocabulary Samples ForecastVocabulary.

Lemma days_in_month_calendar (leap : bool) (m : Z) :
  (1 <= m <= 12)%Z ->
  days_in_month m
  = (calendar_days leap m - (if leap && (m =? 2)%Z then 1 else 0))%Z.
Proof.
  intros H.
  assert (Hc : (m = 1 \/ m = 2 \/ m = 3 \/ m = 4 \/ m = 5 \/ m = 6 \/ m = 7
                \/ m = 8 \/ m = 9 \/ m = 10 \/ m = 11 \/ m = 12)%Z) by lia.
  repeat (destruct Hc as [->|Hc]); try subst m; destruct leap; reflexivity.
Qed.

Lemma calendar_days_bounds (leap : bool) (m : Z) :
  (28 <= calendar_days leap m <= 31)%Z.
Proof.
  unfold calendar_days.
  destruct (m =? 2)%Z; [destruct leap; lia|].
  destruct (existsb (Z.eqb m) [4; 6; 9; 11]%Z); lia.
Qed.

(** X6. [days_remaining] is the number of days left in the month, one
    short all through a leap February because the month is taken as 28
    days: it is negative exactly on the 29th of February. With
    non-negative costs the projection is at least the cost so far as
    long as [days_remaining] is not negative, and at most the cost so
    far on the 29th of February. *)
Theorem projection_and_calendar (self : CostPredictionEngine) (now : Clock)
    (user_id : string) (usage : list DailyRecord) (p : CostPrediction)
    (leap : bool) :
  user_usage self !! user_id = Some usage -> usage <> [] ->
  predict_monthly_cost self now user_id = Ok p ->
  valid_date leap (month now) (day now) ->
  days_remaining p
  = (calendar_days leap (month now) - day now
     - (if leap && (month now =? 2)%Z then 1 else 0))%Z
  /\ ((days_remaining p < 0)%Z <-> month now = 2%Z /\ day now = 29%Z)
  /\ (costs_nonneg usage -> (0 <= days_remaining p)%Z ->
      current_period_cost p <= projected_period_end p)
  /\ (costs_nonneg usage -> (days_remaining p < 0)%Z ->
      projected_period_end p <= current_period_cost p).
Proof.
  intros Hu Hne Hp [Hm Hd].
  destruct (predict_monthly_cost_amounts _ _ _ _ _ Hu Hne Hp)
    as (avg & cur & Havg & Hcur & _ & -> & -> & ->).
  rewrite (days_in_month_calendar leap _ Hm).
  assert (Hb := calendar_days_bounds leap (month now)).
  split; [lia|]. split; [|split].
  - unfold calendar_days in *.
    destruct (month now =? 2)%Z eqn:E2.
    + apply Z.eqb_eq in E2. destruct leap; cbn [andb] in *; lia.
    + apply Z.eqb_neq in E2. rewrite andb_false_r.
      destruct (existsb (Z.eqb (month now)) [4; 6; 9; 11]%Z); lia.
  - intros Hn Hdr. apply round_mono.
    assert (Ha : 0 <= avg) by (subst avg; now apply mean_nonneg).
    rewrite Zle_Qle in Hdr. change (inject_Z 0) with 0 in Hdr. nra.
  - intros Hn Hdr. apply round_mono.
    assert (Ha : 0 <= avg) by (subst avg; now apply mean_nonneg).
    apply Z.lt_le_incl in Hdr. rewrite Zle_Qle in Hdr.
    change (inject_Z 0) with 0 in Hdr. nra.
Qed.

Lemma projection_and_calendar_witness :
  exists p,
    predict_monthly_cost eight_days
      {| today := "2028-02-29"; timestamp := "2028-02-29T12:00:00";
         month := 2; day := 29 |} "alice" = Ok p
    /\ days_remaining p = (-1)%Z.
Proof.
  eexists. split; [vm_compute; reflexivity|].
  match goal with
  | |- days_remaining ?p = _ =>
      destruct (projection_and_calendar eight_days
                  {| today := "2028-02-29"; timestamp := "2028-02-29T12:00:00";
                     month := 2; day := 29 |} "alice"
                  (ledger_of eight_days "alice") p true) as [H _]
  end.
  - vm_compute. reflexivity.
  - vm_compute. discriminate.
  - vm_compute. reflexivity.
  - split; vm_compute; split; discriminate.
  - rewrite H. reflexivity.
Defined.

End Calendar.

(* ================================================================== *)
(** * More on the anomaly detector                                     *)
(* ================================================================== *)

Section Window.
Import cost_predictor Vocabulary Samples.

Lemma list_index_spec {A} (eqb : A -> A -> bool) (x : A) (l : list A) (j : nat) :
  list_index eqb x l = Ok j ->
  exists y, l !! j = Some y /\ eqb y x = true.
Proof.
  revert j. induction l as [|y l IH]; intros j H; cbn [list_index] in H.
  - discriminate.
  - destruct (eqb y x) eqn:E.
    + injection H as <-. exists y. now split.
    + apply bind_ok in H as (i & Hi & H). injection H as <-.
      destruct (IH i Hi) as (z & Hz & Ez). exists z. now split.
Qed.

Lemma index_of_member_le {A} (eqb : A -> A -> bool) (l : list A) (k : nat)
    (x : A) :
  (index_of_member eqb l k x <= k)%nat.
Proof.
  unfold index_of_member.
  destruct (list_index eqb x (firstn k l)) as [j|e] eqn:E; [|lia].
  apply list_index_spec in E as (y & Hy & _).
  apply lookup_lt_Some in Hy. rewrite length_firstn in Hy. lia.
Qed.

Lemma DailyRecord_eqb_date (a b : DailyRecord) :
  DailyRecord_eqb a b = true -> date a = date b.
Proof.
  unfold DailyRecord_eqb. rewrite !andb_true_iff.
  intros [[[[[H _] _] _] _] _]. now apply String.eqb_eq.
Qed.

(** With distinct dates the search for a record finds it at its own
    place. *)
Lemma index_of_member_distinct (usage : list DailyRecord) (k : nat)
    (r : DailyRecord) :
  NoDup (List.map date usage) -> usage !! k = Some r ->
  index_of_member DailyRecord_eqb usage k r = k.
Proof.
  intros Hnd Hk. unfold index_of_member.
  destruct (list_index DailyRecord_eqb r (firstn k usage)) as [j|e] eqn:E;
    [|reflexivity].
  apply list_index_spec in E as (y & Hy & Ey).
  assert (Hj : (j < k)%nat).
  { apply lookup_lt_Some in Hy. rewrite length_firstn in Hy. lia. }
  rewrite lookup_take_lt in Hy by exact Hj.
  apply DailyRecord_eqb_date in Ey.
  assert (H1 : List.map date usage !! j = Some (date r)).
  { change (List.map date usage) with (date <$> usage).
    rewrite list_lookup_fmap, Hy. cbn. now rewrite Ey. }
  assert (H2 : List.map date usage !! k = Some (date r)).
  { change (List.map date usage) with (date <$> usage).
    rewrite list_lookup_fmap, Hk. reflexivity. }
  assert (j = k) by (eapply NoDup_lookup; eassumption). lia.
Qed.

Lemma combine_seq_lookup {A} (l : list A) (a k : nat) (x : A) :
  In (k, x) (combine (seq a (length l)) l) ->
  (a <= k)%nat /\ l !! (k - a)%nat = Some x.
Proof.
  revert a. induction l as [|y l IH]; intros a H; cbn in H; [destruct H|].
  destruct H as [H|H].
  - injection H as <- <-. split; [lia|]. now rewrite Nat.sub_diag.
  - apply IH in H as [H1 H2]. split; [lia|].
    replace (k - a)%nat with (S (k - S a)) by lia. exact H2.
Qed.

Lemma enumerate_lookup {A} (l : list A) (k : nat) (x : A) :
  In (k, x) (enumerate l) -> l !! k = Some x.
Proof.
  intros H. apply combine_seq_lookup in H as [_ H].
  now rewrite Nat.sub_0_r in H.
Qed.

Lemma filter_from {A} (t : nat) (l : list A) (a : nat) :
  List.map snd
    (List.filter (fun kr : nat * A => (t <=? fst kr)%nat)
                 (combine (seq a (length l)) l))
  = skipn (t - a) l.
Proof.
  revert a. induction l as [|x l IH]; intros a.
  - now rewrite skipn_nil.
  - cbn [length seq combine List.filter fst].
    destruct (t <=? a)%nat eqn:E.
    + apply Nat.leb_le in E. cbn [List.map snd]. rewrite IH.
      replace (t - S a)%nat with O by lia.
      replace (t - a)%nat with O by lia. reflexivity.
    + apply Nat.leb_gt in E. rewrite IH.
      replace (t - a)%nat with (S (t - S a)) by lia. reflexivity.
Qed.

(** X7. In a ledger whose records carry distinct dates (every ledger
    that [record_usage] builds), the lookback window of
    [detect_anomalies] is the last [lookback_days] records in ledger
    order, all of them when there are fewer, and none when
    [lookback_days] is zero or negative. *)
Theorem recent_window_last (usage : list DailyRecord) (lookback_days : Z) :
  NoDup (List.map date usage) ->
  recent_window usage lookback_days
  = last_n (Z.to_nat lookback_days) usage.
Proof.
  intros Hnd. unfold recent_window, last_n.
  etransitivity;
    [|rewrite <- (Nat.sub_0_r (length usage - Z.to_nat lookback_days));
      apply (filter_from _ usage 0)].
  f_equal. apply filter_ext_in. intros [k r] Hin. cbn [fst snd].
  assert (Hk := enumerate_in_range _ _ _ Hin).
  rewrite (index_of_member_distinct usage k r Hnd (enumerate_lookup _ _ _ Hin)).
  unfold len.
  destruct (length usage - Z.to_nat lookback_days <=? k)%nat eqn:E.
  - apply Nat.leb_le in E. apply Z.leb_le. lia.
  - apply Nat.leb_gt in E. apply Z.leb_gt. lia.
Qed.

Lemma recent_window_last_witness :
  recent_window (ledger_of eight_days "alice") 3
  = last_n 3 (ledger_of eight_days "alice").
Proof.
  apply (recent_window_last (ledger_of eight_days "alice") 3).
  apply (bool_decide_unpack _). vm_compute. reflexivity.
Defined.

End Window.

Section NarrowWindow.
Import cost_predictor Vocabulary Samples.

Lemma filter_and_length {A} (f g : A -> bool) (l : list A) :
  (length (List.filter (fun x => f x && g x) l)
   <= length (List.filter f l))%nat.
Proof.
  induction l as [|x l IH]; cbn [List.filter]; [lia|].
  destruct (f x), (g x); cbn [andb length]; lia.
Qed.

(** A lookback of one day or less leaves at most the last record in the
    window. *)
Lemma recent_window_narrow (usage : list DailyRecord) (lookback_days : Z) :
  (lookback_days <= 1)%Z ->
  (length (recent_window usage lookback_days) <= 1)%nat.
Proof.
  intros Hlb. unfold recent_window. rewrite length_map.
  rewrite (filter_ext_in _
    (fun kr : nat * DailyRecord =>
       (length usage - 1 <=? fst kr)%nat
       && (len usage
           - Z.of_nat (index_of_member DailyRecord_eqb usage (fst kr) (snd kr))
           <=? lookback_days)%Z)).
  - etransitivity; [apply filter_and_length|].
    rewrite <- (length_map snd).
    rewrite <- (Nat.sub_0_r (length usage - 1)), (filter_from _ usage 0).
    rewrite length_skipn. lia.
  - intros [k r] Hin. cbn [fst snd].
    assert (Hk := enumerate_in_range _ _ _ Hin).
    assert (Hi := index_of_member_le DailyRecord_eqb usage k r).
    destruct (len usage - Z.of_nat (index_of_member DailyRecord_eqb usage k r)
              <=? lookback_days)%Z eqn:E; [|now rewrite andb_false_r].
    apply Z.leb_le in E. unfold len in E. rewrite andb_true_r.
    symmetry. apply Nat.leb_le. lia.
Qed.

(** X8. With [lookback_days] of 1 or less [detect_anomalies] reports
    nothing, whatever the ledger holds: the window keeps at most one
    record and two are required. *)
Theorem detect_anomalies_narrow (self : CostPredictionEngine)
    (user_id : string) (lookback_days : Z) :
  (lookback_days <= 1)%Z ->
  detect_anomalies self user_id lookback_days = Ok [].
Proof.
  intros Hlb. unfold detect_anomalies.
  destruct (ledger self user_id) as [usage|]; [|reflexivity].
  assert (H := recent_window_narrow usage lookback_days Hlb).
  cbv zeta.
  replace (len (recent_window usage lookback_days) <? 2)%Z with true;
    [reflexivity|].
  symmetry. apply Z.ltb_lt. unfold len. lia.
Qed.

Lemma detect_anomalies_narrow_witness :
  detect_anomalies five_days "alice" 1 = Ok [].
Proof. apply (detect_anomalies_narrow five_days "alice" 1). lia. Defined.

End NarrowWindow.

Section Patterns.
Import cost_predictor Vocabulary Samples AnomalyVocabulary.

Lemma pattern_flag_high_pair (avg_cost : Q) (daily_costs : list Q) (i : nat) :
  (i < length daily_costs)%nat ->
  pattern_flag avg_cost daily_costs i = true
  <-> high_pair avg_cost daily_costs i.
Proof.
  intros Hi. unfold pattern_flag, is_pattern, high_pair, index.
  destruct (lookup_lt_is_Some_2 daily_costs i Hi) as [c Hc].
  destruct (lookup_lt_is_Some_2 daily_costs (i - 1)) as [p Hp]; [lia|].
  rewrite Hc, Hp. cbn [bind].
  destruct (1 <=? i)%nat eqn:E1.
  - apply Nat.leb_le in E1.
    destruct (Qgtb c (avg_cost * 1.5)) eqn:E2; cbn [bind].
    + apply Qgtb_gt in E2. split.
      * intros E3. apply Qgtb_gt in E3. split; [exact E1|].
        exists c, p. auto.
      * intros (_ & c' & p' & Hc' & Hp' & _ & H).
        injection Hp' as <-. now apply Qgtb_gt.
    + apply Qgtb_le in E2. split; [discriminate|].
      intros (_ & c' & p' & Hc' & _ & H & _). injection Hc' as <-.
      exfalso. apply (Qlt_not_le _ _ H E2).
  - apply Nat.leb_gt in E1. split; [discriminate|]. intros [H _]. lia.
Qed.

Lemma spike_anomaly_kind (avg_cost : Q) (r : DailyRecord) :
  anomaly_kind_ok (spike_anomaly avg_cost r).
Proof.
  left. split; [reflexivity|]. cbn [severity spike_anomaly].
  destruct (Qgtb (total_cost r) (avg_cost * 3)); auto.
Qed.

(** The loop adds, for each record and in order, its spike if any and
    then its pattern anomaly if any. *)
Lemma detect_loop_patterns (avg_cost : Q) (stdev : Surd) (daily_costs : list Q)
    (items : list (nat * DailyRecord)) (anomalies : list Anomaly) :
  (forall i r, In (i, r) items -> (i < length daily_costs)%nat) ->
  exists out,
    for_each (detect_step avg_cost stdev daily_costs) items anomalies = Ok out
    /\ List.filter is_pattern_anomaly out
       = List.filter is_pattern_anomaly anomalies
         ++ List.map (fun kr => pattern_anomaly avg_cost (snd kr))
              (List.filter
                 (fun kr => pattern_flag avg_cost daily_costs (fst kr)) items)
    /\ (length out <= length anomalies + 2 * length items)%nat
    /\ (Forall anomaly_kind_ok anomalies -> Forall anomaly_kind_ok out).
Proof.
  revert anomalies.
  induction items as [|[i r] items IH]; intros anomalies Hr.
  - exists anomalies. split; [reflexivity|]. cbn [List.filter List.map length].
    rewrite app_nil_r. split; [reflexivity|]. split; [lia | auto].
  - destruct (is_pattern_returns avg_cost daily_costs i) as [p Hp].
    { apply (Hr i r). now left. }
    cbn [for_each detect_step]. rewrite Hp. cbn [bind].
    match goal with
    | |- context [for_each _ items ?acc] =>
        destruct (IH acc) as (out & Hout & Hf & Hlen & Hk)
    end.
    { intros j r' Hj. apply (Hr j r'). now right. }
    exists out. split; [exact Hout|].
    cbn [List.filter fst]. unfold pattern_flag at 1. rewrite Hp.
    split; [|split].
    + rewrite Hf.
      destruct (is_spike avg_cost stdev (total_cost r)), p;
        rewrite ?List.filter_app;
        cbn [List.filter is_pattern_anomaly an_type spike_anomaly
               pattern_anomaly List.map snd];
        rewrite <- ?app_assoc, ?app_nil_r; reflexivity.
    + destruct (is_spike avg_cost stdev (total_cost r)), p;
        rewrite ?length_app in Hlen; cbn [length] in *; lia.
    + intros Ha. apply Hk.
      destruct (is_spike avg_cost stdev (total_cost r)), p;
        repeat (apply Forall_app; split); try assumption;
        (constructor; [|constructor]);
        first [apply spike_anomaly_kind | right; split; reflexivity].
Qed.



End Patterns.

Section SpikesAboveAverage.
Import cost_predictor Vocabulary Samples AnomalyVocabulary.

Lemma sum_above (a : Q) (l : list Q) :
  Forall (fun x => a < x) l -> l <> [] -> inject_Z (len l) * a < sum l.
Proof.
  induction 1 as [|x l Hx Hl IH]; [congruence|]. intros _.
  rewrite sum_cons. unfold len. cbn [length].
  rewrite Nat2Z.inj_succ, <- Z.add_1_l, inject_Z_plus.
  destruct l as [|y l].
  - change (sum []) with 0. change (inject_Z (Z.of_nat (length []))) with 0.
    change (inject_Z 1) with 1. lra.
  - assert (H := IH ltac:(discriminate)). unfold len in H.
    change (inject_Z 1) with 1. lra.
Qed.

(** Not every value of a non-empty sample exceeds its mean. *)
Lemma not_all_above_mean (data : list Q) (avg : Q) :
  statistics_mean data = Ok avg ->
  forallb (fun x => Qltb avg x) data = false.
Proof.
  intros Hm. destruct (forallb _ data) eqn:E; [|reflexivity]. exfalso.
  assert (Hne : data <> []) by (intros ->; discriminate).
  rewrite (statistics_mean_nonempty _ Hne) in Hm. injection Hm as Hm.
  rewrite forallb_forall in E.
  assert (Hall : Forall (fun x => avg < x) data).
  { apply List.Forall_forall. intros x Hx. apply Qltb_lt. now apply E. }
  assert (Hs := sum_above avg data Hall Hne).
  assert (Hn : 0 < inject_Z (len data)).
  { change 0 with (inject_Z 0). rewrite <- Zlt_Qlt. unfold len.
    destruct data; [congruence | simpl; lia]. }
  assert (Hd : inject_Z (len data) * avg == sum data).
  { rewrite <- Hm. field. lra. }
  lra.
Qed.

Lemma filter_length_lt {A} (f : A -> bool) (l : list A) :
  forallb f l = false -> (length (List.filter f l) < length l)%nat.
Proof.
  induction l as [|x l IH]; cbn [forallb List.filter length]; [discriminate|].
  assert (Hle := filter_length_le f l).
  destruct (f x); cbn [andb length]; intros H; [apply IH in H|]; lia.
Qed.

Lemma is_spike_above (avg_cost : Q) (stdev : Surd) (cost : Q) :
  0 <= avg_cost -> is_spike avg_cost stdev cost = true -> avg_cost < cost.
Proof.
  intros Ha. unfold is_spike, gt_plus_two_surd.
  rewrite orb_true_iff, !andb_true_iff, Qgtb_gt, !Qltb_lt.
  intros [H|(_ & H & _)]; lra.
Qed.

(** X10. When the window average is not negative, every record that
    raises a SPIKE costs strictly more than the average, and at least
    one record of the window raises none: the spikes are fewer than the
    records of the window. *)
Theorem spikes_exceed_average (self : CostPredictionEngine) (user_id : string)
    (lookback_days : Z) (usage : list DailyRecord) :
  user_usage self !! user_id = Some usage ->
  let recent := recent_window usage lookback_days in
  (2 <= length recent)%nat ->
  exists (avg_cost : Q) (anomalies : list Anomaly) (spiking : list DailyRecord),
    statistics_mean (List.map total_cost recent) = Ok avg_cost
    /\ detect_anomalies self user_id lookback_days = Ok anomalies
    /\ List.filter is_spike_anomaly anomalies
       = List.map (spike_anomaly avg_cost) spiking
    /\ (0 <= avg_cost ->
        (forall r, In r spiking -> In r recent /\ avg_cost < total_cost r)
        /\ (length spiking < length recent)%nat).
Proof.
  intros Hu recent Hlen.
  destruct (detect_anomalies_window self user_id lookback_days usage Hu Hlen)
    as (avg & v & anomalies & Hm & _ & _ & Hd & Hf).
  fold recent in Hm, Hf.
  exists avg, anomalies,
    (List.filter (fun r => is_spike avg {| radicand := v |} (total_cost r))
                 recent).
  split; [exact Hm|]. split; [exact Hd|]. split; [exact Hf|].
  intros Ha. split.
  - intros r Hr. apply filter_In in Hr as [Hr Hs]. split; [exact Hr|].
    exact (is_spike_above _ _ _ Ha Hs).
  - apply filter_length_lt.
    destruct (forallb _ recent) eqn:E; [|reflexivity]. exfalso.
    assert (Hn := not_all_above_mean _ _ Hm).
    rewrite forallb_forall in E.
    assert (Hall : forallb (fun x => Qltb avg x) (List.map total_cost recent)
                   = true).
    { apply forallb_forall. intros x Hx.
      apply in_map_iff in Hx as (r & <- & Hr). apply Qltb_lt.
      exact (is_spike_above _ _ _ Ha (E r Hr)). }
    congruence.
Qed.

Lemma spikes_exceed_average_witness :
  exists (avg_cost : Q) (anomalies : list Anomaly) (spiking : list DailyRecord),
    detect_anomalies five_days "alice" default_lookback_days = Ok anomalies
    /\ List.filter is_spike_anomaly anomalies
       = List.map (spike_anomaly avg_cost) spiking
    /\ (0 <= avg_cost -> (length spiking < 5)%nat).
Proof.
  destruct (spikes_exceed_average five_days "alice" default_lookback_days
              (ledger_of five_days "alice"))
    as (avg & anomalies & spiking & _ & Hd & Hf & Hs).
  - vm_compute. reflexivity.
  - vm_compute. lia.
  - exists avg, anomalies, spiking. split; [exact Hd|]. split; [exact Hf|].
    intros Ha. exact (proj2 (Hs Ha)).
Defined.

End SpikesAboveAverage.

(* ================================================================== *)
(** * More on the efficiency scorer                                    *)
(* ================================================================== *)

Section ScoreParts.
Import cost_predictor Vocabulary Samples ScorerVocabulary.

(** What a returned score is made of. *)
Lemma get_efficiency_score_ok (self : CostPredictionEngine) (user_id : string)
    (usage : list DailyRecord) (r : EfficiencyScore) :
  user_usage self !! user_id = Some usage -> usage <> [] ->
  get_efficiency_score self user_id = Ok r ->
  exists cps cpt opt,
    cost_per_token_stage (sum (List.map total_cost usage))
                         (sumZ (List.map total_tokens usage))
    = Ok (cps, Some cpt)
    /\ optimization_stage (level_usage_of usage)
                          (sum (List.map total_cost usage)) = Ok opt
    /\ score r
       = Z.min 100 (int (cps * 0.4 + inject_Z opt * 0.3
                         + inject_Z (trend_stage usage) * 0.3))
    /\ breakdown r
       = [("cost_per_token", int cps); ("optimization_usage", opt);
          ("trend", trend_stage usage)]
    /\ cost_per_token r = Some cpt
    /\ total_tokens_analyzed r = Some (sumZ (List.map total_tokens usage)).
Proof.
  intros Hu Hne H. unfold get_efficiency_score in H.
  rewrite (ledger_some _ _ _ Hu Hne) in H.
  apply bind_ok in H as ([cps v] & Hs & H).
  apply bind_ok in H as (opt & Ho & H).
  apply bind_ok in H as (cpt & Hc & H). injection H as <-.
  destruct v as [cpt'|]; [|discriminate]. injection Hc as ->.
  exists cps, cpt, opt. repeat split; assumption.
Qed.

Lemma cost_per_token_stage_nonneg (total_cost : Q) (total_tokens : Z)
    (cps : Q) (v : option Q) :
  cost_per_token_stage total_cost total_tokens = Ok (cps, v) ->
  0 <= cps <= 100
  /\ (total_tokens <> 0%Z -> v = Some (total_cost / inject_Z total_tokens)).
Proof.
  unfold cost_per_token_stage.
  destruct (total_tokens =? 0)%Z eqn:E0.
  - intros H. injection H as <- <-. apply Z.eqb_eq in E0.
    split; [lra | congruence].
  - unfold truediv at 1.
    destruct (Qeqb (inject_Z total_tokens) 0); [discriminate|]. cbn [bind].
    destruct (Qleb _ (optimal_cost_per_token * 1.5)).
    { intros H. injection H as <- <-. split; [lra | reflexivity]. }
    destruct (Qleb _ (optimal_cost_per_token * 2)) eqn:E2.
    { intros H. injection H as <- <-. split; [lra | reflexivity]. }
    apply not_true_iff_false in E2. rewrite Qleb_le in E2.
    apply Qnot_le_lt in E2.
    rewrite truediv_ok by (unfold optimal_cost_per_token; lra). cbn [bind].
    intros H. injection H as <- <-. split; [|reflexivity].
    set (q := total_cost / inject_Z total_tokens) in *.
    assert (Hq : 0 <= q / optimal_cost_per_token).
    { apply Qle_shift_div_l; unfold optimal_cost_per_token in *; lra. }
    destruct (Q.max_spec 0 (100 - q / optimal_cost_per_token * 10))
      as [[? ->]|[? ->]]; lra.
Qed.

Lemma trend_stage_values (usage : list DailyRecord) :
  trend_stage usage = 50%Z \/ trend_stage usage = 75%Z
  \/ trend_stage usage = 100%Z.
Proof.
  unfold trend_stage.
  repeat match goal with |- context [if ?b then _ else _] => destruct b end;
    auto.
Qed.

(** Adding a non-negative cost keeps the per-level totals
    non-negative. *)
Lemma dict_set_in {V} (k : string) (v : V) (d : dict V) (k' : string) (v' : V) :
  In (k', v') (dict_set k v d) -> (k' = k /\ v' = v) \/ In (k', v') d.
Proof.
  induction d as [|[k0 v0] d IH]; cbn [dict_set].
  - intros [H|[]]. injection H as <- <-. now left.
  - destruct (String.eqb k0 k) eqn:E.
    + apply String.eqb_eq in E. subst k0. intros [H|H].
      * injection H as <- <-. now left.
      * right. now right.
    + intros [H|H]; [right; now left|].
      destruct (IH H) as [H'|H']; [now left | right; now right].
Qed.

Lemma dict_get_in {V} (k : string) (d : dict V) (v : V) :
  dict_get k d = Some v -> In (k, v) d.
Proof.
  induction d as [|[k0 v0] d IH]; cbn [dict_get]; [discriminate|].
  destruct (String.eqb k0 k) eqn:E.
  - apply String.eqb_eq in E. subst k0. intros H. injection H as <-. now left.
  - intros H. right. now apply IH.
Qed.

Lemma add_level_usage_nonneg (lu : dict Q) (kv : string * Stats) :
  values_nonneg lu -> 0 <= st_cost (snd kv) ->
  values_nonneg (add_level_usage lu kv).
Proof.
  intros Hlu Hc. unfold add_level_usage, dict_mem.
  destruct (dict_get (fst kv) lu) as [c|] eqn:E.
  - rewrite E. intros k v Hin.
    apply dict_set_in in Hin as [[_ ->]|Hin]; [|now apply (Hlu k)].
    apply dict_get_in in E. apply Hlu in E. lra.
  - rewrite dict_get_set. intros k v Hin.
    apply dict_set_in in Hin as [[_ ->]|Hin]; [lra|].
    apply dict_set_in in Hin as [[_ ->]|Hin]; [lra | now apply (Hlu k)].
Qed.

Lemma level_usage_nonneg (usage : list DailyRecord) :
  level_costs_nonneg usage -> values_nonneg (level_usage_of usage).
Proof.
  unfold level_usage_of.
  assert (H : forall lu, values_nonneg lu -> level_costs_nonneg usage ->
            values_nonneg
              (fold_left (fun lu r => fold_left add_level_usage (by_level r) lu)
                         usage lu)).
  { induction usage as [|r usage IH]; intros lu Hlu Hn; [exact Hlu|].
    cbn [fold_left]. apply IH.
    - assert (Hr : forall level stats, In (level, stats) (by_level r) ->
                                       0 <= st_cost stats).
      { intros level stats Hin. apply (Hn r level stats); [now left | exact Hin]. }
      clear IH Hn. revert lu Hlu.
      induction (by_level r) as [|[l s] d IHd]; intros lu Hlu; [exact Hlu|].
      cbn [fold_left]. apply IHd.
      + intros level stats Hin. apply (Hr level stats). now right.
      + apply add_level_usage_nonneg; [exact Hlu|].
        apply (Hr l s). now left.
    - intros r' level stats Hin Hin'. apply (Hn r' level stats); [now right|exact Hin']. }
  intros Hn. apply H; [|exact Hn]. intros k v [].
Qed.

Lemma optimization_stage_nonneg (lu : dict Q) (total_cost : Q) (opt : Z) :
  values_nonneg lu -> optimization_stage lu total_cost = Ok opt ->
  (0 <= opt)%Z.
Proof.
  intros Hlu. unfold optimization_stage.
  destruct (dict_get "aggressive" lu) as [agg|] eqn:E.
  - apply dict_get_in, Hlu in E.
    destruct (Qgtb total_cost 0) eqn:Et.
    + apply Qgtb_gt in Et. rewrite truediv_ok by lra. cbn [bind].
      intros H. injection H as <-. apply int_nonneg.
      assert (0 <= agg / total_cost) by (apply Qle_shift_div_l; lra). lra.
    + cbn [bind]. intros H. injection H as <-. reflexivity.
  - intros H. injection H as <-. lia.
Qed.

End ScoreParts.

Section ScoreTheorems.
Import cost_predictor Vocabulary Samples ScorerVocabulary.

(** X11. For a user with history, [get_efficiency_score] returns exactly
    when the recorded tokens do not sum to 0; it then reports
    [cost_per_token] as total cost over total tokens and
    [total_tokens_analyzed] as the total, and otherwise raises
    [UnboundLocalError]. *)
Theorem efficiency_returns_iff (self : CostPredictionEngine) (user_id : string)
    (usage : list DailyRecord) :
  user_usage self !! user_id = Some usage -> usage <> [] ->
  let total_cost := sum (List.map total_cost usage) in
  let total_tokens := sumZ (List.map total_tokens usage) in
  (total_tokens <> 0%Z ->
   exists r, get_efficiency_score self user_id = Ok r
             /\ cost_per_token r = Some (total_cost / inject_Z total_tokens)
             /\ total_tokens_analyzed r = Some total_tokens)
  /\ (total_tokens = 0%Z ->
      get_efficiency_score self user_id
      = Raise (UnboundLocalError "cost_per_token"))
  /\ (returns (get_efficiency_score self user_id) <-> total_tokens <> 0%Z).
Proof.
  intros Hu Hne tc tt.
  assert (H1 : tt <> 0%Z ->
               exists r, get_efficiency_score self user_id = Ok r
                         /\ cost_per_token r = Some (tc / inject_Z tt)
                         /\ total_tokens_analyzed r = Some tt).
  { intros Hz.
    destruct (get_efficiency_score_with_tokens self user_id usage Hu Hne Hz)
      as (r & c & Hr & Hc & -> & Ht & _).
    exists r. auto. }
  assert (H2 : tt = 0%Z ->
               get_efficiency_score self user_id
               = Raise (UnboundLocalError "cost_per_token")).
  { intros Hz. now apply (get_efficiency_score_zero_tokens self user_id usage). }
  split; [exact H1|]. split; [exact H2|]. split.
  - intros [r Hr] Hz. rewrite (H2 Hz) in Hr. discriminate.
  - intros Hz. destruct (H1 Hz) as (r & Hr & _). now exists r.
Qed.

Lemma efficiency_returns_iff_witness :
  returns (get_efficiency_score eight_days "alice").
Proof.
  apply (efficiency_returns_iff eight_days "alice" (ledger_of eight_days "alice")).
  - vm_compute. reflexivity.
  - vm_compute. discriminate.
  - vm_compute. discriminate.
Defined.

(** X12. Every score that [get_efficiency_score] returns for a user with
    history is at most 100, and at least 15 when no record books a
    negative cost under an optimization level: a user with history
    never scores 0, and the three sub-scores of the breakdown are
    non-negative, the trend one being 50, 75 or 100. *)
Theorem efficiency_score_bounds (self : CostPredictionEngine)
    (user_id : string) (usage : list DailyRecord) (r : EfficiencyScore) :
  user_usage self !! user_id = Some usage -> usage <> [] ->
  get_efficiency_score self user_id = Ok r ->
  (score r <= 100)%Z
  /\ (exists t, dict_get "trend" (breakdown r) = Some t
                /\ (t = 50 \/ t = 75 \/ t = 100)%Z)
  /\ (level_costs_nonneg usage ->
      (15 <= score r)%Z
      /\ (exists c, dict_get "cost_per_token" (breakdown r) = Some c
                    /\ (0 <= c <= 100)%Z)
      /\ (exists o, dict_get "optimization_usage" (breakdown r) = Some o
                    /\ (0 <= o)%Z)).
Proof.
  intros Hu Hne Hr.
  destruct (get_efficiency_score_ok _ _ _ _ Hu Hne Hr)
    as (cps & cpt & opt & Hs & Ho & -> & -> & _).
  destruct (cost_per_token_stage_nonneg _ _ _ _ Hs) as [[Hc0 Hc1] _].
  assert (Ht := trend_stage_values usage).
  split; [apply Z.le_min_l|]. split.
  - exists (trend_stage usage). split; [reflexivity | exact Ht].
  - intros Hn.
    assert (Hopt := optimization_stage_nonneg _ _ _
                      (level_usage_nonneg usage Hn) Ho).
    split; [|split].
    + apply Z.min_glb; [lia|].
      assert (Hq : 0 <= inject_Z opt)
        by (change 0 with (inject_Z 0); now rewrite <- Zle_Qle).
      assert (Htq : 50 <= inject_Z (trend_stage usage)).
      { change 50 with (inject_Z 50). rewrite <- Zle_Qle. lia. }
      apply int_lower; change (inject_Z 15) with 15; lra.
    + exists (int cps). split; [reflexivity|]. split.
      * now apply int_nonneg.
      * assert (H := int_le_self cps Hc0). rewrite Zle_Qle.
        change (inject_Z 100) with 100. lra.
    + exists opt. split; [reflexivity | exact Hopt].
Qed.

Lemma efficiency_score_bounds_witness :
  exists r, get_efficiency_score eight_days "alice" = Ok r
            /\ (score r <= 100)%Z.
Proof.
  eexists. split; [vm_compute; reflexivity|].
  match goal with
  | |- (score ?r <= _)%Z =>
      destruct (efficiency_score_bounds eight_days "alice"
                  (ledger_of eight_days "alice") r) as [H _]
  end.
  - vm_compute. reflexivity.
  - vm_compute. discriminate.
  - vm_compute. reflexivity.
  - exact H.
Defined.

(** The trend sub-score of a ledger of 7 to 13 records, which compares
    the last week with itself. *)
Lemma trend_stage_one_week (usage : list DailyRecord) :
  (7 <= length usage < 14)%nat ->
  let week := sum (List.map total_cost (last_n 7 usage)) in
  (0 < week -> trend_stage usage = 75%Z)
  /\ (week == 0 -> trend_stage usage = 50%Z)
  /\ (week < 0 -> trend_stage usage = 100%Z).
Proof.
  intros Hlen week. unfold trend_stage. fold week.
  replace (7 <=? len usage)%Z with true
    by (symmetry; apply Z.leb_le; unfold len; lia).
  replace (14 <=? len usage)%Z with false
    by (symmetry; apply Z.leb_gt; unfold len; lia).
  destruct (Qltb (week / 7) (week / 7 * 0.9)) eqn:E1;
    destruct (Qltb (week / 7) (week / 7 * 1.1)) eqn:E2;
    repeat match goal with
           | H : Qltb _ _ = true |- _ => apply Qltb_lt in H
           | H : Qltb _ _ = false |- _ => apply Qltb_ge in H
           end;
    repeat split; intros Hw; try reflexivity; exfalso;
    assert (Hd : week / 7 == week * (1 # 7)) by (unfold Qdiv; reflexivity);
    rewrite ?Hd in *; try rewrite Hw in *; lra.
Qed.

(** X13. With 7 to 13 records the trend sub-score compares the last
    seven days with themselves: it is 75 when their costs sum to a
    positive amount, but 50 when they sum to zero (a week without
    spending is not scored as stable) and 100 when the sum is negative;
    with fewer than 7 records it is 75. *)
Theorem trend_score_one_week (self : CostPredictionEngine)
    (user_id : string) (usage : list DailyRecord) (r : EfficiencyScore) :
  user_usage self !! user_id = Some usage -> usage <> [] ->
  get_efficiency_score self user_id = Ok r ->
  let week := sum (List.map total_cost (last_n 7 usage)) in
  ((length usage < 7)%nat -> dict_get "trend" (breakdown r) = Some 75%Z)
  /\ ((7 <= length usage < 14)%nat ->
      (0 < week -> dict_get "trend" (breakdown r) = Some 75%Z)
      /\ (week == 0 -> dict_get "trend" (breakdown r) = Some 50%Z)
      /\ (week < 0 -> dict_get "trend" (breakdown r) = Some 100%Z)).
Proof.
  intros Hu Hne Hr week.
  destruct (get_efficiency_score_ok _ _ _ _ Hu Hne Hr)
    as (cps & cpt & opt & _ & _ & _ & -> & _).
  change (dict_get "trend"
            [("cost_per_token", int cps); ("optimization_usage", opt);
             ("trend", trend_stage usage)])
    with (Some (trend_stage usage)).
  split.
  - intros Hlen. unfold trend_stage.
    replace (7 <=? len usage)%Z with false
      by (symmetry; apply Z.leb_gt; unfold len; lia).
    reflexivity.
  - intros Hlen. destruct (trend_stage_one_week usage Hlen) as (H1 & H2 & H3).
    fold week in H1, H2, H3.
    repeat split; intros Hw; f_equal; auto.
Qed.

Lemma trend_score_one_week_witness :
  exists r, get_efficiency_score eight_days "alice" = Ok r
            /\ dict_get "trend" (breakdown r) = Some 75%Z.
Proof.
  eexists. split; [vm_compute; reflexivity|].
  match goal with
  | |- dict_get _ (breakdown ?r) = _ =>
      destruct (trend_score_one_week eight_days "alice"
                  (ledger_of eight_days "alice") r) as [_ H]
  end.
  - vm_compute. reflexivity.
  - vm_compute. discriminate.
  - vm_compute. reflexivity.
  - apply H; vm_compute; [lia | reflexivity].
Defined.

End ScoreTheorems.

(* ================================================================== *)
(** * The recommendation advisor                                       *)
(* ================================================================== *)

(** Case analysis on which rules fired. *)
Ltac advisor_cases :=
  repeat match goal with
         | H : _ \/ _ |- _ => destruct H
         | H : exists _, _ |- _ => destruct H
         | H : _ /\ _ |- _ => destruct H
         end; subst;
  repeat match goal with
         | x : cost_predictor.Recommendation |- _ => destruct x; try discriminate
         end;
  cbn; intuition (discriminate || lia || auto).

Section AdvisorShape.
Import cost_predictor Vocabulary Samples AdvisorVocabulary.

Lemma level_pct_returns (usage : list DailyRecord) (s : Stats) :
  (if Qgtb (total_of usage) 0
   then let* q := truediv (st_cost s) (total_of usage) in Ok (q * 100)
   else Ok 0) = Ok (level_pct usage s).
Proof.
  unfold level_pct. destruct (Qgtb (total_of usage) 0) eqn:E; [|reflexivity].
  apply Qgtb_gt in E. now rewrite truediv_ok by lra.
Qed.

Lemma last_week_mean (usage : list DailyRecord) :
  (7 <= length usage)%nat ->
  statistics_mean (List.map total_cost (last_n 7 usage))
  = Ok (sum (List.map total_cost (last_n 7 usage)) / 7).
Proof.
  intros H.
  assert (Hl : length (List.map total_cost (last_n 7 usage)) = 7%nat)
    by (rewrite length_map; now apply last_n_length).
  rewrite statistics_mean_nonempty.
  - unfold len. now rewrite Hl.
  - intros E. rewrite E in Hl. discriminate.
Qed.

(** The rules after the provider block: each adds at most one
    recommendation, in a fixed order, and none of them raises. *)
Lemma recommend_cost_reduction_shape (self : CostPredictionEngine)
    (user_id : string) (by_provider : option (dict Stats))
    (usage : list DailyRecord) (recs1 : list Recommendation) :
  user_usage self !! user_id = Some usage -> usage <> [] ->
  diversify by_provider [] = Ok recs1 ->
  exists sw inc bud,
    recommend_cost_reduction self user_id by_provider
    = Ok (recs1 ++ sw ++ inc ++ bud)
    /\ ((exists x, sw = [x] /\ is_switch x = true /\ switch_rule usage)
        \/ (sw = [] /\ ~ switch_rule usage))
    /\ ((exists x, inc = [x] /\ is_increase x = true /\ increase_rule usage)
        \/ (inc = [] /\ ~ increase_rule usage))
    /\ ((exists x, bud = [x] /\ is_budget_alert x = true /\ budget_rule usage)
        \/ (bud = [] /\ ~ budget_rule usage)).
Proof.
  intros Hu Hne Hd. unfold recommend_cost_reduction.
  rewrite (ledger_some _ _ _ Hu Hne), Hd. cbn [bind].
  fold (total_of usage). fold (level_stats_of usage).
  (* switch *)
  assert (Hsw : exists sw,
    match dict_get "aggressive" (level_stats_of usage) with
    | Some agg =>
        let* aggressive_pct :=
          if Qgtb (total_of usage) 0
          then let* q := truediv (st_cost agg) (total_of usage) in Ok (q * 100)
          else Ok 0 in
        Ok (if Qgtb aggressive_pct 30 then
              recs1 ++
              [SWITCH_OPTIMIZATION_LEVEL "aggressive" "balanced"
                 (round aggressive_pct 1)
                 "Switch some aggressive optimizations to balanced (28% vs 42% savings)"
                 (round (total_of usage * 0.05) 2)]
            else recs1)
    | None => Ok recs1
    end = Ok (recs1 ++ sw)
    /\ ((exists x, sw = [x] /\ is_switch x = true /\ switch_rule usage)
        \/ (sw = [] /\ ~ switch_rule usage))).
  { unfold switch_rule.
    destruct (dict_get "aggressive" (level_stats_of usage)) as [agg|] eqn:Ea.
    - rewrite level_pct_returns. cbn [bind].
      destruct (Qgtb (level_pct usage agg) 30) eqn:E.
      + apply Qgtb_gt in E. eexists [_]. split; [reflexivity|]. left.
        eexists. split; [reflexivity|]. split; [reflexivity|]. eauto.
      + apply Qgtb_le in E. exists []. rewrite app_nil_r.
        split; [reflexivity|]. right. split; [reflexivity|].
        intros (agg' & H & H'). injection H as <-. lra.
    - exists []. rewrite app_nil_r. split; [reflexivity|]. right.
      split; [reflexivity|]. intros (agg' & H & _). discriminate. }
  destruct Hsw as (sw & -> & Hsw). cbn [bind].
  (* increase *)
  assert (Hinc : exists inc,
    match dict_get "balanced" (level_stats_of usage),
          dict_get "aggressive" (level_stats_of usage) with
    | Some bal, Some _ =>
        let* balanced_pct :=
          if Qgtb (total_of usage) 0
          then let* q := truediv (st_cost bal) (total_of usage) in Ok (q * 100)
          else Ok 0 in
        Ok (if Qgtb balanced_pct 70 then
              (recs1 ++ sw) ++
              [INCREASE_OPTIMIZATION "balanced" "aggressive"
                 "You're being conservative. Try aggressive mode to save more."
                 (round (total_of usage * 0.14) 2)]
            else recs1 ++ sw)
    | _, _ => Ok (recs1 ++ sw)
    end = Ok ((recs1 ++ sw) ++ inc)
    /\ ((exists x, inc = [x] /\ is_increase x = true /\ increase_rule usage)
        \/ (inc = [] /\ ~ increase_rule usage))).
  { unfold increase_rule.
    destruct (dict_get "balanced" (level_stats_of usage)) as [bal|] eqn:Eb;
      [destruct (dict_get "aggressive" (level_stats_of usage)) as [agg|] eqn:Ea|].
    - rewrite level_pct_returns. cbn [bind].
      destruct (Qgtb (level_pct usage bal) 70) eqn:E.
      + apply Qgtb_gt in E. eexists [_]. split; [reflexivity|]. left.
        eexists. split; [reflexivity|]. split; [reflexivity|]. eauto.
      + apply Qgtb_le in E. exists []. rewrite app_nil_r.
        split; [reflexivity|]. right. split; [reflexivity|].
        intros (bal' & agg' & H & _ & H'). injection H as <-. lra.
    - exists []. rewrite app_nil_r. split; [reflexivity|]. right.
      split; [reflexivity|]. intros (bal' & agg' & _ & H & _). discriminate.
    - exists []. rewrite app_nil_r. split; [reflexivity|]. right.
      split; [reflexivity|]. intros (bal' & agg' & H & _). discriminate. }
  destruct Hinc as (inc & -> & Hinc). cbn [bind].
  (* budget *)
  unfold budget_rule.
  destruct (7 <=? len usage)%Z eqn:E7.
  - apply Z.leb_le in E7. unfold len in E7.
    rewrite last_week_mean by lia. cbn [bind].
    destruct (Qgtb (sum (List.map total_cost (last_n 7 usage)) / 7) 10) eqn:E.
    + apply Qgtb_gt in E. exists sw, inc. eexists [_].
      split; [now rewrite <- !app_assoc|]. split; [exact Hsw|].
      split; [exact Hinc|]. left. eexists. split; [reflexivity|].
      split; [reflexivity|]. split; [lia | exact E].
    + apply Qgtb_le in E. exists sw, inc, [].
      split; [now rewrite app_nil_r, <- !app_assoc|]. split; [exact Hsw|].
      split; [exact Hinc|]. right. split; [reflexivity|].
      intros [_ H]. lra.
  - apply Z.leb_gt in E7. unfold len in E7. exists sw, inc, [].
    split; [now rewrite app_nil_r, <- !app_assoc|]. split; [exact Hsw|].
    split; [exact Hinc|]. right. split; [reflexivity|]. intros [H _]. lia.
Qed.

End AdvisorShape.

Section AdvisorTheorems.
Import cost_predictor Vocabulary Samples AdvisorVocabulary AdvisorInvariants.



End AdvisorTheorems.

Section ProviderBlock.
Import cost_predictor Vocabulary Samples AdvisorVocabulary AdvisorInvariants.

Lemma dict_set_nonempty {V} (k : string) (v : V) (d : dict V) :
  dict_set k v d <> [].
Proof.
  destruct d as [|[k' v'] d]; cbn [dict_set]; [discriminate|].
  destruct (String.eqb k' k); discriminate.
Qed.

Lemma provider_costs_zero (l : list (string * Stats)) (d : dict Q) :
  costs_all_zero l -> (forall k v, In (k, v) d -> v == 0) ->
  forall k v,
    In (k, v) (fold_left (fun d kv => dict_set (fst kv) (st_cost (snd kv)) d)
                         l d) -> v == 0.
Proof.
  revert d. induction l as [|[p s] l IH]; intros d Hl Hd k v; cbn [fold_left].
  - apply Hd.
  - apply IH.
    + intros k' s' H. apply (Hl k' s'). now right.
    + intros k' v' H. apply dict_set_in in H as [[_ ->]|H].
      * apply (Hl p s). now left.
      * now apply (Hd k').
Qed.

Lemma provider_costs_nonempty (l : list (string * Stats)) (d : dict Q) :
  d <> [] ->
  fold_left (fun d kv => dict_set (fst kv) (st_cost (snd kv)) d) l d <> [].
Proof.
  revert d. induction l as [|kv l IH]; intros d Hd; cbn [fold_left]; [exact Hd|].
  apply IH, dict_set_nonempty.
Qed.

Lemma sum_all_zero (d : dict Q) :
  (forall k v, In (k, v) d -> v == 0) -> sum (dict_values d) == 0.
Proof.
  induction d as [|[k v] d IH]; intros H.
  - reflexivity.
  - unfold dict_values in *. cbn [List.map snd]. rewrite sum_cons.
    rewrite (H k v) by now left. rewrite IH; [lra|].
    intros k' v' Hin. apply (H k'). now right.
Qed.

(** X15. When provider statistics are passed whose costs are all zero,
    [recommend_cost_reduction] raises [ZeroDivisionError] for every user
    with history: the share of the most expensive provider is computed
    by an unguarded division by the total of the passed costs. *)
Theorem advisor_zero_provider_costs (self : CostPredictionEngine)
    (user_id : string) (usage : list DailyRecord) (by_provider : dict Stats) :
  user_usage self !! user_id = Some usage -> usage <> [] ->
  by_provider <> [] -> costs_all_zero by_provider ->
  recommend_cost_reduction self user_id (Some by_provider)
  = Raise ZeroDivisionError.
Proof.
  intros Hu Hne Hbp Hz. unfold recommend_cost_reduction.
  rewrite (ledger_some _ _ _ Hu Hne).
  destruct by_provider as [|[p0 s0] rest]; [congruence|].
  unfold diversify.
  set (pc := fold_left (fun d kv => dict_set (fst kv) (st_cost (snd kv)) d)
                       ((p0, s0) :: rest) []).
  assert (Hpc : pc <> []).
  { unfold pc. cbn [fold_left]. apply provider_costs_nonempty.
    apply dict_set_nonempty. }
  assert (Hzero : sum (dict_values pc) == 0).
  { apply sum_all_zero. unfold pc.
    apply provider_costs_zero; [exact Hz | intros k v []]. }
  destruct pc as [|first others]; [congruence|].
  rewrite (truediv_zero _ _ Hzero). reflexivity.
Qed.

Lemma advisor_zero_provider_costs_witness :
  recommend_cost_reduction eight_days "alice"
    (Some [("openai", {| st_cost := 0; st_tokens := 0 |})])
  = Raise ZeroDivisionError.
Proof.
  apply (advisor_zero_provider_costs eight_days "alice"
           (ledger_of eight_days "alice")).
  - vm_compute. reflexivity.
  - vm_compute. discriminate.
  - discriminate.
  - intros k s [H|[]]. injection H as <- <-. reflexivity.
Defined.

End ProviderBlock.

Section LevelTotals.
Import cost_predictor Vocabulary Samples AdvisorVocabulary AdvisorInvariants.

Lemma track_nonneg (k : string) (cost : Q) (tokens : Z) (d : dict Stats) :
  stats_nonneg d -> 0 <= cost -> stats_nonneg (track k cost tokens d).
Proof.
  intros Hd Hc. unfold track, dict_mem.
  destruct (dict_get k d) as [s|] eqn:E.
  - rewrite E. intros k' s' Hin.
    apply dict_set_in in Hin as [[_ ->]|Hin]; [|now apply (Hd k')].
    apply dict_get_in, Hd in E. cbn [st_cost]. lra.
  - rewrite dict_get_set. intros k' s' Hin.
    apply dict_set_in in Hin as [[_ ->]|Hin]; [cbn [st_cost]; lra|].
    apply dict_set_in in Hin as [[_ ->]|Hin];
      [cbn [st_cost]; lra | now apply (Hd k')].
Qed.

Lemma add_level_stats_fold (d ls : dict Stats) :
  stats_nonneg d -> stats_nonneg ls ->
  stats_nonneg (fold_left add_level_stats d ls)
  /\ dict_cost (fold_left add_level_stats d ls) == dict_cost ls + dict_cost d.
Proof.
  revert ls. induction d as [|[k s] d IH]; intros ls Hd Hls; cbn [fold_left].
  - split; [exact Hls|]. rewrite dict_cost_nil. lra.
  - assert (Hs : 0 <= st_cost s) by (apply (Hd k); now left).
    destruct (IH (add_level_stats ls (k, s))) as [H1 H2].
    + intros k' s' Hin. apply (Hd k'). now right.
    + unfold add_level_stats. cbn [fst snd]. now apply track_nonneg.
    + split; [exact H1|]. rewrite H2, dict_cost_cons.
      unfold add_level_stats. cbn [fst snd].
      destruct (track_sums k (st_cost s) (st_tokens s) ls) as [-> _]. lra.
Qed.

Lemma total_of_sum (usage : list DailyRecord) (a : Q) :
  fold_left (fun acc r => acc + total_cost r) usage a
  == a + sum (List.map total_cost usage).
Proof.
  revert a. induction usage as [|r usage IH]; intros a; cbn [fold_left List.map].
  - change (sum []) with 0. lra.
  - rewrite IH, sum_cons. lra.
Qed.

(** In a consistent ledger the per-level statistics are non-negative
    and sum to the total cost. *)
Lemma level_stats_total (usage : list DailyRecord) :
  levels_consistent usage ->
  stats_nonneg (level_stats_of usage)
  /\ dict_cost (level_stats_of usage) == total_of usage.
Proof.
  unfold level_stats_of, total_of.
  assert (H : forall ls a, levels_consistent usage -> stats_nonneg ls ->
            stats_nonneg
              (fold_left (fun ls r => fold_left add_level_stats (by_level r) ls)
                         usage ls)
            /\ dict_cost
                 (fold_left (fun ls r => fold_left add_level_stats (by_level r) ls)
                            usage ls)
               - dict_cost ls
               == fold_left (fun acc r => acc + total_cost r) usage a - a).
  { induction usage as [|r usage IH]; intros ls a Hc Hls; cbn [fold_left].
    - split; [exact Hls | lra].
    - destruct (Hc r (or_introl eq_refl)) as [Hn Hr].
      destruct (add_level_stats_fold (by_level r) ls Hn Hls) as [H1 H2].
      destruct (IH (fold_left add_level_stats (by_level r) ls)
                   (a + total_cost r)) as [H3 H4].
      + intros r' Hr'. apply Hc. now right.
      + exact H1.
      + split; [exact H3|]. lra. }
  intros Hc. destruct (H [] 0 Hc) as [H1 H2]; [intros k s []|].
  split; [exact H1|]. rewrite dict_cost_nil in H2. lra.
Qed.

Lemma one_key_le (d : dict Stats) (k : string) (a : Stats) :
  stats_nonneg d -> dict_get k d = Some a -> st_cost a <= dict_cost d.
Proof.
  induction d as [|[k0 s0] d IH]; intros Hd; cbn [dict_get]; [discriminate|].
  assert (H0 : 0 <= st_cost s0) by (apply (Hd k0); now left).
  assert (Hrest : stats_nonneg d) by (intros k' s' H; apply (Hd k'); now right).
  rewrite dict_cost_cons.
  destruct (String.eqb k0 k).
  - intros H. injection H as <-.
    assert (0 <= dict_cost d).
    { apply sum_nonneg. apply List.Forall_forall. intros y Hy.
      apply in_map_iff in Hy as ([k' s'] & <- & Hin). now apply (Hrest k'). }
    lra.
  - intros H. specialize (IH Hrest H). lra.
Qed.

Lemma two_keys_le (d : dict Stats) (k1 k2 : string) (a b : Stats) :
  stats_nonneg d -> k1 <> k2 ->
  dict_get k1 d = Some a -> dict_get k2 d = Some b ->
  st_cost a + st_cost b <= dict_cost d.
Proof.
  induction d as [|[k0 s0] d IH]; intros Hd Hne; cbn [dict_get]; [discriminate|].
  assert (H0 : 0 <= st_cost s0) by (apply (Hd k0); now left).
  assert (Hrest : stats_nonneg d) by (intros k' s' H; apply (Hd k'); now right).
  rewrite dict_cost_cons.
  destruct (String.eqb k0 k1) eqn:E1, (String.eqb k0 k2) eqn:E2.
  - apply String.eqb_eq in E1, E2. congruence.
  - intros H1 H2. injection H1 as <-.
    assert (H := one_key_le d k2 b Hrest H2). lra.
  - intros H1 H2. injection H2 as <-.
    assert (H := one_key_le d k1 a Hrest H1). lra.
  - intros H1 H2. specialize (IH Hrest Hne H1 H2). lra.
Qed.

(** In a consistent ledger the two level rules exclude each other. *)
Lemma switch_excludes_increase (usage : list DailyRecord) :
  levels_consistent usage -> switch_rule usage -> increase_rule usage -> False.
Proof.
  intros Hc (agg & Ha & Hsw) (bal & agg' & Hb & Ha' & Hinc).
  rewrite Ha in Ha'. injection Ha' as <-.
  destruct (level_stats_total usage Hc) as [Hn Ht].
  assert (Hle := two_keys_le _ "aggressive" "balanced" agg bal Hn
                   ltac:(discriminate) Ha Hb).
  unfold level_pct in *.
  destruct (Qgtb (total_of usage) 0) eqn:E; [|lra].
  apply Qgtb_gt in E. rewrite Ht in Hle.
  set (t := total_of usage) in *.
  assert (Hqa : st_cost agg / t * t == st_cost agg) by (field; lra).
  assert (Hqb : st_cost bal / t * t == st_cost bal) by (field; lra).
  revert Hqa Hqb Hsw Hinc.
  generalize (st_cost agg / t) (st_cost bal / t). intros qa qb Hqa Hqb Hsw Hinc.
  nra.
Qed.

End LevelTotals.

Section Reachable.
Import cost_predictor Vocabulary Samples AdvisorVocabulary AdvisorInvariants.

(** A property of records that new records have and that the update of
    a call keeps holds of every record after the call. *)
Lemma apply_call_keeps (P : DailyRecord -> Prop) (self : CostPredictionEngine)
    (c : Call) :
  (forall d, P (new_record d)) -> (forall r, P r -> P (update_of c r)) ->
  all_records P self -> all_records P (apply_call self c).
Proof.
  intros Hnew Hupd Hinv. unfold apply_call.
  destruct (learning_enabled self) eqn:E.
  2: { now rewrite record_usage_disabled. }
  intros u usage r Hu Hr. rewrite record_usage_enabled in Hu by exact E.
  destruct (decide (c_user c = u)) as [<-|Hne].
  - rewrite lookup_insert_eq in Hu. injection Hu as <-.
    assert (Hold : forall r0, In r0 (default [] (user_usage self !! c_user c)) ->
                              P r0).
    { intros r0 H0. destruct (user_usage self !! c_user c) as [l|] eqn:El.
      - exact (Hinv _ l r0 El H0).
      - destruct H0. }
    apply ledger_step_in in Hr as [Hr|(r0 & [H0|H0] & ->)].
    + now apply Hold.
    + apply Hupd. now apply Hold.
    + subst r0. apply Hupd, Hnew.
  - rewrite lookup_insert_ne in Hu by exact Hne. exact (Hinv u usage r Hu Hr).
Qed.

Lemma update_level_consistent (c : Call) (r : DailyRecord) :
  0 <= c_cost c -> level_consistent r -> level_consistent (update_of c r).
Proof.
  intros Hc [Hn Hs]. unfold level_consistent, update_of.
  cbn [update_record by_level total_cost]. split.
  - now apply track_nonneg.
  - destruct (track_sums (c_level c) (c_cost c) (c_tokens c) (by_level r))
      as [-> _]. lra.
Qed.

(** Ledgers built from non-negative costs are consistent. *)
Lemma replay_level_consistent (calls : list Call) :
  calls_nonneg calls -> all_records level_consistent (replay init calls).
Proof.
  assert (H : forall self, all_records level_consistent self ->
            calls_nonneg calls ->
            all_records level_consistent (replay self calls)).
  { induction calls as [|c calls IH]; intros self Hs Hc; [exact Hs|].
    unfold replay in *. cbn [fold_left].
    unfold calls_nonneg in Hc. rewrite Forall_cons in Hc.
    destruct Hc as [Hc0 Hc].
    apply IH; [|exact Hc]. apply apply_call_keeps.
    - intros d. split; [intros k s [] | reflexivity].
    - intros r. now apply update_level_consistent.
    - exact Hs. }
  intros Hc. apply H; [|exact Hc].
  intros u usage r Hu. cbn in Hu. now rewrite lookup_empty in Hu.
Qed.

Lemma ledger_inv_some (self : CostPredictionEngine) (user_id : string)
    (usage : list DailyRecord) :
  ledger self user_id = Some usage ->
  user_usage self !! user_id = Some usage /\ usage <> [].
Proof.
  unfold ledger. destruct (user_usage self !! user_id) as [[|r l]|];
    try discriminate.
  intros H. injection H as <-. split; [reflexivity | discriminate].
Qed.

Lemma diversify_shape (by_provider : option (dict Stats))
    (recs1 : list Recommendation) :
  diversify by_provider [] = Ok recs1 ->
  recs1 = [] \/ exists x, recs1 = [x] /\ is_diversify x = true.
Proof.
  unfold diversify.
  destruct by_provider as [[|[p0 s0] rest]|];
    try (intros H; injection H as <-; now left).
  destruct (fold_left _ _ _) as [|first others]; [discriminate|].
  intros H. apply bind_ok in H as (share & _ & H).
  destruct (Qgtb share 0.5).
  - apply bind_ok in H as (share' & _ & H). injection H as <-.
    right. eexists. split; reflexivity.
  - injection H as <-. now left.
Qed.



End Reachable.

(* ================================================================== *)
(** * More on the provider cost model                                  *)
(* ================================================================== *)

Section EstimateOutcome.
Import provider_intelligence ProviderVocabulary ProviderSamples
       EstimateVocabulary.

(** The output tokens have the sign of the input tokens, or are 0. *)
Lemma total_tokens_zero (n : Z) :
  (n + int (inject_Z n * 0.2) = 0)%Z <-> n = 0%Z.
Proof.
  split; [|intros ->; reflexivity].
  intros H. destruct (Z.lt_trichotomy n 0) as [Hn|[Hn|Hn]]; [|exact Hn|].
  - assert (int (inject_Z n * 0.2) <= 0)%Z; [|lia].
    apply int_nonpos. rewrite Zlt_Qlt in Hn. change (inject_Z 0) with 0 in Hn.
    lra.
  - assert (0 <= int (inject_Z n * 0.2))%Z; [|lia].
    apply int_nonneg. rewrite Zlt_Qlt in Hn. change (inject_Z 0) with 0 in Hn.
    lra.
Qed.

(** The body of the estimate once the provider and the model are
    known. *)
Lemma estimate_provider_tokens_known (self : ProviderIntelligence)
    (text provider : string) (model : option string)
    (config : ProviderConfig) (m : string) :
  dict_get provider PROVIDERS = Some config ->
  chosen_model config model m ->
  dict_mem m (models config) = true ->
  let n := calibrated_tokens self text provider in
  let total := (n + int (inject_Z n * 0.2))%Z in
  (n = 0%Z ->
   estimate_provider_tokens self text provider model = Raise ZeroDivisionError)
  /\ (n <> 0%Z ->
      exists per_dollar,
        estimate_provider_tokens self text provider model
        = Ok {| e_provider := provider; e_model := m;
                estimated_input_tokens := n;
                estimated_output_tokens := int (inject_Z n * 0.2);
                total_tokens := total;
                e_cost_usd := round (raw_cost config n) 4;
                e_cost_per_1k_tokens :=
                  round (raw_cost config n * 1000 / inject_Z total) 4;
                e_tokens_per_dollar := round per_dollar 2 |}
        /\ (0 < raw_cost config n ->
            per_dollar = inject_Z total / raw_cost config n)
        /\ (raw_cost config n <= 0 -> per_dollar = 0)).
Proof.
  intros Hc Hm Hmem n total. unfold estimate_provider_tokens. rewrite Hc.
  assert (Hmodel : match model with
                   | Some m0 => Ok m0
                   | None => index (dict_keys (models config)) 0
                   end = Ok m).
  { destruct Hm as [->|[-> Hm]]; [reflexivity | exact Hm]. }
  rewrite Hmodel. cbn [bind]. rewrite Hmem. cbn [negb].
  fold (calibrated_tokens self text provider). fold n.
  fold (raw_cost config n). fold total.
  split.
  - intros Hn. rewrite truediv_zero; [reflexivity|].
    unfold total. rewrite Hn. reflexivity.
  - intros Hn.
    assert (Ht : ~ inject_Z total == 0).
    { intros E. unfold Qeq in E. simpl in E.
      apply Hn, total_tokens_zero. unfold total in E. lia. }
    rewrite (truediv_ok _ _ Ht). cbn [bind].
    destruct (Qgtb (raw_cost config n) 0) eqn:E.
    + apply Qgtb_gt in E. rewrite truediv_ok by lra. cbn [bind].
      eexists. split; [reflexivity|]. split; [reflexivity|]. intros; lra.
    + apply Qgtb_le in E. cbn [bind]. eexists. split; [reflexivity|].
      split; [intros; lra | reflexivity].
Qed.



End EstimateOutcome.

Section EstimateMonotone.
Import provider_intelligence ProviderVocabulary ProviderSamples
       EstimateVocabulary.

(** What a returned estimate is. *)
Lemma estimate_provider_tokens_ok (self : ProviderIntelligence)
    (text provider : string) (model : option string) (e : Estimate) :
  estimate_provider_tokens self text provider model = Ok e ->
  exists config m,
    dict_get provider PROVIDERS = Some config
    /\ chosen_model config model m
    /\ dict_mem m (models config) = true
    /\ calibrated_tokens self text provider <> 0%Z
    /\ e_provider e = provider /\ e_model e = m
    /\ estimated_input_tokens e = calibrated_tokens self text provider
    /\ total_tokens e
       = (calibrated_tokens self text provider
          + int (inject_Z (calibrated_tokens self text provider) * 0.2))%Z
    /\ e_cost_usd e
       = round (raw_cost config (calibrated_tokens self text provider)) 4.
Proof.
  intros H.
  destruct (dict_get provider PROVIDERS) as [config|] eqn:Hc.
  2: { unfold estimate_provider_tokens in H. rewrite Hc in H. discriminate. }
  assert (Hm : exists m, chosen_model config model m).
  { destruct model as [m|]; [exists m; now left|].
    destruct (PROVIDERS_default_model _ _ Hc) as (m & Hm & _).
    exists m. right. now split. }
  destruct Hm as [m Hm].
  destruct (dict_mem m (models config)) eqn:Hmem.
  2: { unfold estimate_provider_tokens in H. rewrite Hc in H.
       destruct Hm as [->|[-> Hm]]; [|rewrite Hm in H]; cbn [bind] in H;
         rewrite Hmem in H; discriminate. }
  destruct (estimate_provider_tokens_known self text provider model
              config m Hc Hm Hmem) as [H0 H1].
  destruct (Z.eq_dec (calibrated_tokens self text provider) 0%Z) as [Hn|Hn].
  { rewrite (H0 Hn) in H. discriminate. }
  destruct (H1 Hn) as (pd & He & _). rewrite He in H. injection H as <-.
  exists config, m. cbn. repeat split; auto.
Qed.

Lemma PROVIDERS_costs_pos (name : string) (config : ProviderConfig) :
  dict_get name PROVIDERS = Some config ->
  0 < cost_per_1k_input config /\ 0 < cost_per_1k_output config.
Proof.
  unfold PROVIDERS. cbn [dict_get]. intros H.
  repeat match type of H with
         | (if ?b then _ else _) = _ =>
             destruct b; [injection H as <-; split; reflexivity|]
         end.
  discriminate.
Qed.

Lemma text_len_nonneg (text : string) : (0 <= text_len text / 4)%Z.
Proof. apply Z.div_pos; unfold text_len; lia. Qed.

Lemma calibrated_tokens_mono (self : ProviderIntelligence)
    (text1 text2 provider : string) :
  ratio_nonneg self provider ->
  (String.length text1 <= String.length text2)%nat ->
  (0 <= calibrated_tokens self text1 provider
   <= calibrated_tokens self text2 provider)%Z.
Proof.
  unfold ratio_nonneg, calibration_of, calibrated_tokens.
  intros Hr Hlen.
  assert (H1 := text_len_nonneg text1).
  assert (H12 : (text_len text1 / 4 <= text_len text2 / 4)%Z).
  { apply Z.div_le_mono; unfold text_len; lia. }
  destruct (provider_calibration self !! provider) as [c|]; [|lia].
  cbn in Hr. rewrite Zle_Qle in H1, H12. change (inject_Z 0) with 0 in H1.
  split.
  - apply int_nonneg. nra.
  - apply int_mono_nonneg; nra.
Qed.

Lemma raw_cost_mono (config : ProviderConfig) (n1 n2 : Z) :
  0 < cost_per_1k_input config -> 0 < cost_per_1k_output config ->
  (0 <= n1 <= n2)%Z ->
  raw_cost config n1 <= raw_cost config n2.
Proof.
  intros Hi Ho [H1 H12]. unfold raw_cost.
  assert (Hout : (int (inject_Z n1 * 0.2) <= int (inject_Z n2 * 0.2))%Z).
  { rewrite Zle_Qle in H1, H12. change (inject_Z 0) with 0 in H1.
    apply int_mono_nonneg; lra. }
  rewrite Zle_Qle in H12, Hout.
  revert H12 Hout.
  generalize (inject_Z n1) (inject_Z n2)
             (inject_Z (int (inject_Z n1 * 0.2)))
             (inject_Z (int (inject_Z n2 * 0.2))).
  intros a b c d Hab Hcd.
  unfold Qdiv. change (/ 1000) with (1 # 1000).
  assert (0 <= (b - a) * cost_per_1k_input config) by nra.
  assert (0 <= (d - c) * cost_per_1k_output config) by nra.
  lra.
Qed.

(** X18. For a provider without calibration, or calibrated with a
    non-negative token ratio, the estimate does not decrease with the
    length of the text: of two texts that both get an estimate for the
    same provider and model, the longer one has at least as many
    input tokens, at least as many total tokens and at least the
    cost. *)
Theorem estimate_monotone (self : ProviderIntelligence)
    (text1 text2 provider : string) (model : option string)
    (e1 e2 : Estimate) :
  ratio_nonneg self provider ->
  (String.length text1 <= String.length text2)%nat ->
  estimate_provider_tokens self text1 provider model = Ok e1 ->
  estimate_provider_tokens self text2 provider model = Ok e2 ->
  (estimated_input_tokens e1 <= estimated_input_tokens e2)%Z
  /\ (total_tokens e1 <= total_tokens e2)%Z
  /\ e_cost_usd e1 <= e_cost_usd e2.
Proof.
  intros Hr Hlen H1 H2.
  apply estimate_provider_tokens_ok in H1
    as (c1 & m1 & Hc1 & _ & _ & _ & _ & _ & -> & -> & ->).
  apply estimate_provider_tokens_ok in H2
    as (c2 & m2 & Hc2 & _ & _ & _ & _ & _ & -> & -> & ->).
  rewrite Hc1 in Hc2. injection Hc2 as <-.
  destruct (PROVIDERS_costs_pos _ _ Hc1) as [Hi Ho].
  assert (Hn := calibrated_tokens_mono self text1 text2 provider Hr Hlen).
  split; [lia|]. split.
  - assert ((int (inject_Z (calibrated_tokens self text1 provider) * 0.2)
             <= int (inject_Z (calibrated_tokens self text2 provider) * 0.2))%Z);
      [|lia].
    destruct Hn as [Hn1 Hn2]. rewrite Zle_Qle in Hn1, Hn2.
    change (inject_Z 0) with 0 in Hn1. apply int_mono_nonneg; lra.
  - apply round_mono. now apply raw_cost_mono.
Qed.

Lemma estimate_monotone_witness :
  exists e1 e2,
    estimate_provider_tokens init "0123456789" "google" None = Ok e1
    /\ estimate_provider_tokens init long_text "google" None = Ok e2
    /\ e_cost_usd e1 <= e_cost_usd e2.
Proof.
  eexists _, _. split; [vm_compute; reflexivity|].
  split; [vm_compute; reflexivity|].
  refine (proj2 (proj2 (estimate_monotone init "0123456789" long_text
                          "google" None _ _ _ _ _ _))).
  - vm_compute. discriminate.
  - vm_compute. lia.
  - vm_compute. reflexivity.
  - vm_compute. reflexivity.
Defined.

End EstimateMonotone.

(* ================================================================== *)
(** * More on the calibrator                                           *)
(* ================================================================== *)

Section History.
Import provider_intelligence ProviderVocabulary ProviderSamples
       EstimateVocabulary CalibratorVocabulary.

Lemma calibration_of_lookup (self : ProviderIntelligence) (provider : string)
    (c : Calibration) :
  provider_calibration self !! provider = Some c ->
  calibration_of self provider = c.
Proof. intros H. unfold calibration_of. now rewrite H. Qed.

(** X19. Every enabled call of [learn_from_optimization] returns,
    whatever the provider name (it need not be in the pricing table),
    and appends exactly one entry to the history of its user, with the
    arguments of the call and the length of the text; the histories of
    the other users are unchanged. *)
Theorem learning_appends_history (self : ProviderIntelligence)
    (now user_id provider text : string) (tokens_estimated tokens_actual : Z)
    (cost : Q) (level : string) :
  learning_enabled self = true ->
  exists self',
    learn_from_optimization self now user_id provider text tokens_estimated
                            tokens_actual cost level = Ok self'
    /\ history_of self' user_id
       = history_of self user_id
         ++ [history_record now provider text tokens_estimated tokens_actual
                            cost level]
    /\ (forall other, other <> user_id ->
          user_history self' !! other = user_history self !! other)
    /\ learning_enabled self' = true.
Proof.
  intros E. unfold learn_from_optimization. rewrite E. cbn [negb].
  destruct (update_calibration_spec tokens_estimated tokens_actual cost
              (default initial_calibration
                       (provider_calibration self !! provider)))
    as (c & -> & _).
  cbn [bind]. eexists. split; [reflexivity|].
  unfold history_of. cbn [user_history learning_enabled].
  rewrite lookup_insert_eq. split; [reflexivity|]. split; [|reflexivity].
  intros other Hne. now apply lookup_insert_ne.
Qed.

Lemma learning_appends_history_witness :
  exists self',
    learn_from_optimization init "2026-10-01T09:00:00" "alice" "acme-llm"
                            "hello" 2 3 0.001 "balanced" = Ok self'
    /\ history_of self' "alice"
       = [history_record "2026-10-01T09:00:00" "acme-llm" "hello" 2 3 0.001
                         "balanced"].
Proof.
  destruct (learning_appends_history init "2026-10-01T09:00:00" "alice"
              "acme-llm" "hello" 2 3 0.001 "balanced")
    as (self' & Hl & Hh & _).
  - reflexivity.
  - exists self'. split; [exact Hl | exact Hh].
Defined.

End History.

Section PerProvider.
Import provider_intelligence ProviderVocabulary ProviderSamples
       EstimateVocabulary CalibratorVocabulary.

(** The estimate for a provider looks at the calibration of that
    provider only. *)
Lemma estimate_provider_tokens_ext (s1 s2 : ProviderIntelligence)
    (text provider : string) (model : option string) :
  provider_calibration s1 !! provider = provider_calibration s2 !! provider ->
  estimate_provider_tokens s1 text provider model
  = estimate_provider_tokens s2 text provider model.
Proof. intros H. unfold estimate_provider_tokens. now rewrite H. Qed.



End PerProvider.

Section Convergence.
Import provider_intelligence ProviderVocabulary ProviderSamples
       EstimateVocabulary CalibratorVocabulary.

Lemma decay_succ (n : nat) :
  (7 # 10) ^ Z.of_nat (S n) == (7 # 10) * (7 # 10) ^ Z.of_nat n.
Proof.
  rewrite Nat2Z.inj_succ, <- Z.add_1_l.
  rewrite Qpower_plus by discriminate. reflexivity.
Qed.

Lemma decay_bounds (n : nat) : 0 < (7 # 10) ^ Z.of_nat n <= 1.
Proof.
  induction n as [|n IH].
  - split; [reflexivity | discriminate].
  - rewrite decay_succ. destruct IH. split; nra.
Qed.



End Convergence.

(* ================================================================== *)
(** * More on the recommender                                          *)
(* ================================================================== *)

Section RecommendOutcome.
Import provider_intelligence ProviderVocabulary ProviderSamples
       EstimateVocabulary RecommenderVocabulary.

Lemma PROVIDERS_keys :
  dict_keys PROVIDERS = ["openai"; "anthropic"; "google"; "azure"; "groq"].
Proof. reflexivity. Qed.

Lemma PROVIDERS_known (name : string) :
  In name (dict_keys PROVIDERS) ->
  exists config, dict_get name PROVIDERS = Some config.
Proof.
  rewrite PROVIDERS_keys. cbn [In].
  intros [<-|[<-|[<-|[<-|[<-|[]]]]]]; eexists; reflexivity.
Qed.

Lemma provider_config_of_known (name : string) :
  In name (dict_keys PROVIDERS) ->
  exists config, provider_config_of name = Ok config
                 /\ (1 <= speed config <= 3)%Z /\ (1 <= quality config <= 3)%Z.
Proof.
  rewrite PROVIDERS_keys. cbn [In].
  intros [<-|[<-|[<-|[<-|[<-|[]]]]]]; eexists;
    (split; [reflexivity|]); cbn; lia.
Qed.

Lemma truediv_outcome (a b : Q) :
  returns (truediv a b) \/ truediv a b = Raise ZeroDivisionError.
Proof.
  unfold truediv. destruct (Qeqb b 0); [now right | left; eexists; reflexivity].
Qed.

Lemma _get_recommendation_badge_returns (estimate : Estimate)
    (preferences : Preferences) (config : ProviderConfig) :
  provider_config_of (e_provider estimate) = Ok config ->
  returns (_get_recommendation_badge estimate preferences).
Proof.
  intros Hc. unfold _get_recommendation_badge, returns. rewrite Hc. cbn [bind].
  repeat match goal with
         | |- context [if ?b then _ else _] => destruct b
         end; eexists; reflexivity.
Qed.

Lemma _calculate_rank_outcome (estimate : Estimate)
    (preferences : Preferences) (config : ProviderConfig) :
  provider_config_of (e_provider estimate) = Ok config ->
  returns (_calculate_rank estimate preferences)
  \/ _calculate_rank estimate preferences = Raise ZeroDivisionError.
Proof.
  intros Hc. unfold _calculate_rank. rewrite Hc. cbn [bind].
  destruct (Qgtb _ _); [left; eexists; reflexivity|].
  destruct (String.eqb _ "cost").
  { destruct (truediv_outcome (e_cost_usd estimate)
                (get_budget_limit preferences)) as [[q ->] | ->]; cbn [bind];
      [left; eexists; reflexivity | now right]. }
  destruct (String.eqb _ "speed"); [apply truediv_outcome|].
  destruct (String.eqb _ "quality"); [apply truediv_outcome|].
  left. eexists. reflexivity.
Qed.

(** A provider of the table gets its entry or fails by a division by
    zero, and fails when its token estimate is 0. *)
Lemma recommend_one_outcome (self : ProviderIntelligence) (text : string)
    (preferences : Preferences) (name : string) :
  In name (dict_keys PROVIDERS) ->
  (returns (recommend_one self text preferences name)
   \/ recommend_one self text preferences name = Raise ZeroDivisionError)
  /\ (calibrated_tokens self text name = 0%Z ->
      recommend_one self text preferences name = Raise ZeroDivisionError).
Proof.
  intros Hin. destruct (PROVIDERS_known name Hin) as [config Hc].
  destruct (PROVIDERS_default_model _ _ Hc) as (m & Hm & Hmem).
  destruct (estimate_provider_tokens_known self text name None config m Hc
              (or_intror (conj eq_refl Hm)) Hmem) as [H0 H1].
  destruct (provider_config_of_known name Hin) as (cfg & Hcfg & Hs & Hq).
  unfold recommend_one.
  destruct (Z.eq_dec (calibrated_tokens self text name) 0%Z) as [Hn|Hn].
  { rewrite (H0 Hn). cbn [bind]. split; [now right | reflexivity]. }
  split; [|congruence].
  destruct (H1 Hn) as (pd & -> & _). cbn [bind].
  match goal with
  | |- context [_get_recommendation_badge ?e preferences] =>
      destruct (_get_recommendation_badge_returns e preferences cfg Hcfg)
        as [badge ->];
      destruct (_calculate_rank_outcome e preferences cfg Hcfg)
        as [[r ->] | ->]
  end; cbn [bind]; [left; eexists; reflexivity | now right].
Qed.

Lemma map_result_outcome {A B} (f : A -> Result B) (l : list A) (e : Exc) :
  (forall x, In x l -> returns (f x) \/ f x = Raise e) ->
  (returns (map_result f l) \/ map_result f l = Raise e)
  /\ ((exists x, In x l /\ f x = Raise e) -> map_result f l = Raise e).
Proof.
  induction l as [|a l IH]; intros H.
  - split; [left; eexists; reflexivity | intros (x & [] & _)].
  - destruct IH as [IH1 IH2]; [intros x Hx; apply H; now right|].
    cbn [map_result].
    destruct (H a (or_introl eq_refl)) as [[b Hb]|Hb]; rewrite Hb; cbn [bind].
    + split.
      * destruct IH1 as [[bs ->] | ->]; cbn [bind];
          [left; eexists; reflexivity | now right].
      * intros (x & [<-|Hx] & Hf); [congruence|].
        rewrite IH2; [reflexivity|]. now exists x.
    + split; [now right | reflexivity].
Qed.

Lemma returns_Ok {A} (m : Result A) (a : A) : m = Ok a -> returns m.
Proof. intros ->. now exists a. Qed.

Lemma returns_Raise {A} (e : Exc) : ~ returns (Raise e : Result A).
Proof. intros [a H]. discriminate. Qed.

Lemma map_result_returns {A B} (f : A -> Result B) (l : list A) :
  returns (map_result f l) <-> forall x, In x l -> returns (f x).
Proof.
  induction l as [|a l IH]; cbn [map_result In].
  - split; [intros _ x [] | intros _; now exists []].
  - split.
    + intros [bs H]. apply bind_ok in H as (b & Hb & H).
      apply bind_ok in H as (bs' & Hbs & _).
      intros x [<-|Hx]; [now exists b|].
      apply IH; [now exists bs' | exact Hx].
    + intros H. destruct (H a (or_introl eq_refl)) as [b ->].
      destruct (proj2 IH (fun x Hx => H x (or_intror Hx))) as [bs ->].
      cbn [bind]. eexists. reflexivity.
Qed.

(** Sorting raises only when a key does. *)
Lemma sort_by_returns {A} (reverse : bool) (key : A -> Result Q)
    (l : list A) :
  (forall x, In x l -> returns (key x)) -> returns (sort_by reverse key l).
Proof.
  intros H. unfold sort_by.
  assert (Hk : returns (map_result (fun x => let* k := key x in Ok (k, x)) l)).
  { apply map_result_returns. intros x Hx. destruct (H x Hx) as [k ->].
    cbn [bind]. eexists. reflexivity. }
  destruct Hk as [keyed ->]. cbn [bind]. eexists. reflexivity.
Qed.

(** When the rank of an estimate is defined. *)
Lemma _calculate_rank_returns (estimate : Estimate)
    (preferences : Preferences) (config : ProviderConfig) :
  provider_config_of (e_provider estimate) = Ok config ->
  (1 <= speed config <= 3)%Z -> (1 <= quality config <= 3)%Z ->
  returns (_calculate_rank estimate preferences)
  <-> (get_priority preferences = "cost" ->
       get_budget_limit preferences == 0 -> 0 < e_cost_usd estimate).
Proof.
  intros Hc Hs Hq. unfold _calculate_rank. rewrite Hc. cbn [bind].
  destruct (Qgtb _ _) eqn:Eg.
  { apply Qgtb_gt in Eg. split; [|intros _; eexists; reflexivity].
    intros _ _ Hb. rewrite Hb in Eg. exact Eg. }
  apply Qgtb_le in Eg.
  destruct (String.eqb _ "cost") eqn:Ec.
  { apply String.eqb_eq in Ec.
    destruct (Qeq_dec (get_budget_limit preferences) 0) as [Hb|Hb].
    - rewrite (truediv_zero _ _ Hb). cbn [bind]. split.
      + intros H. now apply returns_Raise in H.
      + intros H. specialize (H Ec Hb). rewrite Hb in Eg. lra.
    - rewrite (truediv_ok _ _ Hb). cbn [bind]. split.
      + intros _ _ Hb'. contradiction.
      + intros _. eexists. reflexivity. }
  apply String.eqb_neq in Ec.
  assert (Hz : forall n, (1 <= n <= 3)%Z -> ~ inject_Z n == 0).
  { intros n Hn E. unfold Qeq in E. simpl in E. lia. }
  split; [intros _ Hp; contradiction|]. intros _.
  destruct (String.eqb _ "speed");
    [rewrite (truediv_ok _ _ (Hz _ Hs)); eexists; reflexivity|].
  destruct (String.eqb _ "quality");
    [rewrite (truediv_ok _ _ (Hz _ Hq)); eexists; reflexivity|].
  eexists. reflexivity.
Qed.

(** The entry of a provider of the table: its provider name, its cost,
    and when it is defined. *)
Lemma recommend_one_returns (self : ProviderIntelligence) (text : string)
    (preferences : Preferences) (name : string) :
  In name (dict_keys PROVIDERS) ->
  returns (recommend_one self text preferences name)
  <-> calibrated_tokens self text name <> 0%Z
      /\ (get_priority preferences = "cost" ->
          get_budget_limit preferences == 0 ->
          0 < rounded_cost self text name).
Proof.
  intros Hin. destruct (PROVIDERS_known name Hin) as [config Hc].
  destruct (PROVIDERS_default_model _ _ Hc) as (m & Hm & Hmem).
  destruct (estimate_provider_tokens_known self text name None config m Hc
              (or_intror (conj eq_refl Hm)) Hmem) as [H0 H1].
  destruct (provider_config_of_known name Hin) as (cfg & Hcfg & Hs & Hq).
  unfold recommend_one, rounded_cost. rewrite Hc.
  destruct (Z.eq_dec (calibrated_tokens self text name) 0%Z) as [Hn|Hn].
  { rewrite (H0 Hn). cbn [bind]. split.
    - intros H. now apply returns_Raise in H.
    - intros [H _]. contradiction. }
  destruct (H1 Hn) as (pd & -> & _). cbn [bind].
  match goal with
  | |- context [_get_recommendation_badge ?e preferences] =>
      destruct (_get_recommendation_badge_returns e preferences cfg Hcfg)
        as [badge ->];
      pose proof (_calculate_rank_returns e preferences cfg Hcfg Hs Hq) as Hr
  end.
  cbn [bind e_cost_usd] in *. split.
  - intros [x Hx]. split; [exact Hn|]. apply Hr.
    apply bind_ok in Hx as (r & Hx & _). now exists r.
  - intros [_ H]. apply Hr in H as [r ->]. cbn [bind]. eexists. reflexivity.
Qed.

Lemma recommend_one_provider (self : ProviderIntelligence) (text : string)
    (preferences : Preferences) (name : string) (x : ProviderRecommendation) :
  recommend_one self text preferences name = Ok x -> provider x = name.
Proof.
  intros H. apply recommend_one_ok in H as (e & b & He & _ & _ & _ & Hw).
  unfold without_rank in Hw. injection Hw as Hp _ _ _ _ _ _ _.
  rewrite Hp. clear - He. unfold estimate_provider_tokens in He.
  destruct (dict_get name PROVIDERS); [|discriminate].
  apply bind_ok in He as (m & _ & He).
  destruct (negb _); [discriminate|].
  apply bind_ok in He as (p1 & _ & He).
  apply bind_ok in He as (p2 & _ & He). now injection He as <-.
Qed.

Lemma map_result_provider (self : ProviderIntelligence) (text : string)
    (preferences : Preferences) (names : list string)
    (recommendations : list ProviderRecommendation) :
  map_result (recommend_one self text preferences) names
  = Ok recommendations ->
  List.map provider recommendations = names.
Proof.
  revert recommendations.
  induction names as [|n names IH]; intros recs H; cbn [map_result] in H.
  - now injection H as <-.
  - apply bind_ok in H as (x & Hx & H).
    apply bind_ok in H as (xs & Hxs & H). injection H as <-.
    cbn [List.map]. f_equal; [now apply recommend_one_provider in Hx|].
    now apply IH.
Qed.

(** The sort of [get_provider_recommendations] never raises: every
    entry carries a provider of the table. *)
Lemma sort_stage_returns (self : ProviderIntelligence) (text : string)
    (preferences : Preferences)
    (recommendations : list ProviderRecommendation) :
  map_result (recommend_one self text preferences) (dict_keys PROVIDERS)
  = Ok recommendations ->
  forall x, In x recommendations ->
    returns (let* c := provider_config_of (provider x) in
             Ok (inject_Z (speed c)))
    /\ returns (let* c := provider_config_of (provider x) in
                Ok (inject_Z (quality c))).
Proof.
  intros H x Hx. apply map_result_provider in H.
  assert (Hin : In (provider x) (dict_keys PROVIDERS)).
  { rewrite <- H. now apply in_map. }
  destruct (provider_config_of_known _ Hin) as (cfg & -> & _).
  cbn [bind]. split; eexists; reflexivity.
Qed.



End RecommendOutcome.

Section RecommendOrder.
Import provider_intelligence ProviderVocabulary ProviderSamples
       EstimateVocabulary RecommenderVocabulary.

(** The five entries, in table order. *)
Lemma map_result_five (self : ProviderIntelligence) (text : string)
    (preferences : Preferences)
    (recommendations : list ProviderRecommendation) :
  map_result (recommend_one self text preferences) (dict_keys PROVIDERS)
  = Ok recommendations ->
  exists r1 r2 r3 r4 r5,
    recommendations = [r1; r2; r3; r4; r5]
    /\ recommend_one self text preferences "openai" = Ok r1
    /\ recommend_one self text preferences "anthropic" = Ok r2
    /\ recommend_one self text preferences "google" = Ok r3
    /\ recommend_one self text preferences "azure" = Ok r4
    /\ recommend_one self text preferences "groq" = Ok r5.
Proof.
  rewrite PROVIDERS_keys. cbn [map_result]. intros H.
  apply bind_ok in H as (r1 & H1 & H).
  apply bind_ok in H as (l1 & H & E1). injection E1 as <-.
  apply bind_ok in H as (r2 & H2 & H).
  apply bind_ok in H as (l2 & H & E2). injection E2 as <-.
  apply bind_ok in H as (r3 & H3 & H).
  apply bind_ok in H as (l3 & H & E3). injection E3 as <-.
  apply bind_ok in H as (r4 & H4 & H).
  apply bind_ok in H as (l4 & H & E4). injection E4 as <-.
  apply bind_ok in H as (r5 & H5 & H).
  apply bind_ok in H as (l5 & H & E5). injection E5 as <-.
  injection H as <-. now exists r1, r2, r3, r4, r5.
Qed.

(** The badge of a returned entry under the priorities speed and
    quality. *)
Lemma recommend_one_badge (self : ProviderIntelligence) (text : string)
    (preferences : Preferences) (name : string) (config : ProviderConfig)
    (x : ProviderRecommendation) :
  recommend_one self text preferences name = Ok x ->
  provider_config_of name = Ok config ->
  (get_priority preferences = "speed" -> speed config = 1%Z ->
   recommendation x = "FASTEST")
  /\ (get_priority preferences = "quality" -> quality config = 1%Z ->
      recommendation x = "BEST_QUALITY").
Proof.
  intros H Hc. pose proof (recommend_one_provider _ _ _ _ _ H) as Hp.
  apply recommend_one_ok in H as (e & b & _ & Hb & _ & _ & Hw).
  unfold without_rank in Hw. injection Hw as He _ _ _ _ _ _ Hr.
  rewrite Hp in He. unfold _get_recommendation_badge in Hb.
  rewrite <- He, Hc in Hb. cbn [bind] in Hb. rewrite Hr.
  split; intros Hpr Hone; rewrite Hpr, Hone in Hb; cbn in Hb;
    now injection Hb as <-.
Qed.

(** The model of an entry is the first one of its provider. *)
Lemma recommend_one_model (self : ProviderIntelligence) (text : string)
    (preferences : Preferences) (name : string) (config : ProviderConfig)
    (m : string) (x : ProviderRecommendation) :
  recommend_one self text preferences name = Ok x ->
  dict_get name PROVIDERS = Some config ->
  index (dict_keys (models config)) 0 = Ok m ->
  model x = m.
Proof.
  intros H Hc Hm.
  apply recommend_one_ok in H as (e & b & He & _ & _ & _ & Hw).
  unfold without_rank in Hw. injection Hw as _ -> _ _ _ _ _ _.
  unfold estimate_provider_tokens in He. rewrite Hc, Hm in He.
  cbn [bind] in He. destruct (negb _); [discriminate|].
  apply bind_ok in He as (p1 & _ & He).
  apply bind_ok in He as (p2 & _ & He). now injection He as <-.
Qed.

(** X23. Under the priorities speed and quality the answer does not
    depend on the text, the calibration or the budget: whenever the
    call returns, it names openai, azure and anthropic, in this order,
    each with the first model of its table entry (google ties with
    anthropic and loses by table order). The first two carry the badge
    FASTEST under speed and BEST_QUALITY under quality. *)
Theorem speed_quality_order (self : ProviderIntelligence) (text : string)
    (user_preferences : option Preferences)
    (recs : list ProviderRecommendation) :
  get_provider_recommendations self text user_preferences = Ok recs ->
  forall badge,
    (get_priority (effective user_preferences) = "speed"
     /\ badge = "FASTEST")
    \/ (get_priority (effective user_preferences) = "quality"
        /\ badge = "BEST_QUALITY") ->
    List.map (fun x => (provider x, model x)) recs
    = [("openai", "gpt-4-turbo"); ("azure", "gpt-4-deployment");
       ("anthropic", "claude-3-opus")]
    /\ List.map recommendation (firstn 2 recs) = [badge; badge].
Proof.
  unfold get_provider_recommendations. fold (effective user_preferences).
  set (p := effective user_preferences). intros H badge Hp.
  apply bind_ok in H as (recommendations & Hm & H).
  apply bind_ok in H as (sorted & Hs & H). injection H as <-.
  destruct (map_result_five _ _ _ _ Hm)
    as (r1 & r2 & r3 & r4 & r5 & -> & H1 & H2 & H3 & H4 & H5).
  pose proof (recommend_one_provider _ _ _ _ _ H1) as P1.
  pose proof (recommend_one_provider _ _ _ _ _ H2) as P2.
  pose proof (recommend_one_provider _ _ _ _ _ H3) as P3.
  pose proof (recommend_one_provider _ _ _ _ _ H4) as P4.
  pose proof (recommend_one_provider _ _ _ _ _ H5) as P5.
  pose proof (recommend_one_model _ _ _ _ _ _ _ H1 eq_refl eq_refl) as M1.
  pose proof (recommend_one_model _ _ _ _ _ _ _ H2 eq_refl eq_refl) as M2.
  pose proof (recommend_one_model _ _ _ _ _ _ _ H4 eq_refl eq_refl) as M4.
  assert (Hsorted : sorted = [r1; r4; r2; r3; r5]).
  { destruct Hp as [[Hp _]|[Hp _]]; rewrite Hp in Hs; cbn [String.eqb] in Hs;
      unfold sort_by in Hs; cbn [map_result] in Hs;
      rewrite P1, P2, P3, P4, P5 in Hs; vm_compute in Hs;
      now injection Hs as <-. }
  subst sorted. cbn [firstn List.map]. rewrite P1, P2, P4, M1, M2, M4.
  split; [reflexivity|].
  destruct Hp as [[Hp ->]|[Hp ->]].
  - rewrite (proj1 (recommend_one_badge _ _ _ _ _ _ H1 eq_refl) Hp eq_refl).
    rewrite (proj1 (recommend_one_badge _ _ _ _ _ _ H4 eq_refl) Hp eq_refl).
    reflexivity.
  - rewrite (proj2 (recommend_one_badge _ _ _ _ _ _ H1 eq_refl) Hp eq_refl).
    rewrite (proj2 (recommend_one_badge _ _ _ _ _ _ H4 eq_refl) Hp eq_refl).
    reflexivity.
Qed.

Lemma speed_quality_order_witness :
  exists recs,
    get_provider_recommendations init long_text
      (Some {| priority := Some "speed"; budget_limit := None |}) = Ok recs
    /\ List.map (fun x => (provider x, model x)) recs
       = [("openai", "gpt-4-turbo"); ("azure", "gpt-4-deployment");
          ("anthropic", "claude-3-opus")]
    /\ List.map recommendation (firstn 2 recs) = ["FASTEST"; "FASTEST"].
Proof.
  eexists. split; [vm_compute; reflexivity|].
  match goal with
  | |- List.map _ ?l = _ /\ _ =>
      apply (speed_quality_order init long_text
               (Some {| priority := Some "speed"; budget_limit := None |}) l)
  end; [vm_compute; reflexivity | left; split; reflexivity].
Defined.

End RecommendOrder.

Section RecommendSorted.
Import provider_intelligence ProviderVocabulary ProviderSamples
       EstimateVocabulary RecommenderVocabulary.

Lemma key_order_trans (reverse : bool) (a b c : Q) :
  key_order reverse a b -> key_order reverse b c -> key_order reverse a c.
Proof. destruct reverse; cbn; intros; lra. Qed.

(** An insertion puts the item before the first one it may precede. *)
Lemma insertion_cases {A} (reverse : bool) (x y : Q * A)
    (rest : list (Q * A)) :
  (insertion reverse x (y :: rest) = x :: y :: rest
   /\ key_order reverse (fst x) (fst y))
  \/ (insertion reverse x (y :: rest) = y :: insertion reverse x rest
      /\ key_order reverse (fst y) (fst x)).
Proof.
  destruct reverse; cbn [insertion insert_asc insert_desc key_order];
    match goal with |- context [Qleb ?a ?b] => destruct (Qleb a b) eqn:E end;
    try (left; split; [reflexivity | now apply Qleb_le]);
    right; (split; [reflexivity|]);
    apply Qlt_le_weak, Qnot_le_lt; intros H; apply Qleb_le in H; congruence.
Qed.

Lemma insertion_sorted {A} (reverse : bool) (x : Q * A) (l : list (Q * A)) :
  sorted_keys (key_order reverse) (List.map fst l) ->
  sorted_keys (key_order reverse) (List.map fst (insertion reverse x l)).
Proof.
  induction l as [|y rest IH]; intros H.
  - destruct reverse; cbn; (split; [apply List.Forall_nil | exact I]).
  - cbn [List.map sorted_keys] in H. destruct H as [Hy Hrest].
    destruct (insertion_cases reverse x y rest) as [[-> Ho]|[-> Ho]];
      cbn [List.map sorted_keys].
    + split; [|split; assumption].
      constructor; [exact Ho|].
      eapply List.Forall_impl; [|exact Hy].
      intros k Hk. now apply key_order_trans with (fst y).
    + split; [|now apply IH].
      apply List.Forall_forall. intros k Hk.
      apply in_map_iff in Hk as (p & <- & Hp).
      apply insertion_in in Hp as [->|Hp]; [exact Ho|].
      rewrite List.Forall_forall in Hy. apply Hy. now apply in_map.
Qed.

Lemma map_result_total {A B} (f : A -> B) (l : list A) :
  map_result (fun x => Ok (f x)) l = Ok (List.map f l).
Proof.
  induction l as [|a l IH]; cbn [map_result List.map bind]; [reflexivity|].
  now rewrite IH.
Qed.

(** Sorting by a key that cannot raise: the keys come out in order and
    the items are the same. *)
Lemma sort_by_sorted {A} (reverse : bool) (key : A -> Q)
    (l sorted : list A) :
  sort_by reverse (fun x => Ok (key x)) l = Ok sorted ->
  sorted_keys (key_order reverse) (List.map key sorted)
  /\ (forall x, In x sorted <-> In x l).
Proof.
  rewrite sort_by_unfold. cbn [bind].
  rewrite (map_result_total (fun x => (key x, x))). cbn [bind].
  intros H. injection H as <-.
  set (keyed := List.map (fun x => (key x, x)) l).
  set (s := fold_right (insertion reverse) [] keyed).
  assert (Hin : forall p, In p s <-> exists x, In x l /\ p = (key x, x)).
  { intros p. unfold s. rewrite insertion_sort_in. unfold keyed.
    rewrite in_map_iff. split; intros (x & H1 & H2); exists x; auto. }
  split.
  - assert (E : List.map key (List.map snd s) = List.map fst s).
    { rewrite List.map_map. apply map_ext_in. intros p Hp.
      apply Hin in Hp as (x & _ & ->). reflexivity. }
    rewrite E. unfold s. clear. induction keyed as [|p keyed IH];
      cbn [fold_right]; [exact I | now apply insertion_sorted].
  - intros x. rewrite in_map_iff. split.
    + intros (p & <- & Hp). apply Hin in Hp as (y & Hy & ->). exact Hy.
    + intros Hx. exists (key x, x). split; [reflexivity|].
      apply Hin. now exists x.
Qed.

Lemma sorted_keys_firstn (le : Q -> Q -> Prop) (n : nat) (l : list Q) :
  sorted_keys le l -> sorted_keys le (firstn n l).
Proof.
  revert n. induction l as [|k l IH]; intros [|n] H; cbn; auto.
  destruct H as [Hk Hl]. split; [|now apply IH].
  apply List.Forall_forall. intros b Hb. apply in_firstn in Hb.
  rewrite List.Forall_forall in Hk. now apply Hk.
Qed.

Lemma sorted_keys_app (le : Q -> Q -> Prop) (l1 l2 : list Q) :
  sorted_keys le (l1 ++ l2) ->
  forall a b, In a l1 -> In b l2 -> le a b.
Proof.
  induction l1 as [|k l1 IH]; intros H a b Ha Hb; [destruct Ha|].
  cbn in H. destruct H as [Hk H]. destruct Ha as [<-|Ha].
  - rewrite List.Forall_forall in Hk. apply Hk, in_or_app. now right.
  - now apply IH.
Qed.

(** In a sorted list cut after [n] items, an item left out comes after
    every item kept. *)
Lemma left_out_after {A} (le : Q -> Q -> Prop) (key : A -> Q) (n : nat)
    (l : list A) (x y : A) :
  sorted_keys le (List.map key l) ->
  In x (firstn n l) -> In y l -> ~ In y (firstn n l) ->
  le (key x) (key y).
Proof.
  intros Hs Hx Hy Hn. rewrite <- (firstn_skipn n l) in Hs, Hy.
  rewrite List.map_app in Hs. apply in_app_or in Hy as [Hy|Hy]; [contradiction|].
  apply (sorted_keys_app _ _ _ Hs); now apply in_map.
Qed.

Lemma map_result_image {A B} (f : A -> Result B) (l : list A) (ys : list B) :
  map_result f l = Ok ys ->
  forall x, In x l -> exists y, In y ys /\ f x = Ok y.
Proof.
  revert ys. induction l as [|a l IH]; intros ys H x Hx; [destruct Hx|].
  cbn [map_result] in H.
  apply bind_ok in H as (b & Hb & H).
  apply bind_ok in H as (bs & Hbs & H). injection H as <-.
  destruct Hx as [<-|Hx].
  - exists b. split; [now left | exact Hb].
  - destruct (IH bs Hbs x Hx) as (y & Hy & Hfy).
    exists y. split; [now right | exact Hfy].
Qed.

(** The entry of a provider that the answer leaves out. *)
Lemma left_out_entry (self : ProviderIntelligence) (text : string)
    (preferences : Preferences) (n : nat)
    (recommendations sorted : list ProviderRecommendation)
    (name : string) (e : Estimate) :
  map_result (recommend_one self text preferences) (dict_keys PROVIDERS)
  = Ok recommendations ->
  (forall x, In x sorted <-> In x recommendations) ->
  In name (dict_keys PROVIDERS) ->
  ~ In name (List.map provider (firstn n sorted)) ->
  estimate_provider_tokens self text name None = Ok e ->
  exists y, In y sorted /\ ~ In y (firstn n sorted)
            /\ cost_usd y = e_cost_usd e
            /\ tokens_per_dollar y = e_tokens_per_dollar e.
Proof.
  intros Hm Hin Hname Hout He.
  destruct (map_result_image _ _ _ Hm name Hname) as (y & Hy & Hfy).
  pose proof (recommend_one_provider _ _ _ _ _ Hfy) as Hp.
  apply recommend_one_ok in Hfy as (e' & b & He' & _ & _ & Hc & Hw).
  rewrite He in He'. injection He' as <-.
  unfold without_rank in Hw. injection Hw as _ _ _ _ Ht _ _ _.
  exists y. split; [now apply Hin|]. split; [|split; assumption].
  intros Hy'. apply Hout. rewrite <- Hp. now apply in_map.
Qed.

(** X24. The order of the answer under the priority cost and under the
    default priority. Under cost the returned entries are in ascending
    order of [cost_usd], and no provider left out has a lower
    [cost_usd] than a returned one. Under a priority other than cost,
    speed and quality they are in descending order of
    [tokens_per_dollar], and no provider left out has a higher one. *)
Theorem recommendations_sorted (self : ProviderIntelligence)
    (text : string) (user_preferences : option Preferences)
    (recs : list ProviderRecommendation) :
  get_provider_recommendations self text user_preferences = Ok recs ->
  let p := get_priority (effective user_preferences) in
  (p = "cost" ->
   sorted_keys Qle (List.map cost_usd recs)
   /\ forall name e x,
        In name (dict_keys PROVIDERS) ->
        ~ In name (List.map provider recs) ->
        estimate_provider_tokens self text name None = Ok e ->
        In x recs -> cost_usd x <= e_cost_usd e)
  /\ (p <> "cost" -> p <> "speed" -> p <> "quality" ->
      sorted_keys (fun a b => b <= a) (List.map tokens_per_dollar recs)
      /\ forall name e x,
           In name (dict_keys PROVIDERS) ->
           ~ In name (List.map provider recs) ->
           estimate_provider_tokens self text name None = Ok e ->
           In x recs -> e_tokens_per_dollar e <= tokens_per_dollar x).
Proof.
  intros H p. unfold get_provider_recommendations in H.
  fold (effective user_preferences) in H. fold p in H.
  apply bind_ok in H as (recommendations & Hm & H).
  apply bind_ok in H as (sorted & Hs & H). injection H as <-.
  split.
  - intros Hp. apply String.eqb_eq in Hp. rewrite Hp in Hs.
    apply sort_by_sorted in Hs as [Hsorted Hin]. split.
    + rewrite <- firstn_map. apply sorted_keys_firstn. exact Hsorted.
    + intros name e x Hname Hout He Hx.
      destruct (left_out_entry _ _ _ 3 _ _ _ _ Hm Hin Hname Hout He)
        as (y & Hy & Hny & <- & _).
      exact (left_out_after _ cost_usd 3 sorted x y Hsorted Hx Hy Hny).
  - intros H1 H2 H3.
    apply String.eqb_neq in H1, H2, H3. rewrite H1, H2, H3 in Hs.
    apply sort_by_sorted in Hs as [Hsorted Hin]. split.
    + rewrite <- firstn_map. apply sorted_keys_firstn. exact Hsorted.
    + intros name e x Hname Hout He Hx.
      destruct (left_out_entry _ _ _ 3 _ _ _ _ Hm Hin Hname Hout He)
        as (y & Hy & Hny & _ & <-).
      exact (left_out_after _ tokens_per_dollar 3 sorted x y Hsorted
               Hx Hy Hny).
Qed.

Lemma recommendations_sorted_witness :
  exists recs,
    get_provider_recommendations init long_text None = Ok recs
    /\ sorted_keys Qle (List.map cost_usd recs).
Proof.
  eexists. split; [vm_compute; reflexivity|].
  match goal with
  | |- sorted_keys _ (List.map _ ?l) =>
      destruct (recommendations_sorted init long_text None l) as [H _];
        [vm_compute; reflexivity | exact (proj1 (H eq_refl))]
  end.
Defined.

Lemma sorted_keys_map {A} (le1 le2 : Q -> Q -> Prop) (k1 k2 : A -> Q)
    (l : list A) :
  (forall x y, In x l -> In y l -> le1 (k1 x) (k1 y) -> le2 (k2 x) (k2 y)) ->
  sorted_keys le1 (List.map k1 l) -> sorted_keys le2 (List.map k2 l).
Proof.
  induction l as [|a l IH]; intros Hmono H; [exact I|].
  cbn [List.map sorted_keys] in *. destruct H as [Ha Hl]. split.
  - apply List.Forall_forall. intros k Hk.
    apply in_map_iff in Hk as (y & <- & Hy).
    apply Hmono; [now left | now right |].
    rewrite List.Forall_forall in Ha. apply Ha. now apply in_map.
  - apply IH; [|exact Hl]. intros x y Hx Hy. apply Hmono; now right.
Qed.

(** The rank of an entry under the priority cost with a positive
    budget limit. *)
Lemma rank_by_cost (self : ProviderIntelligence) (text : string)
    (preferences : Preferences) (name : string) (x : ProviderRecommendation) :
  recommend_one self text preferences name = Ok x ->
  get_priority preferences = "cost" ->
  0 < get_budget_limit preferences ->
  (get_budget_limit preferences < cost_usd x /\ rank x = 0)
  \/ (cost_usd x <= get_budget_limit preferences
      /\ rank x = 1 - cost_usd x / get_budget_limit preferences).
Proof.
  intros H Hp Hb.
  apply recommend_one_ok in H as (e & b & _ & _ & Hr & -> & _).
  unfold _calculate_rank in Hr. rewrite Hp in Hr.
  destruct (Qgtb _ _) eqn:E.
  - left. apply Qgtb_gt in E. split; [exact E | now injection Hr].
  - right. apply Qgtb_le in E. split; [exact E|].
    rewrite truediv_ok in Hr by lra. cbn in Hr. now injection Hr.
Qed.

Lemma rank_cost_antitone (b c1 c2 r1 r2 : Q) :
  0 < b -> c1 <= c2 ->
  (b < c1 /\ r1 = 0) \/ (c1 <= b /\ r1 = 1 - c1 / b) ->
  (b < c2 /\ r2 = 0) \/ (c2 <= b /\ r2 = 1 - c2 / b) ->
  r2 <= r1 /\ 0 <= r1 /\ (0 <= c1 -> r1 <= 1).
Proof.
  intros Hb Hc H1 H2.
  assert (Hi : 0 < / b) by now apply Qinv_lt_0_compat.
  assert (Ei : b * / b == 1) by (apply Qmult_inv_r; lra).
  unfold Qdiv in *. revert Hi Ei H1 H2. generalize (/ b). intros i Hi Ei H1 H2.
  assert (P1 : 0 <= (c2 - c1) * i) by (apply Qmult_le_0_compat; lra).
  assert (P2 : c1 <= b -> 0 <= (b - c1) * i)
    by (intros; apply Qmult_le_0_compat; lra).
  assert (P3 : 0 <= c1 -> 0 <= c1 * i)
    by (intros; apply Qmult_le_0_compat; lra).
  assert (F1 : (c2 - c1) * i == c2 * i - c1 * i) by ring.
  assert (F2 : (b - c1) * i == b * i - c1 * i) by ring.
  destruct H1 as [[H1 ->]|[H1 ->]], H2 as [[H2 ->]|[H2 ->]];
    try specialize (P2 H1); (split; [|split; [|intros H0; specialize (P3 H0)]]); lra.
Qed.

(** The answer under the priority cost is in ascending order of
    [cost_usd]. *)
Lemma answer_ascending_cost (self : ProviderIntelligence)
    (text : string) (user_preferences : option Preferences)
    (recs : list ProviderRecommendation) :
  get_provider_recommendations self text user_preferences = Ok recs ->
  get_priority (effective user_preferences) = "cost" ->
  sorted_keys Qle (List.map cost_usd recs).
Proof.
  intros H Hp. unfold get_provider_recommendations in H.
  fold (effective user_preferences) in H.
  apply bind_ok in H as (recommendations & Hm & H).
  apply bind_ok in H as (sorted & Hs & H). injection H as <-.
  apply String.eqb_eq in Hp. rewrite Hp in Hs.
  apply sort_by_sorted in Hs as [Hsorted _].
  rewrite <- firstn_map. now apply sorted_keys_firstn.
Qed.

(** X25. Under the priority cost with a positive budget limit the
    returned list is also in descending order of [rank]: the entries
    within budget come first, by falling rank, the entries over budget
    follow with rank 0. No rank is negative, and an entry whose
    [cost_usd] is not negative has a rank of at most 1. *)
Theorem cost_priority_rank (self : ProviderIntelligence) (text : string)
    (user_preferences : option Preferences)
    (recs : list ProviderRecommendation) :
  get_provider_recommendations self text user_preferences = Ok recs ->
  get_priority (effective user_preferences) = "cost" ->
  0 < get_budget_limit (effective user_preferences) ->
  sorted_keys (fun a b => b <= a) (List.map rank recs)
  /\ forall x, In x recs -> 0 <= rank x /\ (0 <= cost_usd x -> rank x <= 1).
Proof.
  intros H Hp Hb.
  pose proof (answer_ascending_cost _ _ _ _ H Hp) as Hsorted.
  apply get_provider_recommendations_ok in H
    as (recommendations & reverse & key & sorted & Hm & Hs & -> & _).
  apply sort_by_in in Hs as [_ Hin].
  assert (Hrank : forall x, In x (firstn 3 sorted) ->
            (get_budget_limit (effective user_preferences) < cost_usd x
             /\ rank x = 0)
            \/ (cost_usd x <= get_budget_limit (effective user_preferences)
                /\ rank x
                   = 1 - cost_usd x
                         / get_budget_limit (effective user_preferences))).
  { intros x Hx. apply in_firstn, Hin in Hx.
    destruct (map_result_in _ _ _ Hm _ Hx) as (name & _ & Hname).
    exact (rank_by_cost _ _ _ _ _ Hname Hp Hb). }
  split.
  - apply (sorted_keys_map Qle _ cost_usd rank); [|exact Hsorted].
    intros x y Hx Hy Hxy.
    apply (rank_cost_antitone _ _ _ _ _ Hb Hxy (Hrank x Hx) (Hrank y Hy)).
  - intros x Hx.
    apply (rank_cost_antitone _ _ _ _ _ Hb (Qle_refl _) (Hrank x Hx)
             (Hrank x Hx)).
Qed.

Lemma cost_priority_rank_witness :
  exists recs,
    get_provider_recommendations init long_text None = Ok recs
    /\ sorted_keys (fun a b => b <= a) (List.map rank recs).
Proof.
  eexists. split; [vm_compute; reflexivity|].
  match goal with
  | |- sorted_keys _ (List.map _ ?l) =>
      apply (cost_priority_rank init long_text None l);
        [vm_compute; reflexivity | reflexivity | reflexivity]
  end.
Defined.

End RecommendSorted.

Section Potential.
Import provider_intelligence ProviderVocabulary ProviderSamples
       EstimateVocabulary RecommenderVocabulary.

(** X26. The savings table of an estimate lists conservative, balanced
    and aggressive, in this order, with the percentages 15, 28 and 42.
    For a non-negative token total the tokens saved are non-negative,
    grow with the level and stay within the total; with a non-negative
    cost per 1k tokens the cost saved is non-negative and grows with
    the level too. *)
Theorem optimization_potential_levels (estimate : Estimate) :
  exists c b a,
    _calculate_optimization_potential estimate
    = [("conservative", c); ("balanced", b); ("aggressive", a)]
    /\ List.map p_tokens_saved_pct [c; b; a] = [15; 28; 42]%Z
    /\ List.map cost_saved_pct [c; b; a] = [15; 28; 42]%Z
    /\ ((0 <= total_tokens estimate)%Z ->
        (0 <= tokens_saved c <= tokens_saved b)%Z
        /\ (tokens_saved b <= tokens_saved a <= total_tokens estimate)%Z
        /\ (0 <= e_cost_per_1k_tokens estimate ->
            0 <= cost_saved c /\ cost_saved c <= cost_saved b
            /\ cost_saved b <= cost_saved a)).
Proof.
  do 3 eexists. split; [reflexivity|]. cbn [List.map p_tokens_saved_pct
    cost_saved_pct tokens_saved cost_saved tokens_saved_pct].
  split; [reflexivity|]. split; [reflexivity|].
  intros Ht. rewrite Zle_Qle in Ht. change (inject_Z 0) with 0 in Ht.
  set (t := inject_Z (total_tokens estimate)) in *.
  assert (H0 : (0 <= int (t * 0.15))%Z) by (apply int_nonneg; lra).
  assert (H1 : (int (t * 0.15) <= int (t * 0.28))%Z)
    by (apply int_mono_nonneg; lra).
  assert (H2 : (int (t * 0.28) <= int (t * 0.42))%Z)
    by (apply int_mono_nonneg; lra).
  assert (H3 : (int (t * 0.42) <= total_tokens estimate)%Z).
  { rewrite Zle_Qle. fold t. pose proof (int_le_self (t * 0.42)). lra. }
  split; [lia|]. split; [lia|]. intros Hc.
  assert (Hm : forall m n : Z, (0 <= m <= n)%Z ->
            0 <= round (inject_Z m / 1000 * e_cost_per_1k_tokens estimate) 4
            /\ round (inject_Z m / 1000 * e_cost_per_1k_tokens estimate) 4
               <= round (inject_Z n / 1000 * e_cost_per_1k_tokens estimate) 4).
  { intros m n [Hm Hn]. rewrite Zle_Qle in Hm, Hn.
    change (inject_Z 0) with 0 in Hm.
    revert Hc Hm Hn. generalize (e_cost_per_1k_tokens estimate).
    generalize (inject_Z m) (inject_Z n). intros qm qn k Hk Hm Hn.
    assert (E : forall q, q / 1000 * k == q * k * (1 # 1000))
      by (intros; field).
    split; [apply round_nonneg | apply round_mono]; rewrite ?E; nra. }
  split; [apply (Hm _ (int (t * 0.28))); lia|].
  split; [apply (Hm _ _); lia | apply (Hm _ _); lia].
Qed.

Lemma optimization_potential_levels_witness :
  exists c b a,
    _calculate_optimization_potential
      {| e_provider := "openai"; e_model := "gpt-4-turbo";
         estimated_input_tokens := 1000; estimated_output_tokens := 200;
         total_tokens := 1200; e_cost_usd := 0.042;
         e_cost_per_1k_tokens := 0.035; e_tokens_per_dollar := 28571.43 |}
    = [("conservative", c); ("balanced", b); ("aggressive", a)]
    /\ (0 <= tokens_saved c <= tokens_saved b)%Z
    /\ (tokens_saved b <= tokens_saved a <= 1200)%Z.
Proof.
  destruct (optimization_potential_levels
              {| e_provider := "openai"; e_model := "gpt-4-turbo";
                 estimated_input_tokens := 1000;
                 estimated_output_tokens := 200;
                 total_tokens := 1200; e_cost_usd := 0.042;
                 e_cost_per_1k_tokens := 0.035;
                 e_tokens_per_dollar := 28571.43 |})
    as (c & b & a & E & _ & _ & H).
  exists c, b, a. split; [exact E|].
  destruct H as (H1 & H2 & _); [cbn; lia|]. split; assumption.
Defined.

End Potential.
